(** * CS Agreement Closing: a shallow embedding of the engine

    The Python engine drives SAP GUI through late-bound COM objects and
    keeps a small log of batch files on disk.  The embedding keeps that
    shape: a COM object is a handle into an abstract GUI world, every
    member access goes through one [dispatch] function of that world, and
    the program is written in a state-and-exception monad over the world,
    the module globals, the data directory and the log records. *)

From Stdlib Require Import ZArith QArith Qcanon Qcabs String Ascii List Lia.
From stdpp Require Import base numbers gmap strings pretty list.

Set Warnings "-register-all".

Open Scope string_scope.
Open Scope Z_scope.

(** ** Python strings *)

Module PyStr.

(** [str.isspace] on the ASCII range. *)
Definition is_space (c : ascii) : bool :=
  let n := nat_of_ascii c in
  ((9 <=? n) && (n <=? 13) || (28 <=? n) && (n <=? 32))%nat.

Definition is_digit (c : ascii) : bool :=
  let n := nat_of_ascii c in ((48 <=? n) && (n <=? 57))%nat.

Definition is_letter (c : ascii) : bool :=
  let n := nat_of_ascii c in
  ((65 <=? n) && (n <=? 90) || (97 <=? n) && (n <=? 122))%nat.

Fixpoint all_chars (p : ascii -> bool) (s : string) : bool :=
  match s with
  | EmptyString => true
  | String c r => p c && all_chars p r
  end.

Definition nonempty (s : string) : bool :=
  match s with EmptyString => false | _ => true end.

(** [s.isalpha()] and [s.isnumeric()], on the ASCII range: false on the
    empty string. *)
Definition isalpha (s : string) : bool := nonempty s && all_chars is_letter s.
Definition isnumeric (s : string) : bool := nonempty s && all_chars is_digit s.

Fixpoint lstrip_by (p : ascii -> bool) (s : string) : string :=
  match s with
  | String c r => if p c then lstrip_by p r else s
  | EmptyString => EmptyString
  end.

Definition rstrip_by (p : ascii -> bool) (s : string) : string :=
  String.rev (lstrip_by p (String.rev s)).

(** [s.strip()] *)
Definition strip (s : string) : string :=
  rstrip_by is_space (lstrip_by is_space s).

(** [s.strip(chars)] for a one-character [chars]. *)
Definition strip_char (ch : ascii) (s : string) : string :=
  rstrip_by (Ascii.eqb ch) (lstrip_by (Ascii.eqb ch) s).

(** [needle in hay] *)
Fixpoint contains (needle hay : string) : bool :=
  String.prefix needle hay
  || match hay with
     | EmptyString => false
     | String _ r => contains needle r
     end.

(** [s.endswith(suffix)] *)
Definition endswith (s suffix : string) : bool :=
  String.prefix (String.rev suffix) (String.rev s).

(** [s.replace(old, new)] for a one-character [old]. *)
Fixpoint replace (old : ascii) (new : string) (s : string) : string :=
  match s with
  | EmptyString => EmptyString
  | String c r =>
      if Ascii.eqb c old then new +:+ replace old new r
      else String c (replace old new r)
  end.

(** [s.split(sep)] for a one-character [sep]: the fields, never empty. *)
Fixpoint split_go (sep : ascii) (cur : string) (s : string) : list string :=
  match s with
  | EmptyString => [String.rev cur]
  | String c r =>
      if Ascii.eqb c sep then String.rev cur :: split_go sep EmptyString r
      else split_go sep (String c cur) r
  end.
Definition split (sep : ascii) (s : string) : list string :=
  split_go sep EmptyString s.

(** [sep.join(l)] *)
Definition join (sep : string) (l : list string) : string :=
  String.concat sep l.

Fixpoint zeros (n : nat) : string :=
  match n with O => EmptyString | S k => String "0" (zeros k) end.

(** [s.zfill(width)] for a string without sign. *)
Definition zfill (width : nat) (s : string) : string :=
  zeros (width - String.length s) +:+ s.

(** The line feed that ends some log messages. *)
Definition nl : string := String (ascii_of_nat 10) EmptyString.

Definition backslash : ascii := ascii_of_nat 92.
Definition is_sep (c : ascii) : bool :=
  Ascii.eqb c "/" || Ascii.eqb c backslash.

(** [os.path.split(p)] on Windows, drive letters aside: the part
    after the last separator, and the part before it without its
    trailing separators (kept when it is nothing but separators). *)
Fixpoint split_tail (rev_p : string) (tail : string) : string * string :=
  match rev_p with
  | EmptyString => (EmptyString, tail)
  | String c r => if is_sep c then (rev_p, tail) else split_tail r (String c tail)
  end.
Definition path_split (p : string) : string * string :=
  let '(rev_head, tail) := split_tail (String.rev p) EmptyString in
  let stripped := lstrip_by is_sep rev_head in
  (String.rev (if nonempty stripped then stripped else rev_head), tail).

(** [str(n)] for an int. *)
Definition str_int (n : Z) : string := pretty n.

End PyStr.

(** ** Python objects and exceptions *)

(** A COM object is known by the id SAP GUI gives it. *)
Definition handle := string.

Inductive value :=
| VNone
| VBool (b : bool)
| VInt (n : Z)
| VStr (s : string)
| VObj (h : handle)
| VSeq (l : list value).

(** The three ways the engine touches a late-bound object: read a
    property, assign a property, call a method.  COM looks members up
    without regard to case, so [Text] stands for [text] as well. *)
Inductive access :=
| Get (name : string)
| Put (name : string) (v : value)
| Call (name : string) (args : list value).

Inductive exn_class :=
| TransactionClosedError (module : string)
| AuthorizationMissingError
| UnboundLocalError
| ValueError
| TypeError
| RuntimeError
| AssertionError
| AttributeError
| KeyError
| IndexError
| FileNotFoundError
| ComError.

(** An exception object: its class and [str(exc)]. *)
Record exn := Exn { exn_class_of : exn_class; exn_str : string }.

(** The two exceptions of the session modules. *)
Definition unbound : exn :=
  Exn UnboundLocalError "Argument 'sess' is unbound!".

Definition closed (module : string) : exn :=
  Exn (TransactionClosedError module)
      "Attempt to perform an operation on a closed trasnsaction!".

Inductive outcome (A : Type) :=
| Ok (a : A)
| Raise (e : exn)
| Hang.
Arguments Ok {A} a.
Arguments Raise {A} e.
Arguments Hang {A}.

(** The GUI automation capability: one entry point, as in IDispatch. *)
Class Gui (W : Type) := dispatch : handle -> access -> W -> (exn + value) * W.

(** What the interpreter supplies: [float(s)], [int(s)] and the text of
    a float inside an f-string.  Floats are read as rationals; the engine
    only compares them, takes [abs] and [max], and multiplies by 1 or -1. *)
Class Python := {
  py_float : string -> option Qc;
  py_int : string -> option Z;
  py_format_float : Qc -> string
}.

(** ** Data kept by the engine *)

Inductive json :=
| JNull
| JBool (b : bool)
| JInt (n : Z)
| JStr (s : string)
| JList (l : list json)
| JDict (kv : list (string * json)).

Inductive level := DEBUG | INFO | WARNING | ERROR | CRITICAL.

Definition level_eqb (a b : level) : bool :=
  match a, b with
  | DEBUG, DEBUG | INFO, INFO | WARNING, WARNING | ERROR, ERROR
  | CRITICAL, CRITICAL => true
  | _, _ => false
  end.

(** The messages that a log holds at one level. *)
Definition logged_at (lvl : level) (j : list (level * string)) : list string :=
  omap (λ e, if level_eqb (fst e) lvl then Some (snd e) else None) j.

(** One row of the output frame of [process_agreements]. *)
Record Row := mkRow {
  Agreement : Z;
  Open_Value : option Qc;
  Open_Accruals : option Qc;
  Credit_Memo : option Z;
  Message : option string
}.

Record vbo2_globals := mkVbo2 {
  vbo2_sess : value;
  vbo2_main_wnd : value;
  vbo2_stat_bar : value;
  vbo2_tool_bar : value;
  vbo2_menu_bar : value
}.

Record va02_globals := mkVa02 {
  va02_sess : value;
  va02_main_wnd : value;
  va02_stat_bar : value;
  va02_user_area : value
}.

Record so01_globals := mkSo01 {
  so01_sess : value;
  so01_main_wnd : value;
  so01_user_area : value
}.

(** The whole machine.  [data_dir] is the directory [data] under the
    application root, a file name mapped to the JSON document the file
    holds ([json.dump] then [json.loads] is the identity on documents);
    [dump_dir] the directory [dump]; [files] the other paths for which
    [isfile] answers true; [today] the date stamp of the run; [journal]
    the records of the logger; [output] the data frame that
    [process_agreements] fills in place. *)
Record State (W : Type) := mkState {
  gui : W;
  vbo2 : vbo2_globals;
  va02 : va02_globals;
  so01 : so01_globals;
  data_dir : gmap string json;
  dump_dir : gmap string (list Row);
  files : gset string;
  today : string;
  journal : list (level * string);
  output : list Row
}.
Arguments mkState {W}.
Arguments gui {W}.
Arguments vbo2 {W}.
Arguments va02 {W}.
Arguments so01 {W}.
Arguments data_dir {W}.
Arguments dump_dir {W}.
Arguments files {W}.
Arguments today {W}.
Arguments journal {W}.
Arguments output {W}.

Definition with_gui {W} (x : W) (s : State W) : State W :=
  mkState x (vbo2 s) (va02 s) (so01 s) (data_dir s) (dump_dir s) (files s) (today s) (journal s) (output s).
Definition with_vbo2 {W} (x : vbo2_globals) (s : State W) : State W :=
  mkState (gui s) x (va02 s) (so01 s) (data_dir s) (dump_dir s) (files s) (today s) (journal s) (output s).
Definition with_va02 {W} (x : va02_globals) (s : State W) : State W :=
  mkState (gui s) (vbo2 s) x (so01 s) (data_dir s) (dump_dir s) (files s) (today s) (journal s) (output s).
Definition with_so01 {W} (x : so01_globals) (s : State W) : State W :=
  mkState (gui s) (vbo2 s) (va02 s) x (data_dir s) (dump_dir s) (files s) (today s) (journal s) (output s).
Definition with_data_dir {W} (x : gmap string json) (s : State W) : State W :=
  mkState (gui s) (vbo2 s) (va02 s) (so01 s) x (dump_dir s) (files s) (today s) (journal s) (output s).
Definition with_dump_dir {W} (x : gmap string (list Row)) (s : State W) : State W :=
  mkState (gui s) (vbo2 s) (va02 s) (so01 s) (data_dir s) x (files s) (today s) (journal s) (output s).
Definition with_journal {W} (x : list (level * string)) (s : State W) : State W :=
  mkState (gui s) (vbo2 s) (va02 s) (so01 s) (data_dir s) (dump_dir s) (files s) (today s) x (output s).
Definition with_output {W} (x : list Row) (s : State W) : State W :=
  mkState (gui s) (vbo2 s) (va02 s) (so01 s) (data_dir s) (dump_dir s) (files s) (today s) (journal s) x.

(** ** The monad: state, exceptions, and running out of fuel *)

Definition M (S A : Type) := S -> outcome A * S.

Global Instance M_ret {S} : MRet (M S) := λ A a s, (Ok a, s).
Global Instance M_bind {S} : MBind (M S) := λ A B f m s,
  match m s with
  | (Ok a, s') => f a s'
  | (Raise e, s') => (Raise e, s')
  | (Hang, s') => (Hang, s')
  end.

Definition raise {S A} (c : exn_class) (msg : string) : M S A :=
  λ s, (Raise (Exn c msg), s).
Definition reraise {S A} (e : exn) : M S A := λ s, (Raise e, s).
Definition hang {S A} : M S A := λ s, (Hang, s).
Definition gets {S A} (f : S -> A) : M S A := λ s, (Ok (f s), s).
Definition modify {S} (f : S -> S) : M S unit := λ s, (Ok tt, f s).

(** [try: m except Exception as exc: h exc] *)
Definition try_except {S A} (m : M S A) (h : exn -> M S A) : M S A :=
  λ s, match m s with
       | (Raise e, s') => h e s'
       | r => r
       end.

(** [try: m finally: fin] *)
Definition try_finally {S A} (m : M S A) (fin : M S unit) : M S A :=
  λ s, match m s with
       | (Ok a, s') => (_ ← fin; mret a) s'
       | (Raise e, s') => (_ ← fin; reraise e) s'
       | (Hang, s') => (Hang, s')
       end.

(** The state a command leaves behind. *)
Definition after {S A} (m : M S A) (s : S) : S := snd (m s).

(** The value a run ended with, if it did. *)
Definition fst_ok {S A} (x : outcome A * S) : option A :=
  match fst x with Ok a => Some a | _ => None end.

(** [assert cond, msg] *)
Definition assert {S} (cond : bool) (msg : string) : M S unit :=
  if cond then mret tt else raise AssertionError msg.

Section Primitives.
Context {W : Type} `{Gui W}.

(** A member access on a Python value: only COM objects dispatch,
    anything else has no such attribute. *)
Definition member (o : value) (a : access) : M (State W) value :=
  match o with
  | VObj h => λ s,
      match dispatch h a (gui s) with
      | (inr v, w) => (Ok v, with_gui w s)
      | (inl e, w) => (Raise e, with_gui w s)
      end
  | _ => raise AttributeError "object has no such attribute"
  end.

Definition get_attr (o : value) (name : string) := member o (Get name).
Definition set_attr (o : value) (name : string) (v : value)
  : M (State W) unit := _ ← member o (Put name v); mret tt.
Definition call (o : value) (name : string) (args : list value) :=
  member o (Call name args).
Definition call_ (o : value) (name : string) (args : list value)
  : M (State W) unit := _ ← member o (Call name args); mret tt.

Definition as_str (v : value) : M (State W) string :=
  match v with VStr s => mret s | _ => raise TypeError "str expected" end.
Definition as_int (v : value) : M (State W) Z :=
  match v with
  | VInt n => mret n
  | VBool b => mret (if b then 1 else 0)
  | _ => raise TypeError "int expected"
  end.
(** Iterating a COM collection; a single object is not iterable. *)
Definition as_seq (v : value) : M (State W) (list value) :=
  match v with VSeq l => mret l | _ => raise TypeError "not iterable" end.

(** [log.<level>(msg)] on the logger "master". *)
Definition log (lvl : level) (msg : string) : M (State W) unit :=
  modify (λ s, with_journal (journal s ++ [(lvl, msg)]) s).

End Primitives.

(** [v == "text"] *)
Definition is_str (v : value) (t : string) : bool :=
  match v with VStr s => String.eqb s t | _ => false end.

(** [v is None] *)
Definition is_none (v : value) : bool :=
  match v with VNone => true | _ => false end.

(** Truth value of an object in a condition. *)
Definition truthy (v : value) : bool :=
  match v with
  | VNone => false
  | VBool b => b
  | VInt n => negb (n =? 0)
  | VStr s => PyStr.nonempty s
  | VObj _ => true
  | VSeq l => match l with [] => false | _ => true end
  end.

(** [str(v)] of an object placed in an f-string. *)
Definition str_value (v : value) : string :=
  match v with
  | VNone => "None"
  | VBool b => if b then "True" else "False"
  | VInt n => PyStr.str_int n
  | VStr s => s
  | VObj _ => "<COMObject>"
  | VSeq _ => "<COMObject collection>"
  end.

(** [for x in xs: body x], where the body says whether to go on
    ([None]) or to leave the enclosing function with a value. *)
Fixpoint for_each {S A B} (body : A -> M S (option B)) (xs : list A)
  : M S (option B) :=
  match xs with
  | [] => mret None
  | x :: rest =>
      r ← body x;
      match r with
      | Some b => mret (Some b)
      | None => for_each body rest
      end
  end.

(** [[f x for x in xs]] *)
Fixpoint map_each {S A B} (f : A -> M S B) (xs : list A) : M S (list B) :=
  match xs with
  | [] => mret []
  | x :: rest => y ← f x; ys ← map_each f rest; mret (y :: ys)
  end.

(** [while cond: body], cut off after [fuel] rounds. *)
Fixpoint while {S} (fuel : nat) (cond : M S bool) (body : M S unit)
  : M S unit :=
  match fuel with
  | O => hang
  | S k =>
      c ← cond;
      if c : bool return M S unit then _ ← body; while k cond body
      else mret tt
  end.

(** The float [0.01]. *)
Definition one_cent : Qc := Q2Qc (1 # 100).

(** [max(a, b)] of two numbers: the second only when strictly larger. *)
Definition py_max (a b : Qc) : Qc := if bool_decide (a < b)%Qc then b else a.

(** [coll[0]] on a COM collection. *)
Definition item0 {W} `{Gui W} (coll : value) : M (State W) value :=
  match coll with
  | VSeq (x :: _) => mret x
  | VSeq [] => raise IndexError "index out of range"
  | VObj _ => call coll "Item" [VInt 0]
  | _ => raise TypeError "object is not subscriptable"
  end.

(** ** vbo2.py: the settlement session *)

(** The dict returned by [settle_agreement]. *)
Record SettlementResult := mkResult {
  open_value : option Qc;
  open_accruals : option Qc;
  document_number : option Z;
  document_type : option string;
  message : option string;
  message_type : option string
}.

(** What [_find] hands back: a pair on the regular exits, the bare
    dialog text on the two early ones. *)
Inductive find_result :=
| FPair (msg_type msg : string)
| FText (text : string).

Module Vbo2.
Section Vbo2.
Context {W : Type} `{Gui W} `{Python}.
Abbreviation Cmd := (M (State W)).

Definition _sess : Cmd value := gets (λ s, vbo2_sess (vbo2 s)).
Definition _main_wnd : Cmd value := gets (λ s, vbo2_main_wnd (vbo2 s)).
Definition _stat_bar : Cmd value := gets (λ s, vbo2_stat_bar (vbo2 s)).
Definition _tool_bar : Cmd value := gets (λ s, vbo2_tool_bar (vbo2 s)).
Definition _menu_bar : Cmd value := gets (λ s, vbo2_menu_bar (vbo2 s)).

Definition sendVkey (key : Z) : Cmd unit :=
  w ← _main_wnd; call_ w "sendVkey" [VInt key].

Definition _press_cancel : Cmd unit := sendVkey 12.
Definition _press_save : Cmd unit := sendVkey 11.
Definition _press_back : Cmd unit := sendVkey 3.
Definition _press_enter : Cmd unit := sendVkey 0.

Definition _get_dialog_text (active_wnd : value) : Cmd string :=
  t ← get_attr active_wnd "Type";
  _ ← assert (is_str t "GuiModalWindow") EmptyString;
  container_top ← call active_wnd "Children" [VInt 1];
  children ← get_attr container_top "Children" ≫= as_seq;
  lines ← map_each (λ child,
             t ← get_attr child "Text" ≫= as_str;
             mret (PyStr.strip t)) children;
  mret (PyStr.strip (PyStr.join " " lines) +:+ ".").

Definition _is_popup_dialog (msg : option string) : Cmd bool :=
  sess ← _sess;
  active_wnd ← get_attr sess "ActiveWindow";
  t ← get_attr active_wnd "Type";
  if is_str t "GuiModalWindow" then
    match msg with
    | None => mret true
    | Some m =>
        txt ← _get_dialog_text active_wnd;
        mret (PyStr.contains m txt)
    end
  else mret false.

(** The inner loop of [_close_popup_dialog]: press the first button
    of the row whose caption matches. *)
Definition press_in (btn_caption : string) (grandchildren : list value)
  : Cmd (option unit) :=
  for_each (λ grandchild,
    t ← get_attr grandchild "Type";
    if negb (is_str t "GuiButton") then mret None
    else
      txt ← get_attr grandchild "Text" ≫= as_str;
      if String.eqb btn_caption (PyStr.strip txt)
      then _ ← call_ grandchild "Press" []; mret (Some tt)
      else mret None) grandchildren.

Definition _close_popup_dialog (confirm : bool) : Cmd unit :=
  sess ← _sess;
  wnd ← get_attr sess "ActiveWindow";
  title ← get_attr wnd "Text";
  if is_str title "Information" then
    if confirm then _press_enter else _press_cancel
  else
    let btn_caption := if confirm then "Yes" else "No" in
    wnd ← get_attr sess "ActiveWindow";
    children ← get_attr wnd "Children" ≫= as_seq;
    _ ← for_each (λ child,
           grandchildren ← get_attr child "Children" ≫= as_seq;
           press_in btn_caption grandchildren) children;
    mret tt.

Definition _set_agreement_number (val : string) : Cmd unit :=
  w ← _main_wnd;
  fld ← call w "FindByName" [VStr "RV13A-KNUMA_BO"; VStr "GuiCTextField"];
  set_attr fld "Text" (VStr val).

Definition _clear_input_field : Cmd unit :=
  _set_agreement_number EmptyString.

Definition _press_settle : Cmd unit :=
  t ← _tool_bar; b ← call t "FindById" [VStr "btn[19]"]; call_ b "press" [].

Definition _display_sales_volume : Cmd unit :=
  t ← _tool_bar; b ← call t "FindById" [VStr "btn[17]"]; call_ b "press" [].

Definition _convert_amount (num : string) : Cmd Qc :=
  let stripped := PyStr.strip num in
  let '(stripped, coeff) :=
    if PyStr.endswith num "-"
    then (PyStr.strip_char "-" stripped, (-1)%Qc)
    else (stripped, 1%Qc) in
  let repl_a := PyStr.replace "." EmptyString stripped in
  let repl_b := PyStr.replace "," "." repl_a in
  match py_float repl_b with
  | Some f => mret (f * coeff)%Qc
  | None => raise ValueError "could not convert string to float"
  end.

Definition _scroll_to_bottom (usr_area : value) : Cmd unit :=
  scrollbar ← get_attr usr_area "verticalScrollbar";
  mx ← get_attr scrollbar "Maximum";
  set_attr scrollbar "Position" mx.

Definition _get_column_index (tbl : value) (name : string) : Cmd Z :=
  t ← get_attr tbl "Type";
  _ ← assert (is_str t "GuiTableControl") EmptyString;
  cols ← get_attr tbl "Columns" ≫= as_seq;
  r ← for_each (λ '(idx, col),
         n ← get_attr col "Name";
         if is_str n name then mret (Some idx) else mret None)
       (zip (seqZ 0 (Z.of_nat (length cols))) cols);
  match r with
  | Some idx => mret idx
  | None => raise AssertionError
              "Column 'Scales' not found in the used layout!"
  end.

Definition _exists_unchecked (tbl : value) (col_idx : Z) : Cmd bool :=
  c00 ← call tbl "GetCell" [VInt 0; VInt 0];
  t ← get_attr c00 "Text";
  if is_str t EmptyString then mret false
  else
    n ← get_attr tbl "VisibleRowCount" ≫= as_int;
    r ← for_each (λ row_idx,
           chkbox ← call tbl "GetCell" [VInt row_idx; VInt col_idx];
           sel ← get_attr chkbox "Selected";
           if negb (truthy sel) then mret (Some true) else mret None)
         (seqZ 0 n);
    mret (default false r).

Fixpoint _get_accounting_document (fuel : nat) (root node : value)
    (keyword : string) : Cmd (option Z) :=
  match fuel with
  | O => hang
  | S k =>
      text ← call root "GetItemText" [node; VStr "COL0"] ≫= as_str;
      if PyStr.contains keyword text then
        let num := default EmptyString (last (PyStr.split " " text)) in
        match py_int num with
        | Some n => mret (Some n)
        | None => raise ValueError "invalid literal for int()"
        end
      else
        subs ← call root "GetSubNodesCol" [node];
        if is_none subs then mret None
        else
          next ← try_except
                   (next_node ← call root "GetNextNodeKey" [node];
                    mret (inl next_node))
                   (λ _, subs ← call root "GetSubNodesCol" [node];
                         subnode ← item0 subs;
                         mret (inr subnode));
          match next with
          | inl next_node => _get_accounting_document k root next_node keyword
          | inr subnode => _get_accounting_document k root subnode keyword
          end
  end.

Definition _reopen_agreement (fuel : nat) : Cmd unit :=
  _ ← _press_enter;
  _ ← while fuel
        (sb ← _stat_bar;
         t ← get_attr sb "Text" ≫= as_str;
         mret (PyStr.contains "being processed" t))
        _press_enter;
  b ← _is_popup_dialog (Some "is marked for deletion");
  if b : bool then _close_popup_dialog true else mret tt.

Definition _get_document_number (fuel : nat) (doc_type : string)
  : Cmd (option Z * string) :=
  mb ← _menu_bar;
  m ← call mb "FindById" [VStr "menu[3]/menu[3]"];
  _ ← call_ m "select" [];
  sb ← _stat_bar;
  t ← get_attr sb "Text" ≫= as_str;
  if PyStr.contains "No rebate credit memos exist" t then
    t ← get_attr sb "Text" ≫= as_str;
    mret (None, t)
  else
    sess ← _sess;
    dialog ← call sess "FindById" [VStr "wnd[1]"];
    btn ← call dialog "FindById" [VStr "tbar[0]/btn[0]"];
    _ ← call_ btn "press" [];
    docs ← call sess "FindById" [VStr "wnd[2]"];
    menu_tree ← call docs "findByName" [VStr "shell"; VStr "GuiShell"];
    kwd ← (if String.eqb doc_type "request"
           then mret "Credit memo requests"
           else if String.eqb doc_type "memo"
           then mret "Rebate credit memo "
           else raise UnboundLocalError
                  "local variable 'kwd' referenced before assignment");
    top ← get_attr menu_tree "TopNode";
    num ← _get_accounting_document fuel menu_tree top kwd;
    _ ← while fuel (_is_popup_dialog None) _press_cancel;
    mret (num, EmptyString).

Definition _go_to_start_window : Cmd unit :=
  _ ← _press_cancel;
  sess ← _sess;
  call_ sess "StartTransaction" [VStr "VBO2"].

(** The status bar keywords of [_find], in the order the dict is
    walked. *)
Definition messages : list (string * list string) :=
  [ ("W", ["Only display is possible"]);
    ("E", ["does not exist"; "cannot be processed";
           "already being processed"]) ].

Definition classify_status (status_msg : string) : option string :=
  fst <$> List.find
            (λ '(_, kwds),
               existsb (λ kwd, PyStr.contains kwd status_msg) kwds)
            messages.

Definition _find (num : Z) (accept_inactive_accs accept_outdated_vols : bool)
  : Cmd find_result :=
  _ ← _set_agreement_number (PyStr.str_int num);
  _ ← _press_enter;
  (* handle popup dialogs *)
  early ← (b ← _is_popup_dialog (Some "is marked for deletion");
           if b : bool then
             _ ← _close_popup_dialog true;
             if negb accept_inactive_accs then
               _ ← _press_cancel;
               sess ← _sess;
               wnd ← get_attr sess "ActiveWindow";
               t ← _get_dialog_text wnd;
               mret (Some (FText t))
             else mret None
           else
             b ← _is_popup_dialog (Some "is not current");
             if b : bool then
               _ ← _close_popup_dialog true;
               if negb accept_outdated_vols then
                 _ ← _go_to_start_window;
                 sess ← _sess;
                 wnd ← get_attr sess "ActiveWindow";
                 t ← _get_dialog_text wnd;
                 mret (Some (FText t))
               else mret None
             else mret None);
  match early with
  | Some r => mret r
  | None =>
      (* handle status bar messages *)
      sb ← _stat_bar;
      status_msg ← get_attr sb "Text" ≫= as_str;
      match classify_status status_msg with
      | Some msg_type => mret (FPair msg_type status_msg)
      | None => mret (FPair "I" "Agreement found and opened.")
      end
  end.

(** [vals.update({k: v})] on a dict that keeps insertion order. *)
Fixpoint dict_update (k v : string) (d : list (string * string))
  : list (string * string) :=
  match d with
  | [] => [(k, v)]
  | (k', v') :: rest =>
      if String.eqb k k' then (k', v) :: rest
      else (k', v') :: dict_update k v rest
  end.

(** The label loop of [_get_sales_volumes]. *)
Fixpoint collect_labels (lbls : list value) (vals : list (string * string))
  : Cmd (list (string * string)) :=
  match lbls with
  | [] => mret vals
  | lbl :: rest =>
      ci ← get_attr lbl "ColorIndex";
      match ci with
      | VInt 3 =>
          intens ← get_attr lbl "ColorIntensified";
          if truthy intens then collect_labels rest vals
          else
            t ← get_attr lbl "Text" ≫= as_str;
            if String.eqb (PyStr.strip t) EmptyString
            then collect_labels rest vals
            else
              t ← get_attr lbl "Text" ≫= as_str;
              if PyStr.isalpha t then collect_labels rest vals
              else
                id ← get_attr lbl "Id" ≫= as_str;
                t ← get_attr lbl "Text" ≫= as_str;
                collect_labels rest (dict_update id (PyStr.strip t) vals)
      | _ => collect_labels rest vals
      end
  end.

Definition _get_sales_volumes : Cmd (Qc * Qc) :=
  _ ← _display_sales_volume;
  b ← _is_popup_dialog (Some "is marked for deletion");
  _ ← (if b : bool then _close_popup_dialog true else mret tt);
  w ← _main_wnd;
  usr ← call w "FindById" [VStr "usr"];
  _ ← _scroll_to_bottom usr;
  lbls ← call w "findAllByName" [VStr EmptyString; VStr "GuiLabel"]
           ≫= as_seq;
  vals ← collect_labels lbls [];
  _ ← _press_cancel;
  match head vals, last vals with
  | Some (_, first), Some (_, final) =>
      total ← _convert_amount first;
      accruals ← _convert_amount final;
      mret (total, accruals)
  | _, _ => raise IndexError "list index out of range"
  end.

(** The [while] of [_scales_checked]: the row at which it stops. *)
Fixpoint find_condition (fuel : nat) (conditions : value)
    (condition_key : string) (row_idx : Z) : Cmd Z :=
  match fuel with
  | O => hang
  | S k =>
      rc ← get_attr conditions "RowCount" ≫= as_int;
      if row_idx <? rc then
        key_comb ← call conditions "GetCellValue"
                     [VInt row_idx; VStr "GSTXT"];
        if negb (is_str key_comb condition_key)
        then find_condition k conditions condition_key (row_idx + 1)
        else
          _ ← set_attr conditions "SelectedRows"
                (VStr (PyStr.str_int row_idx));
          _ ← call_ conditions "SetCurrentCell"
                [VInt row_idx; VStr "GSTXT"];
          _ ← call_ conditions "DoubleClickCurrentCell" [];
          mret row_idx
      else mret row_idx
  end.

Definition _scales_checked (fuel : nat) : Cmd bool :=
  tb ← _tool_bar;
  btns ← get_attr tb "Children" ≫= as_seq;
  _ ← for_each (λ btn,
         t ← get_attr btn "Text";
         if is_str t "Conditions"
         then _ ← call_ btn "press" []; mret (Some tt)
         else mret None) btns;
  sess ← _sess;
  conditions ← call sess "FindById"
                 [VStr "wnd[1]/usr/cntlCUSTOM_CONTAINER/shellcont/shell"];
  row_idx ← find_condition fuel conditions
              "SalOrg/SalOff/CustHier/Usage" 0;
  rc ← get_attr conditions "RowCount";
  _ ← assert (negb (match rc with VInt n => row_idx =? n | _ => false end))
        "Condition key not found in the list!";
  w ← _main_wnd;
  tbl ← call w "FindByName"
          [VStr "SAPMV13ATCTRL_FAST_ENTRY"; VStr "GuiTable"];
  col_idx ← _get_column_index tbl "RV13A-KOSTKZ";
  is_unchecked ← _exists_unchecked tbl col_idx;
  _ ← _press_back;
  sb ← _stat_bar;
  mt ← get_attr sb "MessageType";
  _ ← (if is_str mt "W" then _press_enter else mret tt);
  _ ← _press_cancel;
  mret (negb is_unchecked).

Definition _get_agreement_status : Cmd value :=
  w ← _main_wnd;
  fld ← call w "FindById" [VStr "usr/ctxtKONA-BOSTA"];
  get_attr fld "Text".

Definition set_globals (f : vbo2_globals -> vbo2_globals) : Cmd unit :=
  modify (λ s, with_vbo2 (f (vbo2 s)) s).

Definition start (sess : value) : Cmd unit :=
  cur ← _sess;
  if negb (is_none cur) then mret tt
  else if is_none sess
  then raise UnboundLocalError "Argument 'sess' is unbound!"
  else
    _ ← log INFO "Starting VBO2 ...";
    _ ← set_globals (λ g, mkVbo2 sess (vbo2_main_wnd g) (vbo2_stat_bar g)
                                (vbo2_tool_bar g) (vbo2_menu_bar g));
    main_wnd ← call sess "FindById" [VStr "wnd[0]"];
    _ ← set_globals (λ g, mkVbo2 (vbo2_sess g) main_wnd (vbo2_stat_bar g)
                                (vbo2_tool_bar g) (vbo2_menu_bar g));
    stat_bar ← call main_wnd "FindById" [VStr "sbar"];
    _ ← set_globals (λ g, mkVbo2 (vbo2_sess g) (vbo2_main_wnd g) stat_bar
                                (vbo2_tool_bar g) (vbo2_menu_bar g));
    tool_bar ← call main_wnd "FindById" [VStr "tbar[1]"];
    _ ← set_globals (λ g, mkVbo2 (vbo2_sess g) (vbo2_main_wnd g)
                                (vbo2_stat_bar g) tool_bar (vbo2_menu_bar g));
    menu_bar ← call main_wnd "FindById" [VStr "mbar"];
    _ ← set_globals (λ g, mkVbo2 (vbo2_sess g) (vbo2_main_wnd g)
                                (vbo2_stat_bar g) (vbo2_tool_bar g) menu_bar);
    sess ← _sess;
    _ ← call_ sess "StartTransaction" [VStr "VBO2"];
    log INFO "VBO2 running.".

Definition close : Cmd unit :=
  _ ← log INFO "Closing VBO2 ...";
  cur ← _sess;
  if is_none cur then mret tt
  else
    _ ← call_ cur "EndTransaction" [];
    b ← _is_popup_dialog None;
    _ ← (if b : bool then _close_popup_dialog true else mret tt);
    _ ← set_globals (λ _, mkVbo2 VNone VNone VNone VNone VNone);
    log INFO "VBO2 closed.".

(** [msg_type, msg = _find(...)]: a pair unpacks, and so does a text
    of exactly two characters. *)
Definition unpack2 (r : find_result) : Cmd (string * string) :=
  match r with
  | FPair a b => mret (a, b)
  | FText EmptyString =>
      raise ValueError "not enough values to unpack (expected 2, got 0)"
  | FText (String _ EmptyString) =>
      raise ValueError "not enough values to unpack (expected 2, got 1)"
  | FText (String a (String b EmptyString)) =>
      mret (String a EmptyString, String b EmptyString)
  | FText (String _ (String _ (String _ _))) =>
      raise ValueError "too many values to unpack (expected 2)"
  end.

(** [max(0.01, thresh)] *)
Definition effective_threshold (thresh : Qc) : Qc :=
  py_max one_cent thresh.


Definition settle_agreement (fuel : nat) (num : Z) (thresh : Qc)
    (accept_inactive_accs accept_outdated_vols : bool)
  : Cmd SettlementResult :=
  sess ← _sess;
  if is_none sess then
    raise (TransactionClosedError "vbo2")
          "Attempt to perform an operation on a closed trasnsaction!"
  else
  r ← _find num accept_inactive_accs accept_outdated_vols;
  '(msg_type, msg) ← unpack2 r;
  if negb (String.eqb msg_type "I") then
    result ← (if String.eqb msg_type "W" then
                '(num, msg') ← _get_document_number fuel "memo";
                '(open_val, open_accr) ← _get_sales_volumes;
                mret (mkResult (Some open_val) (Some open_accr) num
                        (Some "credit_memo")
                        (Some (msg +:+ " " +:+ msg')) (Some msg_type))
              else
                mret (mkResult None None None None
                        (Some msg) (Some msg_type)));
    _ ← _go_to_start_window;
    _ ← _clear_input_field;
    mret result
  else
  '(open_val, open_accr) ← _get_sales_volumes;
  status ← _get_agreement_status;
  if is_str status "C" || is_str status "D" then
    '(num, msg) ← _get_document_number fuel "memo";
    _ ← _go_to_start_window;
    mret (mkResult (Some open_val) (Some open_accr) num
            (Some "credit_memo")
            (Some ("The agreement status '" +:+ str_value status
                   +:+ "' does not permit creating the final settlement! "
                   +:+ msg))
            (Some "E"))
  else if negb (bool_decide (open_val = 0%Qc)) then
    _ ← _go_to_start_window;
    mret (mkResult (Some open_val) (Some open_accr) None None
            (Some "Could not settle the agreement! Open value is not 0 EUR.")
            (Some "E"))
  else
  (* cap the threshold to a valid bottom if negatives are used *)
  let thresh := effective_threshold thresh in
  gate ← (if bool_decide (thresh ≤ Qcabs open_accr)%Qc
          then checked ← _scales_checked fuel; mret (negb checked)
          else mret false);
  if gate : bool then
    _ ← _go_to_start_window;
    mret (mkResult (Some open_val) (Some open_accr) None None
            (Some ("Could not settle the agreement! The provision "
                   +:+ "open value is under the specified threshold "
                   +:+ py_format_float thresh
                   +:+ " EUR and scales are unchecked!"))
            (Some "E"))
  else
  _ ← _press_settle;
  sb ← _stat_bar;
  t ← get_attr sb "Text";
  let result :=
    if is_str t "Function code cannot be selected"
    then mkResult (Some open_val) (Some open_accr) None None
           (Some "The 'Create Final Settlement ...' button not found!")
           (Some "E")
    else mkResult (Some open_val) (Some open_accr) None None None None in
  b ← _is_popup_dialog
        (Some "A credit memo request was created for settlement");
  if b : bool then
    _ ← _close_popup_dialog true;
    _ ← _press_save;
    _ ← _reopen_agreement fuel;
    '(num, _) ← _get_document_number fuel "request";
    _ ← _press_cancel;
    _ ← _press_cancel;
    _ ← _go_to_start_window;
    mret (mkResult (open_value result) (open_accruals result) num
            (Some "memo_request")
            (Some "Agreement successfully settled.") (Some "I"))
  else
  sess ← _sess;
  wnd ← get_attr sess "ActiveWindow";
  err_msg ← _get_dialog_text wnd;
  err_msg ← (if PyStr.contains "see next warning message" err_msg then
               _ ← _press_enter;
               sess ← _sess;
               wnd ← get_attr sess "ActiveWindow";
               _get_dialog_text wnd
             else mret err_msg);
  let result := mkResult (open_value result) (open_accruals result)
                  (document_number result) (document_type result)
                  (Some err_msg) (Some "E") in
  b ← _is_popup_dialog None;
  _ ← (if b : bool then _close_popup_dialog true else mret tt);
  _ ← _go_to_start_window;
  mret result.

End Vbo2.
End Vbo2.

(** ** va02.py: the order amendment session *)

Module Va02.
Section Va02.
Context {W : Type} `{Gui W}.
Abbreviation Cmd := (M (State W)).

Definition _sess : Cmd value := gets (λ s, va02_sess (va02 s)).
Definition _main_wnd : Cmd value := gets (λ s, va02_main_wnd (va02 s)).
Definition _stat_bar : Cmd value := gets (λ s, va02_stat_bar (va02 s)).
Definition _user_area : Cmd value := gets (λ s, va02_user_area (va02 s)).

Definition sendVkey (key : Z) : Cmd unit :=
  w ← _main_wnd; call_ w "sendVkey" [VInt key].

Definition _press_save : Cmd unit := sendVkey 11.
Definition _decline : Cmd unit := sendVkey 12.
Definition _confirm : Cmd unit := sendVkey 0.

Definition _get_dialog_text (active_wnd : value) : Cmd string :=
  t ← get_attr active_wnd "Type";
  _ ← assert (is_str t "GuiModalWindow") EmptyString;
  container ← call active_wnd "Children" [VInt 1];
  container ← call container "Children" [VInt 1];
  txt ← get_attr container "Text" ≫= as_str;
  mret (PyStr.strip txt).

Definition _format_sap_path (folder_path : string) : string :=
  folder_path +:+ String PyStr.backslash EmptyString.

Definition _set_order_number (val : string) : Cmd unit :=
  w ← _main_wnd;
  fld ← call w "findByName" [VStr "VBAK-VBELN"; VStr "GuiCTextField"];
  set_attr fld "Text" (VStr val).

Definition _clear_input_field : Cmd unit :=
  _set_order_number EmptyString.

Definition _press_search : Cmd unit :=
  w ← _main_wnd;
  b ← call w "findByName" [VStr "BT_SUCH"; VStr "GuiButton"];
  call_ b "press" [].

Definition _get_tab (name : string) : Cmd value :=
  ua ← _user_area;
  tabs ← call ua "findByName" [VStr "TAXI_TABSTRIP_HEAD"; VStr "GuiTabStrip"];
  children ← get_attr tabs "Children" ≫= as_seq;
  r ← for_each (λ tab,
         t ← get_attr tab "Text";
         if is_str t name then mret (Some tab) else mret None) children;
  match r with
  | Some tab => mret tab
  | None => raise AssertionError
              ("Tab with name '" +:+ name +:+ "' not found!")
  end.

Definition _is_popup_dialog (msg : option string) : Cmd bool :=
  sess ← _sess;
  active_wnd ← get_attr sess "ActiveWindow";
  t ← get_attr active_wnd "Type";
  if is_str t "GuiModalWindow" then
    match msg with
    | None => mret true
    | Some m =>
        txt ← _get_dialog_text active_wnd;
        mret (PyStr.contains m txt)
    end
  else mret false.

Definition _is_error_message (msg : option string) : Cmd bool :=
  sb ← _stat_bar;
  mt ← get_attr sb "MessageType";
  if is_str mt "E" then
    match msg with
    | None => mret true
    | Some m =>
        t ← get_attr sb "Text" ≫= as_str;
        mret (PyStr.contains m t)
    end
  else mret false.

Definition press_in (btn_caption : string) (grandchildren : list value)
  : Cmd (option unit) :=
  for_each (λ grandchild,
    t ← get_attr grandchild "Type";
    if negb (is_str t "GuiButton") then mret None
    else
      txt ← get_attr grandchild "Text" ≫= as_str;
      if negb (String.eqb btn_caption (PyStr.strip txt)) then mret None
      else _ ← call_ grandchild "Press" []; mret (Some tt)) grandchildren.

Definition _close_popup_dialog (confirm : bool) : Cmd unit :=
  sess ← _sess;
  wnd ← get_attr sess "ActiveWindow";
  title ← get_attr wnd "Text";
  if is_str title "Information" then
    if confirm then _confirm else _decline
  else
    let btn_caption := if confirm then "Yes" else "No" in
    wnd ← get_attr sess "ActiveWindow";
    children ← get_attr wnd "Children" ≫= as_seq;
    _ ← for_each (λ child,
           grandchildren ← get_attr child "Children" ≫= as_seq;
           press_in btn_caption grandchildren) children;
    mret tt.

Definition _display_header_details : Cmd unit :=
  ua ← _user_area;
  b ← call ua "findByName" [VStr "BT_HEAD"; VStr "GuiButton"];
  if is_none b then mret tt
  else
    b ← call ua "findByName" [VStr "BT_HEAD"; VStr "GuiButton"];
    call_ b "press" [].

(** The row [_add_entry] writes to: the first one whose partner cell
    is empty, the last one when none is, row 0 of an empty table. *)
Fixpoint free_row (rows : list (Z * value)) (row_idx : Z) : Cmd Z :=
  match rows with
  | [] => mret row_idx
  | (idx, row) :: rest =>
      cell ← call row "ElementAt" [VInt 1];
      t ← get_attr cell "Text";
      if is_str t EmptyString then mret idx else free_row rest idx
  end.

Definition _add_entry (key : string) (val : value) : Cmd unit :=
  w ← _main_wnd;
  table ← call w "findByName"
            [VStr "SAPLV09CGV_TC_PARTNER_OVERVIEW"; VStr "GuiTableControl"];
  rows ← get_attr table "Rows" ≫= as_seq;
  row_idx ← free_row (zip (seqZ 0 (Z.of_nat (length rows))) rows) 0;
  r ← call table "Rows" [VInt row_idx];
  c ← call r "ElementAt" [VInt 0];
  _ ← set_attr c "Key" (VStr key);
  r ← call table "Rows" [VInt row_idx];
  c ← call r "ElementAt" [VInt 1];
  set_attr c "Text" val.

(** The [while] of [_open_order]. *)
Fixpoint dismiss_blocks (fuel : nat) : Cmd unit :=
  match fuel with
  | O => hang
  | S k =>
      b ← _is_popup_dialog None;
      if b : bool then
        b1 ← _is_popup_dialog
               (Some "Order is blocked. Please check status details");
        if b1 : bool then
          _ ← _close_popup_dialog true; dismiss_blocks k
        else
          b2 ← _is_popup_dialog (Some "has delivery block");
          if b2 : bool then
            _ ← _close_popup_dialog true; dismiss_blocks k
          else
            sess ← _sess;
            wnd ← get_attr sess "ActiveWindow";
            msg ← _get_dialog_text wnd;
            raise RuntimeError msg
      else mret tt
  end.

Definition _open_order (fuel : nat) (num : Z) : Cmd unit :=
  _ ← _set_order_number (PyStr.str_int num);
  _ ← _press_search;
  b ← _is_popup_dialog (Some "is marked for deletion");
  _ ← (if b : bool then _close_popup_dialog true else mret tt);
  b ← _is_error_message (Some "No authorization for maintaining");
  if b : bool then
    sb ← _stat_bar;
    t ← get_attr sb "Text";
    raise AuthorizationMissingError (str_value t)
  else
    b ← _is_error_message None;
    if b : bool then
      sb ← _stat_bar;
      t ← get_attr sb "Text";
      raise RuntimeError (str_value t)
    else dismiss_blocks fuel.

Definition _toggle_invoice_printing (toggled : bool) : Cmd unit :=
  _ ← _display_header_details;
  tab ← _get_tab "Billing Document";
  _ ← call_ tab "select" [];
  bill_doc ← _get_tab "Billing Document";
  subs_inv_process ← call bill_doc "findByName"
                       [VStr "VBKD-MRNKZ"; VStr "GuiCheckBox"];
  set_attr subs_inv_process "Selected" (VBool (negb toggled)).

Definition _add_approvers (user_ids : list value) : Cmd unit :=
  _ ← _display_header_details;
  tab ← _get_tab "Partners";
  _ ← call_ tab "select" [];
  _ ← for_each (λ '(nth, usr_id),
         _ ← _add_entry ("Y" +:+ PyStr.str_int nth) usr_id;
         mret (@None unit))
       (zip (seqZ 1 (Z.of_nat (length user_ids))) user_ids);
  mret tt.

Definition isfile (path : string) : Cmd bool :=
  gets (λ s, bool_decide (path ∈ files s)).

Definition _attach_file (file_path : string) : Cmd unit :=
  let '(folder_path, file_name) := PyStr.path_split file_path in
  present ← isfile file_path;
  if negb present then
    (* save any changes made before attempting to attach the file *)
    _ ← _press_save;
    raise FileNotFoundError
          ("File '" +:+ file_path +:+ "' doesn't exist!")
  else
    _ ← try_except
          (w ← _main_wnd;
           sh ← call w "findById" [VStr "titl/shellcont/shell"];
           _ ← call_ sh "pressContextButton" [VStr "%GOS_TOOLBOX"];
           sh ← call w "findById" [VStr "titl/shellcont/shell"];
           _ ← call_ sh "selectContextMenuItem" [VStr "%GOS_PCATTA_CREA"];
           sess ← _sess;
           fld ← call sess "findById" [VStr "wnd[1]/usr/ctxtDY_PATH"];
           _ ← set_attr fld "Text" (VStr (_format_sap_path folder_path));
           fld ← call sess "findById" [VStr "wnd[1]/usr/ctxtDY_FILENAME"];
           set_attr fld "Text" (VStr file_name))
          (λ _,
           _ ← _press_save;
           raise RuntimeError
             ("Failed to open attachments list! Possible cause: The "
              +:+ "'Attachments' button is completely missing from the "
              +:+ "transaction toolbar or an incorrect path to an "
              +:+ "existing GUI object is used. All previous changes "
              +:+ "have been saved."));
    _confirm.

Definition set_globals (f : va02_globals -> va02_globals) : Cmd unit :=
  modify (λ s, with_va02 (f (va02 s)) s).

Definition start (sess : value) : Cmd unit :=
  cur ← _sess;
  if negb (is_none cur) then mret tt
  else if is_none sess
  then raise UnboundLocalError "Argument 'sess' is unbound!"
  else
    _ ← set_globals (λ g, mkVa02 sess (va02_main_wnd g) (va02_stat_bar g)
                                (va02_user_area g));
    main_wnd ← call sess "FindById" [VStr "wnd[0]"];
    _ ← set_globals (λ g, mkVa02 (va02_sess g) main_wnd (va02_stat_bar g)
                                (va02_user_area g));
    stat_bar ← call main_wnd "findById" [VStr "sbar"];
    _ ← set_globals (λ g, mkVa02 (va02_sess g) (va02_main_wnd g) stat_bar
                                (va02_user_area g));
    user_area ← call main_wnd "FindById" [VStr "usr"];
    _ ← set_globals (λ g, mkVa02 (va02_sess g) (va02_main_wnd g)
                                (va02_stat_bar g) user_area);
    sess ← _sess;
    _ ← call_ sess "StartTransaction" [VStr "VA02"];
    _clear_input_field.

Definition close : Cmd unit :=
  cur ← _sess;
  if is_none cur then mret tt
  else
    _ ← call_ cur "EndTransaction" [];
    b ← _is_popup_dialog None;
    _ ← (if b : bool then _close_popup_dialog true else mret tt);
    set_globals (λ g, mkVa02 VNone VNone VNone (va02_user_area g)).

(** The checks on one approver id. *)
Definition check_approver (app : value) : Cmd unit :=
  match app with
  | VInt _ | VStr _ =>
      let txt := str_value app in
      if PyStr.isnumeric txt && (String.length txt =? 8)%nat then mret tt
      else raise ValueError ("Invalid approver ID used: " +:+ txt +:+ "!")
  | _ => raise TypeError
           ("Argument 'approvers' contains value(s) with incorrect types! "
            +:+ "A valid approver ID must have an 'int' or a 'str' type!")
  end.

Definition change_sales_order (fuel : nat) (num : Z)
    (print_invoice : option bool) (approvers : option (list value))
    (att_path : option string) : Cmd unit :=
  sess ← _sess;
  if is_none sess then
    raise (TransactionClosedError "va02")
          "Attempt to perform an operation on a closed trasnsaction!"
  else
  let txt := PyStr.str_int num in
  if negb (PyStr.isnumeric txt && (String.length txt =? 9)%nat) then
    raise ValueError ("Invalid order number used: " +:+ txt +:+ "!")
  else
  (* ensure that at least one arg is not None *)
  match print_invoice, approvers, att_path with
  | None, None, None => mret tt
  | _, _, _ =>
      _ ← _open_order fuel num;
      _ ← match print_invoice with
          | Some toggled => _toggle_invoice_printing toggled
          | None => mret tt
          end;
      _ ← match approvers with
          | Some ids =>
              if (1 <? length ids)%nat then
                _ ← map_each check_approver ids;
                _add_approvers ids
              else mret tt
          | None => mret tt
          end;
      _ ← match att_path with
          | Some path => _attach_file path
          | None => mret tt
          end;
      _press_save
  end.

(** [get_printing_status] *)
Definition get_printing_status (fuel : nat) (num : Z) : Cmd value :=
  sess ← _sess;
  if is_none sess then
    raise (TransactionClosedError "va02")
          "Attempt to perform an operation on a closed trasnsaction!"
  else
    _ ← _open_order fuel num;
    _ ← _display_header_details;
    tab ← _get_tab "Billing Document";
    _ ← call_ tab "select" [];
    bill_doc ← _get_tab "Billing Document";
    subs_inv_process ← call bill_doc "findByName"
                         [VStr "VBKD-MRNKZ"; VStr "GuiCheckBox"];
    checked ← get_attr subs_inv_process "selected";
    _ ← _decline;
    mret checked.

End Va02.
End Va02.

(** ** so01.py: the workflow inbox session *)

Module So01.
Section So01.
Context {W : Type} `{Gui W}.
Abbreviation Cmd := (M (State W)).

Definition _sess : Cmd value := gets (λ s, so01_sess (so01 s)).
Definition _main_wnd : Cmd value := gets (λ s, so01_main_wnd (so01 s)).
Definition _user_area : Cmd value := gets (λ s, so01_user_area (so01 s)).

Definition sendVkey (key : Z) : Cmd unit :=
  w ← _main_wnd; call_ w "sendVkey" [VInt key].

Definition _press_cancel : Cmd unit := sendVkey 12.
Definition _press_enter : Cmd unit := sendVkey 0.

Definition _get_dialog_text (active_wnd : value) : Cmd string :=
  t ← get_attr active_wnd "Type";
  _ ← assert (is_str t "GuiModalWindow") EmptyString;
  container_top ← call active_wnd "Children" [VInt 1];
  children ← get_attr container_top "Children" ≫= as_seq;
  lines ← map_each (λ child,
             t ← get_attr child "Text" ≫= as_str;
             mret (PyStr.strip t)) children;
  mret (PyStr.strip (PyStr.join " " lines) +:+ ".").

Definition _is_popup_dialog (msg : option string) : Cmd bool :=
  sess ← _sess;
  active_wnd ← get_attr sess "ActiveWindow";
  t ← get_attr active_wnd "Type";
  if is_str t "GuiModalWindow" then
    match msg with
    | None => mret true
    | Some m =>
        txt ← _get_dialog_text active_wnd;
        mret (PyStr.contains m txt)
    end
  else mret false.

Definition press_in (btn_caption : string) (grandchildren : list value)
  : Cmd (option unit) :=
  for_each (λ grandchild,
    t ← get_attr grandchild "Type";
    if negb (is_str t "GuiButton") then mret None
    else
      txt ← get_attr grandchild "Text" ≫= as_str;
      if String.eqb btn_caption (PyStr.strip txt)
      then _ ← call_ grandchild "Press" []; mret (Some tt)
      else mret None) grandchildren.

Definition _close_popup_dialog (confirm : bool) : Cmd unit :=
  sess ← _sess;
  wnd ← get_attr sess "ActiveWindow";
  title ← get_attr wnd "Text";
  if is_str title "Information" then
    if confirm then _press_enter else _press_cancel
  else
    let btn_caption := if confirm then "Yes" else "No" in
    wnd ← get_attr sess "ActiveWindow";
    children ← get_attr wnd "Children" ≫= as_seq;
    _ ← for_each (λ child,
           grandchildren ← get_attr child "Children" ≫= as_seq;
           press_in btn_caption grandchildren) children;
    mret tt.

Definition _set_rejection_reason (fuel : nat) (val : string) : Cmd unit :=
  sess ← _sess;
  fld ← call sess "findById" [VStr "wnd[1]/usr/ctxtRGTOOLS-FIELD"];
  _ ← set_attr fld "Text" (VStr val);
  _ ← _press_enter; (* confirm value *)
  while fuel (_is_popup_dialog None) (_close_popup_dialog true).

Definition set_globals (f : so01_globals -> so01_globals) : Cmd unit :=
  modify (λ s, with_so01 (f (so01 s)) s).

Definition start (sess : value) : Cmd unit :=
  cur ← _sess;
  if negb (is_none cur) then mret tt
  else if is_none sess
  then raise UnboundLocalError "Argument 'sess' is unbound!"
  else
    _ ← set_globals (λ g, mkSo01 sess (so01_main_wnd g) (so01_user_area g));
    main_wnd ← call sess "FindById" [VStr "wnd[0]"];
    _ ← set_globals (λ g, mkSo01 (so01_sess g) main_wnd (so01_user_area g));
    user_area ← call main_wnd "findById" [VStr "usr"];
    _ ← set_globals (λ g, mkSo01 (so01_sess g) (so01_main_wnd g) user_area);
    sess ← _sess;
    call_ sess "StartTransaction" [VStr "SO01"].

Definition close : Cmd unit :=
  cur ← _sess;
  if is_none cur then mret tt
  else
    _ ← call_ cur "EndTransaction" [];
    b ← _is_popup_dialog None;
    _ ← (if b : bool then _close_popup_dialog true else mret tt);
    set_globals (λ _, mkSo01 VNone VNone VNone).

Definition get_item_table : Cmd value :=
  (* check prerequsities *)
  sess ← _sess;
  if is_none sess then
    raise (TransactionClosedError "so01")
          "Attempt to perform an operation on a closed trasnsaction!"
  else
    let container_id :=
      PyStr.join "/" ["cntlSINWP_CONTAINER/shellcont/shell";
                      "shellcont[1]/shell/shellcont[0]/shell"] in
    ua ← _user_area;
    call ua "FindById" [VStr container_id].

(** [process_workflow]: the scan from [row_idx] on. *)
Fixpoint scan_items (fuel : nat) (items : value) (kwd : string)
    (row_idx : Z) : Cmd bool :=
  match fuel with
  | O => hang
  | S k =>
      rc ← get_attr items "RowCount" ≫= as_int;
      if row_idx <? rc then
        title ← call items "GetCellValue" [VInt row_idx; VStr "OBJDES"];
        title ← (if is_str title EmptyString then
                   _ ← set_attr items "SelectedRows"
                         (VStr (PyStr.str_int row_idx));
                   _ ← call_ items "SetCurrentCell"
                         [VInt row_idx; VStr "OBJDES"];
                   call items "GetCellValue" [VInt row_idx; VStr "OBJDES"]
                 else mret title);
        title ← as_str title;
        if negb (PyStr.contains kwd title)
        then scan_items k items kwd (row_idx + 1)
        else
          _ ← set_attr items "SelectedRows" (VStr (PyStr.str_int row_idx));
          _ ← call_ items "SetCurrentCell" [VInt row_idx; VStr "OBJDES"];
          _ ← call_ items "DoubleClickCurrentCell" [];
          ua ← _user_area;
          decision_step ← call ua "FindById"
                            [VStr "cntlSWU20300CONTAINER/shellcont/shell"];
          _ ← call_ decision_step "SapEvent"
                [VStr EmptyString; VStr EmptyString;
                 VStr "sapevent:DECI:0002"];
          _ ← _set_rejection_reason k "Z1"; (* Z1 = Approved *)
          mret true
      else mret false
  end.

Definition process_workflow (fuel : nat) (items : value) (kwd : string)
  : Cmd bool :=
  scan_items fuel items kwd 0.

End So01.
End So01.

(** ** controller.py: batch files, orchestrator, finalization *)

(** The country rules of [rules.yaml] for one company code. *)
Record Rules := mkRules {
  threshold : Qc;
  approvers : list value;
  country : string
}.

(** [repr] of a JSON document read back into Python objects (string
    quoting without escapes). *)
Fixpoint repr_json (j : json) : string :=
  match j with
  | JNull => "None"
  | JBool b => if b then "True" else "False"
  | JInt n => PyStr.str_int n
  | JStr s => "'" +:+ s +:+ "'"
  | JList l => "[" +:+ PyStr.join ", " (List.map repr_json l) +:+ "]"
  | JDict kv =>
      "{" +:+ PyStr.join ", "
                (List.map (λ p, "'" +:+ fst p +:+ "': " +:+ repr_json (snd p)) kv)
          +:+ "}"
  end.

(** [str(j)] *)
Definition str_json (j : json) : string :=
  match j with JStr s => s | _ => repr_json j end.

(** The two log lines of [finalize_workflow] for one number. *)
Definition item_banner (nth : Z) (total : nat) (num : string) : string :=
  "Processing workflow item (" +:+ PyStr.str_int nth +:+ " of "
  +:+ PyStr.str_int (Z.of_nat total) +:+ ") related to order: " +:+ num
  +:+ " ...".
Definition not_found (kwd : string) : string :=
  "Workflow item not found using key: '" +:+ kwd +:+ "'!".

(** The line that opens the log of one agreement. *)
Definition banner (agt_num : Z) (idx n_items : nat) : string :=
  "--------- Agreement " +:+ PyStr.str_int agt_num +:+ " ("
  +:+ PyStr.str_int (Z.of_nat idx + 1) +:+ " of "
  +:+ PyStr.str_int (Z.of_nat n_items) +:+ ") ---------".

(** The four assignments [output.loc[idx, ...] = result[...]]. *)
Definition record (result : SettlementResult) (r : Row) : Row :=
  mkRow (Agreement r) (open_value result) (open_accruals result)
        (document_number result) (message result).

Module Controller.
Section Controller.
Context {W : Type} `{Gui W} `{Python}.
Abbreviation Cmd := (M (State W)).

(** The name, inside [data], of the file of batch [batch_id]. *)
Definition _compile_batch_path (batch_id : Z) : string :=
  "batch_" +:+ PyStr.zfill 3 (PyStr.str_int batch_id) +:+ ".json".

(** [while isfile(file_path): nth += 1]: the first free index from
    [nth] on, looked for among [fuel] candidates. *)
Fixpoint first_free {A} (fuel : nat) (name : Z -> string)
    (dir : gmap string A) (nth : Z) : option Z :=
  match fuel with
  | O => None
  | S k =>
      match dir !! name nth with
      | Some _ => first_free k name dir (nth + 1)
      | None => Some nth
      end
  end.

Definition _create_batch_file (country cocd : string) : Cmd Z :=
  dir ← gets data_dir;
  (* get last batch index *)
  match first_free (S (size dir)) _compile_batch_path dir 1 with
  | None => hang
  | Some nth =>
      (* create a new batch with index + 1 *)
      let new_batch := JDict [("country", JStr country);
                              ("company_code", JStr cocd);
                              ("credit_memos", JList [])] in
      _ ← modify (λ s, with_data_dir
                        (<[_compile_batch_path nth := new_batch]> dir) s);
      mret nth
  end.

(** [content[key]] on a loaded document. *)
Definition subscript (content : json) (key : string) : Cmd json :=
  match content with
  | JDict kv =>
      match List.find (λ p, String.eqb (fst p) key) kv with
      | Some (_, v) => mret v
      | None => raise KeyError ("'" +:+ key +:+ "'")
      end
  | JList _ | JStr _ => raise TypeError "indices must be integers"
  | _ => raise TypeError "object is not subscriptable"
  end.

(** [content[key] = v] for a key the dict has. *)
Fixpoint dict_store (key : string) (v : json) (kv : list (string * json))
  : list (string * json) :=
  match kv with
  | [] => []
  | (k, old) :: rest =>
      if String.eqb k key then (k, v) :: rest
      else (k, old) :: dict_store key v rest
  end.

Definition _update_batch_data (batch_id : Z) (memo : Z) : Cmd unit :=
  let file_path := _compile_batch_path batch_id in
  dir ← gets data_dir;
  match dir !! file_path with
  | None => raise FileNotFoundError "No such file or directory"
  | Some content =>
      memos ← subscript content "credit_memos";
      match content, memos with
      | JDict kv, JList l =>
          let content := JDict (dict_store "credit_memos"
                                  (JList (l ++ [JInt memo])) kv) in
          modify (λ s, with_data_dir (<[file_path := content]> dir) s)
      | _, _ => raise AttributeError "object has no attribute 'append'"
      end
  end.

(** [name] without its ending [.json], if it ends so. *)
Fixpoint strip_json (name : string) : option string :=
  if String.eqb name ".json" then Some EmptyString
  else match name with
       | EmptyString => None
       | String c rest => String c <$> strip_json rest
       end.

(** [splitext(name)[0]] of a name that the pattern [*.json] matches:
    the pattern skips the names that start with a dot. *)
Definition json_stem (name : string) : option string :=
  if String.prefix "." name then None else strip_json name.

(** [data.update({k: v})] on a dict that keeps insertion order. *)
Fixpoint dict_put {A} (k : string) (v : A) (d : list (string * A))
  : list (string * A) :=
  match d with
  | [] => [(k, v)]
  | (k', v') :: rest =>
      if String.eqb k k' then (k', v) :: rest
      else (k', v') :: dict_put k v rest
  end.

(** [data[k]] on such a dict. *)
Definition dict_get {A} (k : string) (d : list (string * A)) : option A :=
  snd <$> List.find (λ p, String.eqb k (fst p)) d.

Definition load_data_batches : Cmd (list (string * json)) :=
  dir ← gets data_dir;
  let file_paths := omap (λ '(name, content),
                           stem ← json_stem name; Some (stem, content))
                         (map_to_list dir) in
  mret (fold_left (λ data '(file_name, content),
                     dict_put file_name content data) file_paths []).

Definition remove_data_batch (name : string) : Cmd unit :=
  let file_path := name +:+ ".json" in
  _ ← log INFO "Removing data batch file ...";
  dir ← gets data_dir;
  match dir !! file_path with
  | None =>
      log ERROR "No such file or directory"
  | Some _ =>
      _ ← modify (λ s, with_data_dir (delete file_path dir) s);
      log ERROR "Data batch file removed."
  end.

Definition dump_name (date_stamp : string) (nth : Z) : string :=
  "data_" +:+ PyStr.zfill 3 (PyStr.str_int nth) +:+ "_" +:+ date_stamp
  +:+ ".pkl".

Definition _dump_data (data : list Row) : Cmd unit :=
  _ ← log INFO "Dumping processing output ...";
  dir ← gets dump_dir;
  date_stamp ← gets today;
  match first_free (S (size dir)) (dump_name date_stamp) dir 1 with
  | None => hang
  | Some nth =>
      _ ← modify (λ s, with_dump_dir
                        (<[dump_name date_stamp nth := data]> dir) s);
      log INFO "Data dump created."
  end.

(** What a [for] loop over a loaded document walks through: the
    elements of a list, the characters of a string, the keys of a dict;
    the other documents are not iterable. *)
Definition iterate (nums : json) : Cmd (list json) :=
  match nums with
  | JList l => mret l
  | JStr t => mret ((λ c, JStr (String c EmptyString))
                      <$> list_ascii_of_string t)
  | JDict kv => mret (JStr <$> kv.*1)
  | JInt _ => raise TypeError "'int' object is not iterable"
  | JBool _ => raise TypeError "'bool' object is not iterable"
  | JNull => raise TypeError "'NoneType' object is not iterable"
  end.

(** The body of the [for] loop of [finalize_workflow], for the [nth]
    of [total] numbers. *)
Definition finalize_item (fuel : nat) (items : value) (total : nat)
    (nth : Z) (num : json) : Cmd unit :=
  _ ← log INFO (item_banner nth total (str_json num));
  let kwd := str_json num in
  found ← So01.process_workflow fuel items kwd;
  if found : bool
  then log INFO "Workflow item processed."
  else log ERROR (not_found kwd).

(** The loop itself, over the numbers [nums] counted from [first]. *)
Definition finalize_items (fuel : nat) (items : value) (total : nat)
    (first : Z) (nums : list json) : Cmd (option unit) :=
  for_each (λ '(nth, num),
              _ ← finalize_item fuel items total nth num;
              mret (@None unit))
           (zip (seqZ first (Z.of_nat (length nums))) nums).

Definition finalize_workflow (fuel : nat) (sess : value) (nums : json)
  : Cmd unit :=
  _ ← log INFO "Starting SO01 ...";
  _ ← So01.start sess;
  _ ← log INFO "SO01 running.";
  items ← So01.get_item_table;
  nums ← iterate nums;
  _ ← finalize_items fuel items (length nums) 1 nums;
  _ ← log INFO "Closing SO01 ...";
  _ ← So01.close;
  log INFO "SO01 closed.".

(** [output.loc[idx, ...] = ...] *)
Definition set_row (idx : nat) (f : Row -> Row) : Cmd unit :=
  modify (λ s, with_output (alter f idx (output s)) s).

(** [output.loc[idx, "Message"] += err_msg] *)
Definition append_message (idx : nat) (err_msg : string) : Cmd unit :=
  out ← gets output;
  match out !! idx with
  | None => raise KeyError (PyStr.str_int (Z.of_nat idx))
  | Some row =>
      match Message row with
      | None => raise TypeError "unsupported operand type(s) for +="
      | Some m =>
          set_row idx (λ r, mkRow (Agreement r) (Open_Value r)
                              (Open_Accruals r) (Credit_Memo r)
                              (Some (m +:+ err_msg)))
      end
  end.

(** The handler of the outer [try] of the loop. *)
Definition abort_run {A} (exc : exn) : Cmd A :=
  _ ← log ERROR (exn_str exc);
  out ← gets output;
  _ ← _dump_data out;
  raise RuntimeError ("Unhandled exception: " +:+ exn_str exc).

(** The body of the [for] loop of [process_agreements]. *)
Definition process_item (fuel : nat) (sess : value) (thresh : Qc)
    (approvers : list value) (att_path : string) (batch_idx : Z)
    (n_items : nat) (idx : nat) (agt_num : Z) : Cmd unit :=
  _ ← log INFO (banner agt_num idx n_items);
  continued ← try_except
    (_ ← Vbo2.start sess;
     result ← Vbo2.settle_agreement fuel agt_num thresh true false;
     let text := default "None" (message result) in
     _ ← (if bool_decide (message_type result = Some "I")
          then log INFO text
          else if bool_decide (message_type result = Some "W")
          then log WARNING text
          else if bool_decide (message_type result = Some "E")
          then log ERROR text
          else mret tt);
     _ ← set_row idx (record result);
     match document_number result with
     | None => _ ← log INFO ("Agreement processed." +:+ PyStr.nl); mret true
     | Some doc =>
         if bool_decide (document_type result = Some "credit_memo") then
           _ ← log INFO ("Agreement processed." +:+ PyStr.nl); mret true
         else
           _ ← Vbo2.close;
           (* docs may be attached even if the prev step fails *)
           _ ← log INFO "Starting VA02 ...";
           _ ← Va02.start sess;
           _ ← log INFO "VA02 running.";
           _ ← try_finally
                 (try_except
                    (_ ← log INFO "Updating order parameters ...";
                     _ ← Va02.change_sales_order fuel doc (Some false)
                           (Some approvers) (Some att_path);
                     log INFO "Order parameters updated.")
                    (λ exc,
                     _ ← log ERROR (exn_str exc);
                     let err_msg := "Error changing the sales order! "
                                    +:+ exn_str exc in
                     append_message idx err_msg))
                 (_ ← log INFO "Closing VA02 ...";
                  _ ← Va02.close;
                  log INFO "VA02 closed.");
           (* write the credit memo to a file *)
           _ ← log INFO "Updating the data batch on the credit memo ...";
           _ ← _update_batch_data batch_idx doc;
           _ ← log INFO "Data batch successfully updated.";
           mret false
     end)
    abort_run;
  if continued : bool then mret tt
  else log INFO ("Agreement processed." +:+ PyStr.nl).

Definition process_agreements (fuel : nat) (sess : value) (rules : Rules)
    (data : list Z) (att_path cocd : string) : Cmd (list Row) :=
  if bool_decide (data = []) then
    raise ValueError "No records in user data!"
  else
    (* handle using negatives by capping the threshold to 0 as the
       lowest value *)
    let thresh := py_max (threshold rules) 0%Qc in
    let approvers := approvers rules in
    let n_items := length data in
    (* add new fields to input data *)
    _ ← modify (with_output
                  ((λ agt, mkRow agt None None None (Some EmptyString))
                     <$> data));
    (* create a new batch file where credit memo requests will be
       stored *)
    batch_idx ← _create_batch_file (country rules) cocd;
    (* settle agreements *)
    _ ← for_each (λ '(idx, agt_num),
           _ ← process_item fuel sess thresh approvers att_path batch_idx
                 n_items idx agt_num;
           mret (@None unit))
         (zip (seq 0 n_items) data);
    gets output.

End Controller.
End Controller.

(** ** sap.py and svc.py: the finalization service *)

Module Sap.
Section Sap.
Context {W : Type} `{Gui W}.

Definition logout (sess : value) : M (State W) unit :=
  if is_none sess then raise UnboundLocalError "Argument 'sess' is unbound!"
  else
    conn ← get_attr sess "Parent";
    id ← get_attr sess "ID";
    _ ← call_ conn "CloseSession" [id];
    call_ conn "CloseConnection" [].

End Sap.
End Sap.

Module Svc.
Section Svc.
Context {W : Type} `{Gui W} `{Python}.
Abbreviation Cmd := (M (State W)).

Definition disconnect_from_sap (sess : value) : Cmd unit :=
  _ ← log INFO "Disconnecting from SAP ...";
  _ ← Sap.logout sess;
  log INFO "Connection to SAP closed.".

(** The body of the loop of [main] over the batches. *)
Definition process_batch (fuel : nat) (sess : value)
    (batch : string * json) : Cmd (option unit) :=
  let '(batch_name, data) := batch in
  _ ← log INFO ("=== Processing data batch '" +:+ batch_name +:+ "' ===");
  nums ← Controller.subscript data "credit_memos";
  _ ← Controller.finalize_workflow fuel sess nums;
  _ ← Controller.remove_data_batch batch_name;
  _ ← log INFO ("=== Data batch processed ===" +:+ PyStr.nl);
  mret None.

(** [main] from "=== Initialization OK ===" on, with the session that
    [connect_to_sap] returned: the exit code. *)
Definition main (fuel : nat) (sess : value) : Cmd Z :=
  _ ← log INFO ("=== Initialization OK ===" +:+ PyStr.nl);
  code ← try_finally
    (try_except
       (_ ← log INFO "=== Processing ===";
        batches ← Controller.load_data_batches;
        if bool_decide (batches = []) then mret (Some 0)
        else
          _ ← for_each (process_batch fuel sess) batches;
          _ ← log INFO ("=== Processing OK ===" +:+ PyStr.nl);
          (* else: *)
          _ ← log INFO "=== Processing OK ===";
          mret None)
       (λ exc,
        _ ← log ERROR (exn_str exc);
        _ ← log INFO ("=== Failure ===" +:+ PyStr.nl);
        mret (Some 3)))
    (_ ← log INFO "=== Cleanup ===";
     _ ← disconnect_from_sap sess;
     log INFO ("=== Cleanup OK ===" +:+ PyStr.nl));
  mret (default 0 code).

End Svc.
End Svc.


(** The result with which [settle_agreement] refuses an agreement whose
    open accruals [accr] reach the threshold [eff] while scales are
    unchecked. *)
Definition refused_at `{Python} (accr eff : Qc) : SettlementResult :=
  mkResult (Some 0%Qc) (Some accr) None None
    (Some ("Could not settle the agreement! The provision "
           +:+ "open value is under the specified threshold "
           +:+ py_format_float eff
           +:+ " EUR and scales are unchecked!"))
    (Some "E").

(** [content.get(key)] on a document: the value under a key of a dict. *)
Definition field (content : json) (key : string) : option json :=
  match content with
  | JDict kv => snd <$> List.find (λ p, String.eqb (fst p) key) kv
  | _ => None
  end.

(** The document of a batch. *)
Definition batch_doc (country cocd : string) (memos : list Z) : json :=
  JDict [("country", JStr country); ("company_code", JStr cocd);
         ("credit_memos", JList (JInt <$> memos))].

(** The name under which [load_data_batches] lists batch [n]. *)
Definition batch_name (n : Z) : string :=
  "batch_" +:+ PyStr.zfill 3 (PyStr.str_int n).

(** The files that [glob] finds, each under its stem. *)
Definition stems (dir : gmap string json) : list (string * json) :=
  omap (λ '(name, content),
          stem ← Controller.json_stem name; Some (stem, content))
       (map_to_list dir).

(** The states of the finalization service at which it hands over to
    the workflow session for the batch [stem], and at which it logs out
    after that session has been closed in [sD]. *)
Definition finalization_entry {W} (stem : string) (s : State W) : State W :=
  after (log INFO "Starting SO01 ...")
    (after (log INFO ("=== Processing data batch '" +:+ stem +:+ "' ==="))
       (after (log INFO "=== Processing ===")
          (after (log INFO ("=== Initialization OK ===" +:+ PyStr.nl)) s))).

Definition finalization_exit {W} (stem : string) (sD : State W) : State W :=
  after (log INFO "Disconnecting from SAP ...")
    (after (log INFO "=== Cleanup ===")
       (after (log INFO "=== Processing OK ===")
          (after (log INFO ("=== Processing OK ===" +:+ PyStr.nl))
             (after (log INFO ("=== Data batch processed ===" +:+ PyStr.nl))
                (after (Controller.remove_data_batch stem)
                   (after (log INFO "SO01 closed.") sD)))))).

(** The state in which the loop of [finalize_workflow] goes on after
    the [nth] of [total] numbers, [num], has not been found in the
    table [h]. *)
Definition missed {W} `{Gui W} (fuel : nat) (h : handle) (total : nat)
    (nth num : Z) (s : State W) : State W :=
  after (log ERROR (not_found (PyStr.str_int num)))
    (after (So01.process_workflow fuel (VObj h) (PyStr.str_int num))
       (after (log INFO (item_banner nth total (PyStr.str_int num))) s)).

(** The states of the finalization service at which it logs out, after
    a run without batches and after a run that failed in [sF] with
    [e]. *)
Definition idle_exit {W} (s : State W) : State W :=
  after (log INFO "Disconnecting from SAP ...")
    (after (log INFO "=== Cleanup ===")
       (after (log INFO "=== Processing ===")
          (after (log INFO ("=== Initialization OK ===" +:+ PyStr.nl)) s))).

Definition failure_exit {W} (e : exn) (sF : State W) : State W :=
  after (log INFO "Disconnecting from SAP ...")
    (after (log INFO "=== Cleanup ===")
       (after (log INFO ("=== Failure ===" +:+ PyStr.nl))
          (after (log ERROR (exn_str e)) sF))).

(** ** A concrete interpreter and a scripted SAP GUI

    The scenarios below run the engine on a GUI that plays back a list
    of screens.  Numbers are read in plain decimal notation. *)

Module Scripted.

Fixpoint digits_go (s : string) (acc : Z) : option Z :=
  match s with
  | EmptyString => Some acc
  | String c r =>
      if PyStr.is_digit c
      then digits_go r (10 * acc + Z.of_nat (nat_of_ascii c - 48))
      else None
  end.

(** A non-empty run of decimal digits. *)
Definition digits (s : string) : option Z :=
  if PyStr.nonempty s then digits_go s 0 else None.

(** An optional sign in front of [body]. *)
Definition signed {A} (body : string -> option A) (neg : A -> A)
    (s : string) : option A :=
  match s with
  | String "-" r => neg <$> body r
  | String "+" r => body r
  | _ => body s
  end.

Definition int_of_string (s : string) : option Z :=
  signed digits Z.opp (PyStr.strip s).

(** [digits], or [digits.digits]. *)
Definition decimal (s : string) : option Qc :=
  match PyStr.split "." s with
  | [whole] => n ← digits whole; Some (Q2Qc (inject_Z n))
  | [whole; frac] =>
      n ← digits whole;
      f ← digits frac;
      let scale := (10 ^ Z.of_nat (String.length frac))%Z in
      Some (Q2Qc (Qmake (n * scale + f) (Z.to_pos scale)))
  | _ => None
  end.

Definition float_of_string (s : string) : option Qc :=
  signed decimal Qcopp (PyStr.strip s).

(** The text of a rational as numerator/denominator, or the numerator
    alone for a whole number. *)
Definition format_float (x : Qc) : string :=
  let q := this x in
  if (Zpos (Qden q) =? 1)%Z then PyStr.str_int (Qnum q)
  else PyStr.str_int (Qnum q) +:+ "/" +:+ PyStr.str_int (Zpos (Qden q)).

Global Instance python : Python :=
  {| py_float := float_of_string;
     py_int := int_of_string;
     py_format_float := format_float |}.

(** One screen of the script. *)
Record Frame := mkFrame {
  wnd_type : string;        (* type of the active window *)
  wnd_title : string;       (* its title *)
  dlg_lines : list string;  (* labels of the dialog *)
  sbar_type : string;       (* status bar message type *)
  sbar_text : string;       (* status bar text *)
  labels : list string;     (* highlighted labels of the volume view *)
  tree_top : string;        (* top node of the document tree *)
  agr_status : string;      (* the agreement status field *)
  inbox : list string;      (* titles of the workflow items *)
  leave_on : list string    (* the actions that bring the next screen *)
}.

(** The script: the screen showing and those to come. *)
Definition World := list Frame.

Definition idle : Frame :=
  mkFrame "GuiMainWindow" "SAP" [] EmptyString EmptyString [] EmptyString
          EmptyString [] [].

Definition current (w : World) : Frame := default idle (head w).

(** How an action is named in [leave_on]. *)
Definition action_label (h : handle) (name : string) (args : list value)
  : string :=
  name +:+ "(" +:+ PyStr.join "," (str_value <$> args) +:+ ")@" +:+ h.

Definition advance (lbl : string) (w : World) : World :=
  match w with
  | f :: ((_ :: _) as rest) =>
      if existsb (String.eqb lbl) (leave_on f) then rest else w
  | _ => w
  end.

(** The index [i] of a handle [prefix ++ i]. *)
Definition index_after (prefix h : string) : option nat :=
  if String.prefix prefix h
  then Z.to_nat <$> digits (String.substring (String.length prefix)
                              (String.length h - String.length prefix) h)
  else None.

Definition numbered (prefix : string) (n : nat) : list value :=
  (λ i, VObj (prefix +:+ PyStr.str_int (Z.of_nat i))) <$> seq 0 n.

Definition text_of (f : Frame) (h : handle) : string :=
  if String.eqb h "act" then wnd_title f
  else if String.eqb h "act/1/1" then PyStr.join " " (dlg_lines f)
  else if PyStr.endswith h "/sbar" then sbar_text f
  else if PyStr.endswith h "/usr/ctxtKONA-BOSTA" then agr_status f
  else match index_after "act/1/line" h, index_after "lbl" h with
       | Some i, _ => default EmptyString (dlg_lines f !! i)
       | _, Some i => default EmptyString (labels f !! i)
       | _, _ => EmptyString
       end.

Definition read (f : Frame) (h : handle) (name : string) : value :=
  if String.eqb name "ActiveWindow" then VObj "act"
  else if String.eqb name "Type" then
    VStr (if String.eqb h "act" then wnd_type f else "GuiComponent")
  else if String.eqb name "Text" then VStr (text_of f h)
  else if String.eqb name "MessageType" then VStr (sbar_type f)
  else if String.eqb name "Children" then
    if String.eqb h "act/1"
    then VSeq (numbered "act/1/line" (length (dlg_lines f)))
    else VSeq []
  else if String.eqb name "ColorIndex" then VInt 3
  else if String.eqb name "ColorIntensified" then VBool false
  else if String.eqb name "Id" then VStr h
  else if String.eqb name "ID" then VStr h
  else if String.eqb name "RowCount" then VInt (Z.of_nat (length (inbox f)))
  else if String.eqb name "Maximum" then VInt 0
  else if String.eqb name "TopNode" then VStr "root"
  else if String.eqb name "verticalScrollbar" then VObj (h +:+ "/scroll")
  else if String.eqb name "Parent" then VObj "con"
  else VNone.

Definition find_names : list string :=
  ["FindById"; "findById"; "FindByName"; "findByName"].

Definition invoke (f : Frame) (h : handle) (name : string)
    (args : list value) : value :=
  if existsb (String.eqb name) find_names then
    VObj (h +:+ "/" +:+ str_value (default VNone (head args)))
  else if String.eqb name "Children" then VObj (h +:+ "/1")
  else if String.eqb name "findAllByName" then
    VSeq (numbered "lbl" (length (labels f)))
  else if String.eqb name "GetItemText" then VStr (tree_top f)
  else if String.eqb name "GetCellValue" then
    match args with
    | VInt r :: _ => VStr (default EmptyString (inbox f !! Z.to_nat r))
    | _ => VNone
    end
  else VNone.

Global Instance play : Gui World := λ h a w,
  match a with
  | Get name => (inr (read (current w) h name), w)
  | Put _ _ => (inr VNone, w)
  | Call name args =>
      (inr (invoke (current w) h name args),
       advance (action_label h name args) w)
  end.

(** The machine before anything has run. *)
Definition boot (w : World) (dir : gmap string json) : State World :=
  mkState w (mkVbo2 VNone VNone VNone VNone VNone)
          (mkVa02 VNone VNone VNone VNone) (mkSo01 VNone VNone VNone)
          dir ∅ ∅ "2022-07-21" [] [].

(** The session object that [connect_to_sap] returns. *)
Definition ses : value := VObj "ses".

End Scripted.

(** ** Scenarios played on the scripted GUI *)

Module Scenario.
Import Scripted.

Definition main_window (sbar_type sbar_text : string) (labels : list string)
    (tree_top agr_status : string) (inbox leave_on : list string) : Frame :=
  mkFrame "GuiMainWindow" "SAP" [] sbar_type sbar_text labels tree_top
          agr_status inbox leave_on.

Definition information (lines leave_on : list string) : Frame :=
  mkFrame "GuiModalWindow" "Information" lines EmptyString EmptyString []
          EmptyString EmptyString [] leave_on.

Definition enter : string := "sendVkey(0)@ses/wnd[0]".

(** An agreement that was settled before: SAP only displays it. *)
Definition display_only : World :=
  [ main_window "W" "Only display is possible" ["100,00"; "5,00-"]
      "Rebate credit memo 90001234" EmptyString [] [] ].

(** An open agreement that settles, after which the order turns out
    to be locked against changes. *)
Definition settled : World :=
  [ main_window EmptyString EmptyString [] EmptyString EmptyString []
      [enter];
    main_window EmptyString EmptyString ["0,00"; "50,00"] EmptyString "A"
      [] ["press()@ses/wnd[0]/tbar[1]/btn[19]"];
    information ["A credit memo request was created for settlement"]
      [enter];
    main_window EmptyString EmptyString []
      "Credit memo requests 123456789" EmptyString []
      ["press()@ses/wnd[0]/BT_SUCH"];
    main_window "E" "No authorization for maintaining order" []
      EmptyString EmptyString [] [] ].

(** An open agreement with an outstanding balance. *)
Definition open_balance : World :=
  [ main_window EmptyString EmptyString [] EmptyString EmptyString []
      [enter];
    main_window EmptyString EmptyString ["100,00"; "5,00"] EmptyString "A"
      [] [] ].

(** The sales volumes of the agreement are out of date. *)
Definition stale_volumes : World :=
  [ main_window EmptyString EmptyString [] EmptyString EmptyString []
      [enter];
    information ["Sales volumes for agreement 5001 is not current"] [enter];
    main_window EmptyString EmptyString [] EmptyString EmptyString [] [] ].

(** The workflow inbox with one item, for order 777 or for another. *)
Definition inbox_777 : World :=
  [ main_window EmptyString EmptyString [] EmptyString EmptyString
      ["Credit memo request 777 awaits approval"] [] ].
Definition inbox_other : World :=
  [ main_window EmptyString EmptyString [] EmptyString EmptyString
      ["Credit memo request 123 awaits approval"] [] ].

(** The customer account of the agreement is marked for deletion. *)
Definition inactive_account : World :=
  [ main_window EmptyString EmptyString [] EmptyString EmptyString []
      [enter];
    information ["Customer 4711 is marked for deletion"] [enter];
    main_window EmptyString EmptyString ["100,00"; "5,00"] EmptyString "A"
      [] [] ].

(** Country rules and the work list of a run. *)
Definition norway : Rules :=
  mkRules (Q2Qc 40) [VInt 12345678; VStr "87654321"] "Norway".

(** Two agreements: the first as in [settled], the second unknown. *)
Definition two_agreements : World :=
  [ main_window EmptyString EmptyString [] EmptyString EmptyString []
      [enter];
    main_window EmptyString EmptyString ["0,00"; "50,00"] EmptyString "A"
      [] ["press()@ses/wnd[0]/tbar[1]/btn[19]"];
    information ["A credit memo request was created for settlement"]
      [enter];
    main_window EmptyString EmptyString []
      "Credit memo requests 123456789" EmptyString []
      ["press()@ses/wnd[0]/BT_SUCH"];
    main_window "E" "No authorization for maintaining order" []
      EmptyString EmptyString [] ["StartTransaction(VBO2)@ses"];
    main_window "E" "Agreement 5002 does not exist" []
      EmptyString EmptyString [] [] ].

(** The data directory with one batch, holding the number 777. *)
Definition batch_777 : gmap string json :=
  {[ Controller._compile_batch_path 1 := batch_doc "Norway" "1234" [777] ]}.

(** The finalization service before its run on [inbox_other] with the
    batch of number 777. *)
Definition fin_start : State World := boot inbox_other batch_777.


(** The machine with VBO2 started on a script. *)
Definition vbo2_started (w : World) : State World :=
  snd (Vbo2.start ses (boot w ∅)).

End Scenario.

(** ** The scripted GUI held at one screen

    A GUI without a state of its own: it answers as the scripted one
    does on the screen [f], whatever has been done before.  It also
    shows the fast entry table of the conditions, with the scales column
    second and one condition whose scale is not marked, and it has no
    Settle button to press. *)

Module Still.
Import Scripted.

Definition read (f : Frame) (h : handle) (name : string) : value :=
  if String.eqb name "Type" && PyStr.endswith h "/SAPMV13ATCTRL_FAST_ENTRY"
  then VStr "GuiTableControl"
  else if String.eqb name "Columns"
  then VSeq [VObj (h +:+ "/col[0]"); VObj (h +:+ "/col[1]")]
  else if String.eqb name "Name"
  then VStr (if PyStr.endswith h "/col[1]" then "RV13A-KOSTKZ"
             else "RV13A-KSCHL")
  else if String.eqb name "VisibleRowCount" then VInt 1
  else if String.eqb name "Selected" then VBool false
  else if String.eqb name "Text" && PyStr.endswith h "/cell"
  then VStr "ZB01"
  else Scripted.read f h name.

Definition invoke (f : Frame) (h : handle) (name : string)
    (args : list value) : exn + value :=
  if String.eqb name "press" && PyStr.endswith h "/btn[19]"
  then inl (Exn ComError "The control could not be found by id.")
  else if String.eqb name "GetCell" then inr (VObj (h +:+ "/cell"))
  else inr (Scripted.invoke f h name args).

Definition gui (f : Frame) : Gui unit := λ h a w,
  match a with
  | Get name => (inr (read f h name), w)
  | Put _ _ => (inr VNone, w)
  | Call name args => (invoke f h name args, w)
  end.

(** The machine before anything has run. *)
Definition boot (dir : gmap string json) : State unit :=
  mkState tt (mkVbo2 VNone VNone VNone VNone VNone)
          (mkVa02 VNone VNone VNone VNone) (mkSo01 VNone VNone VNone)
          dir ∅ ∅ "2022-07-21" [] [].

End Still.

(** A GUI without a state of its own: what a member access gives is a
    function of the object and the access. *)
Definition fixed (answer : handle → access → exn + value) : Gui unit :=
  λ h a w, (answer h a, w).


(** A GUI without a state of its own on which the calls of one method
    fail. *)
Definition refusing (name : string) : handle → access → exn + value :=
  λ h a, match a with
         | Call n _ =>
             if String.eqb n name
             then inl (Exn ComError "The control could not be found by id.")
             else inr (VObj "obj")
         | Get _ => inr (VObj "obj")
         | Put _ _ => inr VNone
         end.

(** ** Scenarios played on the still GUI *)

Module Case.
Import Scripted.

(** An open agreement with nothing left to pay and accruals of 50,
    under the condition key of the scales. *)
Definition accruals_50 : Frame :=
  Scenario.main_window EmptyString EmptyString ["0,00"; "50,00"] EmptyString
    "A" ["SalOrg/SalOff/CustHier/Usage"] [].

(** The settlement of agreement 5001 on that screen, cut where
    [settle_agreement] has read the status and comes to the threshold. *)
Definition gate_start : State unit :=
  snd (Vbo2.start (H:=Still.gui accruals_50) ses (Still.boot ∅)).
Definition gate_found : State unit :=
  snd (Vbo2._find (H:=Still.gui accruals_50) 5001 true false gate_start).
Definition gate_volumes : State unit :=
  snd (Vbo2._get_sales_volumes (H:=Still.gui accruals_50) gate_found).
Definition gate_status : State unit :=
  snd (Vbo2._get_agreement_status (H:=Still.gui accruals_50) gate_volumes).
Definition gate_scales : State unit :=
  snd (Vbo2._scales_checked (H:=Still.gui accruals_50) 5 gate_status).
Definition gate_left : State unit :=
  snd (Vbo2._go_to_start_window (H:=Still.gui accruals_50) gate_scales).

(** The workflow inbox with the items of the orders 123 and 456. *)
Definition inbox_123_456 : Frame :=
  Scenario.main_window EmptyString EmptyString [] EmptyString EmptyString
    ["Credit memo request 123 awaits approval";
     "Credit memo request 456 awaits approval"] [].

(** The data directory with one batch, holding 123, 777 and 456. *)
Definition batch_123_777_456 : gmap string json :=
  {[ Controller._compile_batch_path 1
     := batch_doc "Norway" "1234" [123; 777; 456] ]}.

(** The finalization service on that inbox and that batch, cut at the
    calls of the workflow session and around the turn of 777. *)
Definition item_table : handle :=
  "ses/wnd[0]/usr/cntlSINWP_CONTAINER/shellcont/shell/shellcont[1]/shell/shellcont[0]/shell".
Definition fin_boot : State unit := Still.boot batch_123_777_456.
Definition fin_started : State unit :=
  after (So01.start (H:=Still.gui inbox_123_456) ses)
    (finalization_entry (batch_name 1) fin_boot).
Definition fin_tabled : State unit :=
  after (So01.get_item_table (H:=Still.gui inbox_123_456))
    (after (log INFO "SO01 running.") fin_started).
Definition fin_before : State unit :=
  after (Controller.finalize_items (H:=Still.gui inbox_123_456) 9
           (VObj item_table) 3 1 [JInt 123])
    fin_tabled.
Definition fin_behind : State unit :=
  after (Controller.finalize_items (H:=Still.gui inbox_123_456) 9
           (VObj item_table) 3 3 [JInt 456])
    (missed (H:=Still.gui inbox_123_456) 9 item_table 3 2 777 fin_before).
Definition fin_closed : State unit :=
  after (So01.close (H:=Still.gui inbox_123_456))
    (after (log INFO "Closing SO01 ...") fin_behind).
Definition fin_out : State unit :=
  after (Sap.logout (H:=Still.gui inbox_123_456) ses)
    (finalization_exit (batch_name 1) fin_closed).

(** A quiet screen: no dialog, no message. *)
Definition quiet : Frame :=
  Scenario.main_window EmptyString EmptyString [] EmptyString EmptyString
    [] [].

(** The three sessions, each started on the quiet screen and closed
    again. *)
Definition vbo2_started : State unit :=
  snd (Vbo2.start (H:=Still.gui quiet) ses (Still.boot ∅)).
Definition vbo2_closed : State unit :=
  snd (Vbo2.close (H:=Still.gui quiet) vbo2_started).
Definition va02_started : State unit :=
  snd (Va02.start (H:=Still.gui quiet) ses (Still.boot ∅)).
Definition va02_closed : State unit :=
  snd (Va02.close (H:=Still.gui quiet) va02_started).
Definition so01_started : State unit :=
  snd (So01.start (H:=Still.gui quiet) ses (Still.boot ∅)).
Definition so01_closed : State unit :=
  snd (So01.close (H:=Still.gui quiet) so01_started).


(** The data directory with two batches. *)
Definition two_batches : gmap string json :=
  {[ Controller._compile_batch_path 1 := batch_doc "Norway" "1234" [123];
     Controller._compile_batch_path 2 := batch_doc "Norway" "1234" [456] ]}.

(** The finalization service on a GUI that does not start a
    transaction, cut where the first batch fails and where it logs
    out. *)
Definition refused_start : State unit :=
  snd (Controller.finalize_workflow (H:=fixed (refusing "StartTransaction"))
         5 ses (JList (JInt <$> [123]))
         (after (log INFO ("=== Processing data batch '" +:+ batch_name 1
                           +:+ "' ==="))
            (after (log INFO "=== Processing ===")
               (after (log INFO ("=== Initialization OK ===" +:+ PyStr.nl))
                  (Still.boot two_batches))))).
Definition refused_out : State unit :=
  snd (Sap.logout (H:=fixed (refusing "StartTransaction")) ses
         (failure_exit (Exn ComError "The control could not be found by id.")
            refused_start)).

(** The service without batches on the quiet screen, where it logs
    out. *)
Definition idle_out : State unit :=
  snd (Sap.logout (H:=Still.gui quiet) ses (idle_exit (Still.boot ∅))).



End Case.

(** ** Vocabulary of the properties *)

(** The shape of everything [settle_agreement] returns: a memo
    request comes with type "I"; a result that carries an open value
    has a zero open value, or reports an existing credit memo under
    type "W" or "E", or has no document and type "E". *)
Definition well_formed (r : SettlementResult) : Prop :=
  (document_type r = Some "memo_request" →
   message_type r = Some "I"
   ∧ message r = Some "Agreement successfully settled.")
  ∧ (∀ v, open_value r = Some v → v ≠ 0%Qc →
       (document_type r = Some "credit_memo"
        ∧ (message_type r = Some "W" ∨ message_type r = Some "E"))
       ∨ (document_number r = None ∧ document_type r = None
          ∧ message_type r = Some "E")).

(** A positive number is not written with a leading zero. *)
Definition no_leading_zero (s : string) : Prop :=
  ∃ c r, s = String c r ∧ c ≠ "0"%char.

(** A relation between the state before and after a command that
    tolerates what the session modules do: talk to the GUI, rebind
    their globals, write log records. *)
Class Frame {W} (R : State W → State W → Prop) := {
  frame_refl s : R s s;
  frame_trans s1 s2 s3 : R s1 s2 → R s2 s3 → R s1 s3;
  frame_gui w s : R s (with_gui w s);
  frame_vbo2 g s : R s (with_vbo2 g s);
  frame_va02 g s : R s (with_va02 g s);
  frame_so01 g s : R s (with_so01 g s);
  frame_journal l s : R s (with_journal (journal s ++ l) s)
}.

(** The files and the output frame stay as they are. *)
Definition keeps {W} (s s' : State W) : Prop :=
  data_dir s' = data_dir s ∧ dump_dir s' = dump_dir s
  ∧ files s' = files s ∧ today s' = today s ∧ output s' = output s.

(** The log only grows. *)
Definition journal_grows {W} (s s' : State W) : Prop :=
  journal s `prefix_of` journal s'.

(** Every run of [m] relates the state it starts in to the one it ends
    in, however it ends. *)
Definition respects {W} (R : State W → State W → Prop) {A}
    (m : M (State W) A) : Prop :=
  ∀ s, R s (snd (m s)).

(** Every run of [m] changes the GUI and nothing else. *)
Definition only_gui {W A} (m : M (State W) A) : Prop :=
  ∀ s r s', m s = (r, s') → ∃ w, s' = with_gui w s.

(** Of the files only batch files go, and none is written: every file
    of the data directory is as it was or is a [.json] file that is
    gone, and the dumps, the attachments and the output frame stay as
    they are. *)
Definition only_removes {W} (s s' : State W) : Prop :=
  (∀ f, data_dir s' !! f = data_dir s !! f
        ∨ (data_dir s' !! f = None ∧ ∃ stem, f = stem +:+ ".json"))
  ∧ dump_dir s' = dump_dir s ∧ files s' = files s ∧ output s' = output s.

(** * Properties *)

(** ** Reasoning about runs *)

Section Runs.
Context {S : Type}.

Lemma bind_Ok {A B} (m : M S A) (f : A → M S B) s b s' :
  (m ≫= f) s = (Ok b, s') →
  ∃ a s1, m s = (Ok a, s1) ∧ f a s1 = (Ok b, s').
Proof.
  unfold mbind, M_bind.
  destruct (m s) as [[a|e|] s1]; intros E; [eauto | discriminate..].
Qed.

Lemma bind_run {A B} (m : M S A) (f : A → M S B) s a s1 :
  m s = (Ok a, s1) → (m ≫= f) s = f a s1.
Proof. unfold mbind, M_bind. by intros ->. Qed.

Lemma bind_raise {A B} (m : M S A) (f : A → M S B) s e s1 :
  m s = (Raise e, s1) → (m ≫= f) s = (Raise e, s1).
Proof. unfold mbind, M_bind. by intros ->. Qed.

Lemma ret_Ok {A} (a b : A) (s s' : S) :
  (mret a : M S A) s = (Ok b, s') → a = b ∧ s = s'.
Proof. unfold mret, M_ret. by intros [= -> ->]. Qed.

End Runs.

(** Walks back through a run that ended with a value. *)
Ltac ok_step :=
  match goal with
  | H : @mbind _ _ _ _ _ _ _ = (Ok _, _) |- _ =>
      let a := fresh "a" in let s := fresh "s" in let E := fresh "E" in
      apply bind_Ok in H as (a & s & E & H)
  | H : @mret _ _ _ _ _ = (Ok _, _) |- _ => apply ret_Ok in H as [? ?]; subst
  | H : raise _ _ _ = (Ok _, _) |- _ => discriminate H
  | H : hang _ = (Ok _, _) |- _ => discriminate H
  | H : (let '(_, _) := ?p in _) _ = (Ok _, _) |- _ => destruct p
  | H : (if ?b then _ else _) _ = (Ok _, _) |- _ =>
      let E := fresh "E" in destruct b eqn:E
  end.

(** ** The settlement result *)

Section Settlement.
Context {W : Type} `{Gui W} `{Python}.

Lemma settle_agreement_well_formed fuel num thresh ai ao
    (s s' : State W) r :
  Vbo2.settle_agreement fuel num thresh ai ao s = (Ok r, s') →
  well_formed r.
Proof.
  unfold Vbo2.settle_agreement. intros Hrun.
  repeat ok_step; split; simpl; repeat case_match; simpl.
  all: try congruence; try (by split).
  all: intros v [= <-] Hv; auto.
  all: try match goal with
       | E : String.eqb _ "W" = true |- _ =>
           apply String.eqb_eq in E; subst; auto
       end.
  all: match goal with
       | E : negb (bool_decide _) = false |- _ =>
           apply negb_false_iff, bool_decide_eq_true in E
       end; congruence.
Qed.

End Settlement.

(** A run that ended, split into its value and its final state. *)
Lemma run_eq {S A} (x : outcome A * S) (a : A) :
  fst x = Ok a → x = (Ok a, snd x).
Proof. destruct x as [o s]. simpl. by intros ->. Qed.

(** C3. Every result that [settle_agreement] returns with document type
    "memo_request" has message type "I"; a result of type "W" or "E"
    never carries a memo request. *)
Theorem memo_request_only_with_info {W} `{Gui W} `{Python}
    fuel num thresh ai ao (s s' : State W) r :
  Vbo2.settle_agreement fuel num thresh ai ao s = (Ok r, s') →
  (document_type r = Some "memo_request" → message_type r = Some "I")
  ∧ (message_type r = Some "W" ∨ message_type r = Some "E" →
     document_type r ≠ Some "memo_request").
Proof.
  intros Hrun. apply settle_agreement_well_formed in Hrun as [Hinfo _].
  split; [apply Hinfo|].
  intros Hsev Hmemo. apply Hinfo in Hmemo as [Hmemo _].
  rewrite Hmemo in Hsev. destruct Hsev as [[=]|[=]].
Qed.

Lemma memo_request_only_with_info_witness :
  ∃ r, fst (Vbo2.settle_agreement 5 5001 (Q2Qc 60) true false
              (Scenario.vbo2_started Scenario.settled)) = Ok r
       ∧ document_type r = Some "memo_request"
       ∧ message_type r = Some "I".
Proof.
  eexists. split; [vm_compute; reflexivity|].
  split; [reflexivity|].
  destruct (memo_request_only_with_info 5 5001 (Q2Qc 60) true false
              (Scenario.vbo2_started Scenario.settled) _ _
              ltac:(apply run_eq; vm_compute; reflexivity))
    as [Hinfo _].
  exact (Hinfo eq_refl).
Defined.

(** C1, as stated, fails: an agreement that SAP only displays comes back
    with the number of its existing credit memo and type "W", whatever
    its open value is. *)
Lemma display_only_reports_number :
  ∃ r v, fst (Vbo2.settle_agreement 5 5001 (Q2Qc 40) true false
                (Scenario.vbo2_started Scenario.display_only)) = Ok r
         ∧ open_value r = Some v ∧ v ≠ 0%Qc
         ∧ document_number r = Some 90001234
         ∧ message_type r = Some "W"
         ∧ ¬ (document_number r = None ∧ message_type r = Some "E").
Proof.
  eexists _, _. split; [vm_compute; reflexivity|].
  split; [reflexivity|].
  split; [intros E; apply (f_equal this) in E; discriminate E|].
  split; [reflexivity|]. split; [reflexivity|].
  intros [E _]. discriminate E.
Qed.

(** C1, amended. A returned result whose open value is not zero never
    carries a memo request: either it reports an existing credit memo
    (document type "credit_memo", under type "W" for a display-only
    agreement or "E" for status C or D), or it has no document number,
    no document type and message type "E". *)
Theorem nonzero_open_value_settles_nothing {W} `{Gui W} `{Python}
    fuel num thresh ai ao (s s' : State W) r v :
  Vbo2.settle_agreement fuel num thresh ai ao s = (Ok r, s') →
  open_value r = Some v → v ≠ 0%Qc →
  (document_type r = Some "credit_memo"
   ∧ (message_type r = Some "W" ∨ message_type r = Some "E"))
  ∨ (document_number r = None ∧ document_type r = None
     ∧ message_type r = Some "E").
Proof.
  intros Hrun. apply settle_agreement_well_formed in Hrun as [_ Hvalue].
  apply Hvalue.
Qed.

Lemma nonzero_open_value_settles_nothing_witness :
  ∃ r, fst (Vbo2.settle_agreement 5 5001 (Q2Qc 40) true false
              (Scenario.vbo2_started Scenario.open_balance)) = Ok r
       ∧ document_number r = None ∧ message_type r = Some "E".
Proof.
  eexists. split; [vm_compute; reflexivity|].
  destruct (nonzero_open_value_settles_nothing 5 5001 (Q2Qc 40) true false
              (Scenario.vbo2_started Scenario.open_balance) _ _ _
              ltac:(apply run_eq; vm_compute; reflexivity)
              eq_refl
              ltac:(intros E; apply (f_equal this) in E; discriminate E))
    as [[E _]|(Hnum & _ & Htype)]; [discriminate E|].
  split; assumption.
Defined.

(** ** The threshold *)

Lemma one_cent_positive : (0 < one_cent)%Qc.
Proof. reflexivity. Qed.

Lemma effective_threshold_cases (t : Qc) :
  ((one_cent < t)%Qc ∧ Vbo2.effective_threshold t = t)
  ∨ ((t ≤ one_cent)%Qc ∧ Vbo2.effective_threshold t = one_cent).
Proof.
  unfold Vbo2.effective_threshold, py_max.
  case_bool_decide as Hlt; [by left|right].
  split; [by apply Qcnot_lt_le|done].
Qed.

Lemma effective_threshold_idemp (t : Qc) :
  Vbo2.effective_threshold (Vbo2.effective_threshold t)
  = Vbo2.effective_threshold t.
Proof.
  destruct (effective_threshold_cases t) as [[Hlt ->]|[Hle ->]].
  - destruct (effective_threshold_cases t) as [[_ E]|[Hle _]]; [done|].
    destruct (Qcle_not_lt _ _ Hle Hlt).
  - destruct (effective_threshold_cases one_cent) as [[Hlt _]|[_ E]]; [|done].
    destruct (Qclt_not_eq _ _ Hlt eq_refl).
Qed.

(** ** The threshold gate *)

Section ThresholdGate.
Context {W : Type} `{Gui W} `{Python}.
Variables (fuel : nat) (num : Z) (t : Qc) (ai ao : bool).
Variables (s s1 s2 s3 : State W) (msg : string) (accr : Qc) (status : value).

(** The agreement is found and opened, nothing is left to pay, the
    open accruals are [accr], and the status is neither C nor D: the
    run comes to the threshold in state [s3]. *)
Hypothesis Hopen : vbo2_sess (vbo2 s) ≠ VNone.
Hypothesis Hfind : Vbo2._find num ai ao s = (Ok (FPair "I" msg), s1).
Hypothesis Hvolumes : Vbo2._get_sales_volumes s1 = (Ok (0%Qc, accr), s2).
Hypothesis Hstatus : Vbo2._get_agreement_status s2 = (Ok status, s3).
Hypothesis Hnot_closed : is_str status "C" || is_str status "D" = false.

Lemma effective_threshold_le (a : Qc) :
  (Vbo2.effective_threshold t ≤ a)%Qc ↔ (one_cent ≤ a)%Qc ∧ (t ≤ a)%Qc.
Proof.
  destruct (effective_threshold_cases t) as [[Hlt ->]|[Hle ->]]; split.
  - intros Ha. split; [|done].
    eapply Qcle_trans; [apply Qclt_le_weak, Hlt|exact Ha].
  - by intros [_ Ha].
  - intros Ha. split; [done|]. by eapply Qcle_trans.
  - by intros [Ha _].
Qed.

(** Runs [settle_agreement] up to the threshold. *)
Ltac to_the_gate :=
  unfold Vbo2.settle_agreement;
  rewrite (bind_run _ _ s (vbo2_sess (vbo2 s)) s) by reflexivity;
  destruct (vbo2_sess (vbo2 s)) eqn:?; [done|..];
  cbv beta iota delta [is_none];
  rewrite !(bind_run _ _ _ _ _ Hfind);
  rewrite (bind_run _ _ s1 ("I", msg) s1) by reflexivity;
  cbv beta iota;
  change (negb ("I" =? "I")%string) with false; cbv iota;
  rewrite (bind_run _ _ _ _ _ Hvolumes); cbv beta iota;
  rewrite (bind_run _ _ _ _ _ Hstatus); cbv beta iota;
  rewrite Hnot_closed; cbv iota;
  rewrite (bool_decide_eq_true_2 (0%Qc = 0%Qc) eq_refl);
  change (negb true) with false; cbv iota zeta.

Lemma gate_closed s4 s5 :
  (Vbo2.effective_threshold t ≤ Qcabs accr)%Qc →
  Vbo2._scales_checked fuel s3 = (Ok false, s4) →
  Vbo2._go_to_start_window s4 = (Ok tt, s5) →
  Vbo2.settle_agreement fuel num t ai ao s
  = (Ok (refused_at accr (Vbo2.effective_threshold t)), s5).
Proof.
  intros Hreach Hscales Hgo. to_the_gate.
  all: rewrite (bool_decide_eq_true_2 _ Hreach).
  all: rewrite (bind_run _ _ s3 true s4)
         by (by rewrite (bind_run _ _ _ _ _ Hscales)).
  all: cbv iota.
  all: by rewrite (bind_run _ _ _ _ _ Hgo).
Qed.

Lemma gate_open_when_checked s4 e s5 :
  (Vbo2.effective_threshold t ≤ Qcabs accr)%Qc →
  Vbo2._scales_checked fuel s3 = (Ok true, s4) →
  Vbo2._press_settle s4 = (Raise e, s5) →
  Vbo2.settle_agreement fuel num t ai ao s = (Raise e, s5).
Proof.
  intros Hreach Hscales Hpress. to_the_gate.
  all: rewrite (bool_decide_eq_true_2 _ Hreach).
  all: rewrite (bind_run _ _ s3 false s4)
         by (by rewrite (bind_run _ _ _ _ _ Hscales)).
  all: cbv iota.
  all: by rewrite (bind_raise _ _ _ _ _ Hpress).
Qed.

Lemma gate_open_below e s4 :
  ¬ (Vbo2.effective_threshold t ≤ Qcabs accr)%Qc →
  Vbo2._press_settle s3 = (Raise e, s4) →
  Vbo2.settle_agreement fuel num t ai ao s = (Raise e, s4).
Proof.
  intros Hbelow Hpress. to_the_gate.
  all: rewrite (bool_decide_eq_false_2 _ Hbelow).
  all: rewrite (bind_run _ _ s3 false s3) by reflexivity.
  all: cbv iota.
  all: by rewrite (bind_raise _ _ _ _ _ Hpress).
Qed.

(** C2. In a run of [settle_agreement] that comes to the threshold
    (agreement found, nothing left to pay, status neither C nor D) with
    open accruals [accr], the number compared with [abs(accr)] is the
    larger of the given threshold [t] and 0.01.  When [abs(accr)] is at
    least 0.01 and at least [t], the scales are checked, and with scales
    unchecked the agreement is refused with type "E", no document, and
    that number in the message.  When [abs(accr)] is below 0.01 or
    below [t], the scales are not looked at: the next step is pressing
    Settle in the state in which the status was read, as a press that
    fails shows.  With scales checked the run goes on in the same way.
    The number is at least 0.01 and at least [t] and one of the two; for
    [t ≤ 0] it is 0.01, not [t] and not 0, also after the orchestrator's
    own cap of the threshold at 0. *)
Theorem threshold_floor :
  ((one_cent ≤ Qcabs accr)%Qc → (t ≤ Qcabs accr)%Qc →
   ∀ s4 s5,
     Vbo2._scales_checked fuel s3 = (Ok false, s4) →
     Vbo2._go_to_start_window s4 = (Ok tt, s5) →
     Vbo2.settle_agreement fuel num t ai ao s
     = (Ok (refused_at accr (Vbo2.effective_threshold t)), s5))
  ∧ ((one_cent ≤ Qcabs accr)%Qc → (t ≤ Qcabs accr)%Qc →
     ∀ s4 e s5,
       Vbo2._scales_checked fuel s3 = (Ok true, s4) →
       Vbo2._press_settle s4 = (Raise e, s5) →
       Vbo2.settle_agreement fuel num t ai ao s = (Raise e, s5))
  ∧ ((Qcabs accr < one_cent)%Qc ∨ (Qcabs accr < t)%Qc →
     ∀ e s4,
       Vbo2._press_settle s3 = (Raise e, s4) →
       Vbo2.settle_agreement fuel num t ai ao s = (Raise e, s4))
  ∧ ((one_cent ≤ Vbo2.effective_threshold t)%Qc
     ∧ (t ≤ Vbo2.effective_threshold t)%Qc
     ∧ (Vbo2.effective_threshold t = t
        ∨ Vbo2.effective_threshold t = one_cent))
  ∧ Vbo2.effective_threshold (py_max t 0%Qc) = Vbo2.effective_threshold t
  ∧ ((t ≤ 0)%Qc →
     Vbo2.effective_threshold t = one_cent
     ∧ Vbo2.effective_threshold t ≠ t
     ∧ Vbo2.effective_threshold t ≠ 0%Qc).
Proof.
  split; [|split; [|split; [|split; [|split]]]].
  - intros Hcent Ht s4 s5. apply gate_closed.
    by apply effective_threshold_le.
  - intros Hcent Ht s4 e s5. apply gate_open_when_checked.
    by apply effective_threshold_le.
  - intros Hbelow e s4. apply gate_open_below.
    intros [Hcent Ht]%effective_threshold_le.
    destruct Hbelow as [Hlt|Hlt]; by apply (Qclt_not_le _ _ Hlt).
  - destruct (effective_threshold_cases t) as [[Hlt ->]|[Hle ->]].
    + split; [by apply Qclt_le_weak|]. split; [apply Qcle_refl|by left].
    + split; [apply Qcle_refl|]. split; [done|by right].
  - unfold py_max. case_bool_decide as Hneg; [|done].
    destruct (effective_threshold_cases 0%Qc) as [[Hlt _]|[_ ->]].
    { destruct (Qclt_not_le _ _ Hlt). apply Qclt_le_weak, one_cent_positive. }
    destruct (effective_threshold_cases t) as [[Hlt _]|[_ ->]]; [|done].
    exfalso. apply (Qclt_not_le _ _ Hlt).
    apply Qclt_le_weak. eapply Qclt_trans; [exact Hneg|exact one_cent_positive].
  - intros Hle.
    assert (Hlt : (t < one_cent)%Qc).
    { eapply Qcle_lt_trans; [exact Hle|exact one_cent_positive]. }
    destruct (effective_threshold_cases t) as [[Hgt _]|[_ ->]].
    { exfalso. apply (Qclt_not_le _ _ Hgt). by apply Qclt_le_weak. }
    split; [done|]. split.
    + intros E. destruct (Qclt_not_eq _ _ Hlt). by symmetry.
    + intros E. apply (f_equal this) in E. discriminate E.
Qed.

End ThresholdGate.

Lemma threshold_floor_witness :
  Vbo2.settle_agreement (H:=Still.gui Case.accruals_50) 5 5001 (Q2Qc 40)
    true false Case.gate_start
  = (Ok (refused_at (Q2Qc 50) (Q2Qc 40)), Case.gate_left)
  ∧ Vbo2.settle_agreement (H:=Still.gui Case.accruals_50) 5 5001 (Q2Qc (-5))
      true false Case.gate_start
    = (Ok (refused_at (Q2Qc 50) one_cent), Case.gate_left)
  ∧ Vbo2.settle_agreement (H:=Still.gui Case.accruals_50) 5 5001 (Q2Qc 60)
      true false Case.gate_start
    = (Raise (Exn ComError "The control could not be found by id."),
       Case.gate_status).
Proof.
  assert (Hfind : Vbo2._find (H:=Still.gui Case.accruals_50) 5001 true false
                    Case.gate_start
                  = (Ok (FPair "I" "Agreement found and opened."),
                     Case.gate_found)) by (vm_compute; reflexivity).
  assert (Hvolumes : Vbo2._get_sales_volumes (H:=Still.gui Case.accruals_50)
                       Case.gate_found
                     = (Ok (0%Qc, Q2Qc 50), Case.gate_volumes))
    by (vm_compute; reflexivity).
  assert (Hstatus : Vbo2._get_agreement_status
                      (H:=Still.gui Case.accruals_50) Case.gate_volumes
                    = (Ok (VStr "A"), Case.gate_status))
    by (vm_compute; reflexivity).
  assert (Hopen : vbo2_sess (vbo2 Case.gate_start) ≠ VNone)
    by (vm_compute; discriminate).
  assert (Hscales : Vbo2._scales_checked (H:=Still.gui Case.accruals_50) 5
                      Case.gate_status
                    = (Ok false, Case.gate_scales))
    by (vm_compute; reflexivity).
  assert (Hleft : Vbo2._go_to_start_window (H:=Still.gui Case.accruals_50)
                    Case.gate_scales
                  = (Ok tt, Case.gate_left))
    by (vm_compute; reflexivity).
  assert (Hpress : Vbo2._press_settle (H:=Still.gui Case.accruals_50)
                     Case.gate_status
                   = (Raise (Exn ComError
                               "The control could not be found by id."),
                      Case.gate_status))
    by (vm_compute; reflexivity).
  split; [|split].
  - destruct (threshold_floor (H:=Still.gui Case.accruals_50) 5 5001
                (Q2Qc 40) true false Case.gate_start Case.gate_found
                Case.gate_volumes Case.gate_status
                "Agreement found and opened." (Q2Qc 50) (VStr "A")
                Hopen Hfind Hvolumes Hstatus eq_refl) as (Hclosed & _).
    assert (Hcent : (one_cent ≤ Qcabs (Q2Qc 50))%Qc)
      by (vm_compute; discriminate).
    assert (Ht : (Q2Qc 40 ≤ Qcabs (Q2Qc 50))%Qc)
      by (vm_compute; discriminate).
    rewrite (Hclosed Hcent Ht Case.gate_scales Case.gate_left Hscales Hleft).
    vm_compute. reflexivity.
  - destruct (threshold_floor (H:=Still.gui Case.accruals_50) 5 5001
                (Q2Qc (-5)) true false Case.gate_start Case.gate_found
                Case.gate_volumes Case.gate_status
                "Agreement found and opened." (Q2Qc 50) (VStr "A")
                Hopen Hfind Hvolumes Hstatus eq_refl) as (Hclosed & _).
    assert (Hcent : (one_cent ≤ Qcabs (Q2Qc 50))%Qc)
      by (vm_compute; discriminate).
    assert (Ht : (Q2Qc (-5) ≤ Qcabs (Q2Qc 50))%Qc)
      by (vm_compute; discriminate).
    rewrite (Hclosed Hcent Ht Case.gate_scales Case.gate_left Hscales Hleft).
    vm_compute. reflexivity.
  - destruct (threshold_floor (H:=Still.gui Case.accruals_50) 5 5001
                (Q2Qc 60) true false Case.gate_start Case.gate_found
                Case.gate_volumes Case.gate_status
                "Agreement found and opened." (Q2Qc 50) (VStr "A")
                Hopen Hfind Hvolumes Hstatus eq_refl)
      as (_ & _ & Hbelow & _).
    assert (Hlt : (Qcabs (Q2Qc 50) < Q2Qc 60)%Qc) by (vm_compute; reflexivity).
    exact (Hbelow (or_intror Hlt) _ _ Hpress).
Defined.

(** ** Sessions: start, and operations on a closed session *)

Section Sessions.
Context {W : Type} `{Gui W} `{Python}.

Lemma vbo2_start_open sess (s : State W) :
  vbo2_sess (vbo2 s) ≠ VNone → Vbo2.start sess s = (Ok tt, s).
Proof.
  intros Hopen. unfold Vbo2.start, Vbo2._sess, mbind, M_bind, gets.
  by destruct (vbo2_sess (vbo2 s)).
Qed.

Lemma va02_start_open sess (s : State W) :
  va02_sess (va02 s) ≠ VNone → Va02.start sess s = (Ok tt, s).
Proof.
  intros Hopen. unfold Va02.start, Va02._sess, mbind, M_bind, gets.
  by destruct (va02_sess (va02 s)).
Qed.

Lemma so01_start_open sess (s : State W) :
  so01_sess (so01 s) ≠ VNone → So01.start sess s = (Ok tt, s).
Proof.
  intros Hopen. unfold So01.start, So01._sess, mbind, M_bind, gets.
  by destruct (so01_sess (so01 s)).
Qed.

Lemma vbo2_start_unbound (s : State W) :
  vbo2_sess (vbo2 s) = VNone → Vbo2.start VNone s = (Raise unbound, s).
Proof.
  intros E. unfold Vbo2.start, Vbo2._sess, mbind, M_bind, gets.
  by rewrite E.
Qed.

Lemma va02_start_unbound (s : State W) :
  va02_sess (va02 s) = VNone → Va02.start VNone s = (Raise unbound, s).
Proof.
  intros E. unfold Va02.start, Va02._sess, mbind, M_bind, gets.
  by rewrite E.
Qed.

Lemma so01_start_unbound (s : State W) :
  so01_sess (so01 s) = VNone → So01.start VNone s = (Raise unbound, s).
Proof.
  intros E. unfold So01.start, So01._sess, mbind, M_bind, gets.
  by rewrite E.
Qed.

(** The guards that are there: settlement, order amendment and the
    workflow item table refuse to work on a closed session. *)
Lemma settle_agreement_closed fuel num thresh ai ao (s : State W) :
  vbo2_sess (vbo2 s) = VNone →
  Vbo2.settle_agreement fuel num thresh ai ao s = (Raise (closed "vbo2"), s).
Proof.
  intros E. unfold Vbo2.settle_agreement, Vbo2._sess, mbind, M_bind, gets.
  by rewrite E.
Qed.

Lemma change_sales_order_closed fuel num pi ap att (s : State W) :
  va02_sess (va02 s) = VNone →
  Va02.change_sales_order fuel num pi ap att s = (Raise (closed "va02"), s).
Proof.
  intros E. unfold Va02.change_sales_order, Va02._sess, mbind, M_bind, gets.
  by rewrite E.
Qed.

Lemma get_item_table_closed (s : State W) :
  so01_sess (so01 s) = VNone →
  So01.get_item_table s = (Raise (closed "so01"), s).
Proof.
  intros E. unfold So01.get_item_table, So01._sess, mbind, M_bind, gets.
  by rewrite E.
Qed.

End Sessions.

(** C8, as stated, fails: with VBO2 running, [start(None)] returns
    without an error and without a change. *)
Lemma start_none_on_open_session :
  vbo2_sess (vbo2 (Scenario.vbo2_started Scenario.open_balance)) ≠ VNone
  ∧ Vbo2.start VNone (Scenario.vbo2_started Scenario.open_balance)
    = (Ok tt, Scenario.vbo2_started Scenario.open_balance)
  ∧ fst (Vbo2.start VNone (Scenario.vbo2_started Scenario.open_balance))
    ≠ Raise unbound.
Proof.
  split; [intros E; vm_compute in E; discriminate E|].
  split; [vm_compute; reflexivity|].
  intros E; vm_compute in E; discriminate E.
Qed.

(** C8, amended. In each of the three sessions, [start] on a session
    that is already open changes nothing and raises nothing, whatever
    handle it is given, the null handle included; [start] with the null
    handle on a closed session raises [UnboundLocalError] and binds
    nothing. *)
Theorem start_idempotent_unbound_when_closed {W} `{Gui W} `{Python}
    (sess : value) (s : State W) :
  (vbo2_sess (vbo2 s) ≠ VNone → Vbo2.start sess s = (Ok tt, s))
  ∧ (va02_sess (va02 s) ≠ VNone → Va02.start sess s = (Ok tt, s))
  ∧ (so01_sess (so01 s) ≠ VNone → So01.start sess s = (Ok tt, s))
  ∧ (vbo2_sess (vbo2 s) = VNone → Vbo2.start VNone s = (Raise unbound, s))
  ∧ (va02_sess (va02 s) = VNone → Va02.start VNone s = (Raise unbound, s))
  ∧ (so01_sess (so01 s) = VNone → So01.start VNone s = (Raise unbound, s)).
Proof.
  repeat split.
  - apply vbo2_start_open.
  - apply va02_start_open.
  - apply so01_start_open.
  - apply vbo2_start_unbound.
  - apply va02_start_unbound.
  - apply so01_start_unbound.
Qed.

Lemma start_idempotent_unbound_when_closed_witness :
  Vbo2.start Scripted.ses (Scenario.vbo2_started Scenario.open_balance)
  = (Ok tt, Scenario.vbo2_started Scenario.open_balance)
  ∧ Vbo2.start VNone (Scripted.boot Scenario.open_balance ∅)
    = (Raise unbound, Scripted.boot Scenario.open_balance ∅)
  ∧ Va02.start VNone (Scripted.boot Scenario.open_balance ∅)
    = (Raise unbound, Scripted.boot Scenario.open_balance ∅)
  ∧ So01.start VNone (Scripted.boot Scenario.open_balance ∅)
    = (Raise unbound, Scripted.boot Scenario.open_balance ∅).
Proof.
  split.
  - destruct (start_idempotent_unbound_when_closed Scripted.ses
                (Scenario.vbo2_started Scenario.open_balance))
      as (Hopen & _).
    apply Hopen. intros E; vm_compute in E; discriminate E.
  - destruct (start_idempotent_unbound_when_closed VNone
                (Scripted.boot Scenario.open_balance ∅))
      as (_ & _ & _ & Hvbo2 & Hva02 & Hso01).
    split; [exact (Hvbo2 eq_refl)|].
    split; [exact (Hva02 eq_refl)|exact (Hso01 eq_refl)].
Defined.

(** C7: [process_workflow] has no guard.  On a session that was never
    started it scans the table it is handed; with a matching row it
    selects and opens the item and then fails on the unbound user area
    with [AttributeError], without a matching row it returns false.
    Neither is [TransactionClosedError]. *)
Theorem process_workflow_on_closed_session :
  so01_sess (so01 (Scripted.boot Scenario.inbox_777 ∅)) = VNone
  ∧ fst (So01.process_workflow 5 (VObj "items") "777"
           (Scripted.boot Scenario.inbox_777 ∅))
    = Raise (Exn AttributeError "object has no such attribute")
  ∧ fst (So01.process_workflow 5 (VObj "items") "777"
           (Scripted.boot Scenario.inbox_other ∅))
    = Ok false.
Proof.
  split; [reflexivity|]. split; vm_compute; reflexivity.
Qed.

(** ** The dialogs of [_find] *)

Section Find.
Context {W : Type} `{Gui W} `{Python}.

(** With both flags set [_find] has no early exit: what it returns is
    the pair made from the status bar. *)
Lemma find_accepting_all num (s s' : State W) r :
  Vbo2._find num true true s = (Ok r, s') → ∃ a b, r = FPair a b.
Proof.
  unfold Vbo2._find. intros Hrun. repeat ok_step; simpl in *.
  all: repeat ok_step; repeat case_match; repeat ok_step; eauto.
  all: simpl in *; congruence.
Qed.

(** The bare text of an early exit does not unpack into two names,
    unless it has exactly two characters. *)
Lemma unpack2_text t (s : State W) :
  String.length t ≠ 2%nat →
  ∃ e, Vbo2.unpack2 (FText t) s = (Raise e, s) ∧ exn_class_of e = ValueError.
Proof.
  intros Hlen. destruct t as [|a [|b [|c t]]]; simpl in *;
    try done; eexists; split; reflexivity.
Qed.

(** So an early exit of [_find] makes [settle_agreement] raise
    [ValueError]: no result comes back for the item. *)
Lemma settle_agreement_early_exit fuel num thresh ai ao (s s1 : State W) t :
  vbo2_sess (vbo2 s) ≠ VNone →
  Vbo2._find num ai ao s = (Ok (FText t), s1) →
  String.length t ≠ 2%nat →
  ∃ e, Vbo2.settle_agreement fuel num thresh ai ao s = (Raise e, s1)
       ∧ exn_class_of e = ValueError.
Proof.
  intros Hopen Hfind Hlen.
  destruct (unpack2_text t s1 Hlen) as (e & Hun & Hcls).
  exists e. split; [|done].
  unfold Vbo2.settle_agreement.
  rewrite (bind_run _ _ s (vbo2_sess (vbo2 s)) s) by done.
  destruct (vbo2_sess (vbo2 s)) eqn:E; try done.
  all: simpl; rewrite (bind_run _ _ _ _ _ Hfind).
  all: by rewrite (bind_raise _ _ _ _ _ Hun).
Qed.

End Find.

(** C10: the 'is not current' dialog.  [_find] dismisses it, restarts
    the transaction and then reads the dialog text of a window that is
    no dialog any more: the assertion fails, [settle_agreement] raises
    instead of returning a result for the item, and the orchestrator
    takes that for an unexplained failure, dumps the frame and ends the
    run before the second agreement.  A 'marked for deletion' dialog is
    passed over and the item gets its regular result. *)
Theorem not_current_dialog_aborts_the_run :
  fst (Vbo2.settle_agreement 5 5001 (Q2Qc 40) true false
         (Scenario.vbo2_started Scenario.stale_volumes))
  = Raise (Exn AssertionError EmptyString)
  ∧ fst (Controller.process_agreements 5 Scripted.ses Scenario.norway
           [5001; 5002] "doc.pdf" "1234"
           (Scripted.boot Scenario.stale_volumes ∅))
    = Raise (Exn RuntimeError "Unhandled exception: ")
  ∧ message <$> fst_ok
      (Vbo2.settle_agreement 5 5001 (Q2Qc 40) true false
         (Scenario.vbo2_started Scenario.inactive_account))
    = Some (Some "Could not settle the agreement! Open value is not 0 EUR.").
Proof.
  split; [vm_compute; reflexivity|]. split; vm_compute; reflexivity.
Qed.

(** ** File names of the batches *)

Section Names.

Lemma string_app_cons c (s t : string) : String c s +:+ t = String c (s +:+ t).
Proof. reflexivity. Qed.

Lemma string_app_length (s t : string) :
  String.length (s +:+ t) = (String.length s + String.length t)%nat.
Proof.
  induction s as [|c s IH]; [done|]. rewrite string_app_cons. simpl. by f_equal.
Qed.

Lemma string_app_assoc (s t u : string) : (s +:+ t) +:+ u = s +:+ (t +:+ u).
Proof. induction s as [|c s IH]; [done|]. rewrite !string_app_cons. by f_equal. Qed.

Lemma string_app_inv_tail (s t u : string) : s +:+ u = t +:+ u → s = t.
Proof.
  revert t. induction s as [|c s IH]; intros [|d t] E.
  - done.
  - apply (f_equal String.length) in E. rewrite !string_app_length in E.
    simpl in E. lia.
  - apply (f_equal String.length) in E. rewrite !string_app_length in E.
    simpl in E. lia.
  - rewrite !string_app_cons in E. injection E as -> E. f_equal. by apply IH.
Qed.

Lemma pretty_N_go_head (x : N) (s : string) :
  (0 < x)%N → no_leading_zero (pretty_N_go x s).
Proof.
  revert s. induction (N.lt_wf_0 x) as [x _ IH]; intros s Hx.
  rewrite pretty_N_go_step by done.
  destruct (decide (x `div` 10 = 0)%N) as [E|E].
  - rewrite E, pretty_N_go_0. eexists _, _. split; [done|].
    apply N.div_small_iff in E; [|done].
    rewrite N.mod_small by done.
    assert (x = 1 ∨ x = 2 ∨ x = 3 ∨ x = 4 ∨ x = 5 ∨ x = 6
            ∨ x = 7 ∨ x = 8 ∨ x = 9)%N as Hcases by lia.
    intros Hc. unfold pretty_N_char in Hc.
    repeat (destruct Hcases as [->|Hcases]; [discriminate Hc|]).
    subst x. discriminate Hc.
  - apply IH; [by apply N.div_lt | by apply N.neq_0_lt_0].
Qed.

Lemma str_int_head (n : Z) : 0 < n → no_leading_zero (PyStr.str_int n).
Proof.
  destruct n as [|p|p]; try lia. intros _.
  unfold PyStr.str_int, pretty, pretty_Z, pretty, pretty_positive, pretty,
    pretty_N.
  case_decide; [done|]. by apply pretty_N_go_head.
Qed.

Lemma zeros_app_inj (k k' : nat) (a b : string) :
  no_leading_zero a → no_leading_zero b →
  PyStr.zeros k +:+ a = PyStr.zeros k' +:+ b → a = b.
Proof.
  intros (c & r & -> & Hc) (d & t & -> & Hd). revert k'.
  induction k as [|k IH]; intros [|k'] E; simpl in E.
  - done.
  - rewrite string_app_cons in E. injection E as -> _. done.
  - rewrite string_app_cons in E. injection E as <- _. done.
  - rewrite !string_app_cons in E. injection E as E. by apply (IH k').
Qed.

Lemma zfill_str_int_inj (w : nat) (n m : Z) :
  0 < n → 0 < m →
  PyStr.zfill w (PyStr.str_int n) = PyStr.zfill w (PyStr.str_int m) → n = m.
Proof.
  intros Hn Hm E. unfold PyStr.zfill in E.
  apply zeros_app_inj in E; [|by apply str_int_head..].
  by apply (inj pretty) in E.
Qed.

(** Two batch ids have two file names. *)
Lemma compile_batch_path_inj (n m : Z) :
  0 < n → 0 < m →
  Controller._compile_batch_path n = Controller._compile_batch_path m → n = m.
Proof.
  intros Hn Hm E. unfold Controller._compile_batch_path in E.
  apply (inj (String.app "batch_")) in E.
  apply string_app_inv_tail in E. by apply (zfill_str_int_inj 3).
Qed.

Lemma strip_json_app (stem : string) :
  Controller.strip_json (stem +:+ ".json") = Some stem.
Proof.
  induction stem as [|c stem IH]; [done|].
  rewrite string_app_cons. unfold Controller.strip_json; fold Controller.strip_json.
  destruct (String.eqb_spec (String c (stem +:+ ".json")) ".json") as [E|_].
  - apply (f_equal String.length) in E. simpl in E.
    rewrite string_app_length in E. simpl in E. lia.
  - by rewrite IH.
Qed.

Lemma strip_json_Some (name stem : string) :
  Controller.strip_json name = Some stem → name = stem +:+ ".json".
Proof.
  revert stem. induction name as [|c name IH]; intros stem.
  - simpl. discriminate.
  - unfold Controller.strip_json; fold Controller.strip_json.
    destruct (String.eqb_spec (String c name) ".json") as [->|_].
    + by intros [= <-].
    + destruct (Controller.strip_json name) as [stem'|]; [|discriminate].
      intros [= <-]. rewrite string_app_cons. f_equal. by apply IH.
Qed.

Lemma json_stem_Some (name stem : string) :
  Controller.json_stem name = Some stem → name = stem +:+ ".json".
Proof.
  unfold Controller.json_stem. case_match; [discriminate|].
  apply strip_json_Some.
Qed.

Lemma json_stem_batch (n : Z) :
  Controller.json_stem (Controller._compile_batch_path n) = Some (batch_name n).
Proof.
  unfold Controller.json_stem, Controller._compile_batch_path.
  change (String.prefix "." ("batch_" +:+ ?x)) with false. cbv iota.
  rewrite <- string_app_assoc. apply strip_json_app.
Qed.

End Names.

(** ** The batch log *)

Section FirstFree.
Context {A : Type}.
Implicit Types (dir : gmap string A) (name : Z → string).

Lemma first_free_Some fuel name dir n m :
  Controller.first_free fuel name dir n = Some m →
  n ≤ m ∧ dir !! name m = None
  ∧ ∀ k, n ≤ k < m → is_Some (dir !! name k).
Proof.
  revert n. induction fuel as [|fuel IH]; intros n; simpl; [done|].
  destruct (dir !! name n) as [x|] eqn:E.
  - intros Hrec. apply IH in Hrec as (Hle & Hfree & Hused).
    split; [lia|]. split; [done|].
    intros k Hk. destruct (decide (k = n)) as [->|Hne]; [by eexists|].
    apply Hused. lia.
  - intros [= <-]. split; [lia|]. split; [done|]. intros k Hk. lia.
Qed.

Lemma first_free_None fuel name dir n :
  Controller.first_free fuel name dir n = None →
  ∀ k, n ≤ k < n + Z.of_nat fuel → is_Some (dir !! name k).
Proof.
  revert n. induction fuel as [|fuel IH]; intros n; simpl.
  - intros _ k Hk. lia.
  - destruct (dir !! name n) as [x|] eqn:E; [|done].
    intros Hrec k Hk. destruct (decide (k = n)) as [->|Hne]; [by eexists|].
    apply (IH _ Hrec). lia.
Qed.

(** A directory of [size dir] files cannot hold [size dir + 1] names. *)
Lemma first_free_enough name dir n :
  (∀ a b, n ≤ a → n ≤ b → name a = name b → a = b) →
  is_Some (Controller.first_free (S (size dir)) name dir n).
Proof.
  intros Hinj.
  destruct (Controller.first_free (S (size dir)) name dir n) eqn:E;
    [by eexists|].
  exfalso. pose proof (first_free_None _ _ _ _ E) as Hused.
  set (l := name <$> seqZ n (Z.of_nat (S (size dir)))).
  assert (Hnodup : NoDup l).
  { apply NoDup_fmap_2_strong; [|apply NoDup_seqZ].
    intros a b Ha%elem_of_seqZ Hb%elem_of_seqZ. apply Hinj; lia. }
  assert (Hsub : (list_to_set l : gset string) ⊆ dom dir).
  { intros x Hx%elem_of_list_to_set. unfold l in Hx.
    apply list_elem_of_fmap in Hx as (k & -> & Hk%elem_of_seqZ).
    apply elem_of_dom, Hused. lia. }
  apply subseteq_size in Hsub.
  rewrite size_list_to_set, size_dom in Hsub by done.
  unfold l in Hsub. rewrite length_fmap, length_seqZ in Hsub. lia.
Qed.

End FirstFree.

Section BatchLog.
Context {W : Type}.
Implicit Types (s : State W).

Lemma create_batch_file_spec country cocd s :
  ∃ nth,
    Controller._create_batch_file country cocd s
    = (Ok nth,
       with_data_dir (<[Controller._compile_batch_path nth :=
                          batch_doc country cocd []]> (data_dir s)) s)
    ∧ 1 ≤ nth
    ∧ data_dir s !! Controller._compile_batch_path nth = None
    ∧ ∀ k, 1 ≤ k < nth →
           is_Some (data_dir s !! Controller._compile_batch_path k).
Proof.
  destruct (first_free_enough Controller._compile_batch_path (data_dir s) 1)
    as [nth Hnth].
  { intros a b Ha Hb. apply compile_batch_path_inj; lia. }
  exists nth. pose proof (first_free_Some _ _ _ _ _ Hnth) as (? & ? & ?).
  split; [|done].
  unfold Controller._create_batch_file, mbind, M_bind, gets, modify.
  by rewrite Hnth.
Qed.

Lemma update_batch_data_spec nth memo country cocd memos s :
  data_dir s !! Controller._compile_batch_path nth
  = Some (batch_doc country cocd memos) →
  Controller._update_batch_data nth memo s
  = (Ok tt,
     with_data_dir (<[Controller._compile_batch_path nth :=
                        batch_doc country cocd (memos ++ [memo])]>
                      (data_dir s)) s).
Proof.
  intros Hfile.
  unfold Controller._update_batch_data, mbind, M_bind, gets, modify.
  rewrite Hfile. simpl. unfold batch_doc. by rewrite fmap_app.
Qed.

End BatchLog.

Section Dicts.
Context {A : Type}.
Local Open Scope list_scope.
Implicit Types (d l : list (string * A)).

Lemma dict_put_fresh k (v : A) d :
  k ∉ d.*1 → Controller.dict_put k v d = d ++ [(k, v)].
Proof.
  induction d as [|[k' v'] d IH]; intros Hk; simpl; [done|].
  destruct (String.eqb_spec k k') as [->|Hne].
  - exfalso. apply Hk. simpl. left.
  - rewrite IH; [done|]. intros Hin. apply Hk. simpl. by right.
Qed.

Lemma fold_dict_put l d :
  NoDup (d ++ l).*1 →
  fold_left (λ data '(k, v), Controller.dict_put k v data) l d = d ++ l.
Proof.
  revert d. induction l as [|[k v] l IH]; intros d Hnd; simpl.
  - by rewrite app_nil_r.
  - rewrite dict_put_fresh.
    + rewrite IH; [by rewrite <- app_assoc|]. by rewrite <- app_assoc.
    + rewrite fmap_app in Hnd. apply NoDup_app in Hnd as (_ & Hdisj & _).
      intros Hin. apply (Hdisj _ Hin). simpl. left.
Qed.

Lemma dict_get_elem k (v : A) l :
  NoDup l.*1 → (k, v) ∈ l → Controller.dict_get k l = Some v.
Proof.
  unfold Controller.dict_get.
  induction l as [|[k' v'] l IH]; intros Hnd Hin; [by inversion Hin|].
  simpl in *. apply NoDup_cons in Hnd as [Hk' Hnd].
  destruct (String.eqb_spec k k') as [->|Hne]; simpl.
  - apply elem_of_cons in Hin as [[= ->]|Hin]; [done|].
    exfalso. apply Hk'. apply list_elem_of_fmap. by exists (k', v).
  - apply elem_of_cons in Hin as [[= -> ->]|Hin]; [done|]. by apply IH.
Qed.

End Dicts.

Section Load.
Context {W : Type}.
Implicit Types (s : State W).

Lemma elem_of_stems dir stem content :
  (stem, content) ∈ stems dir ↔ dir !! (stem +:+ ".json") = Some content
                                 ∧ Controller.json_stem (stem +:+ ".json")
                                   = Some stem.
Proof.
  unfold stems. rewrite list_elem_of_omap. split.
  - intros ([name c] & Hin%elem_of_map_to_list & Hg).
    destruct (Controller.json_stem name) as [st|] eqn:Hst; simplify_eq/=.
    apply json_stem_Some in Hst as Hname. by subst.
  - intros [Hfile Hst]. exists (stem +:+ ".json", content).
    split; [by apply elem_of_map_to_list|]. by rewrite Hst.
Qed.

Lemma NoDup_stems dir : NoDup (stems dir).*1.
Proof.
  unfold stems. pose proof (NoDup_fst_map_to_list dir) as Hnd.
  induction (map_to_list dir) as [|[name c] l IH]; simpl; [constructor|].
  simpl in Hnd. apply NoDup_cons in Hnd as [Hname Hnd].
  destruct (Controller.json_stem name) as [st|] eqn:Hst; simpl; [|by apply IH].
  apply NoDup_cons. split; [|by apply IH].
  intros ([st' c'] & -> & Hin)%list_elem_of_fmap.
  apply list_elem_of_omap in Hin as ([name' c''] & Hin & Hg).
  destruct (Controller.json_stem name') as [st''|] eqn:Hst'; simplify_eq/=.
  apply json_stem_Some in Hst, Hst'. subst.
  apply Hname. apply list_elem_of_fmap. by eexists (_, _).
Qed.

Lemma load_data_batches_spec s :
  Controller.load_data_batches s = (Ok (stems (data_dir s)), s).
Proof.
  unfold Controller.load_data_batches, mbind, M_bind, gets, mret, M_ret.
  f_equal. f_equal. apply (fold_dict_put _ []). apply NoDup_stems.
Qed.

Lemma load_data_batches_lookup s n content :
  data_dir s !! Controller._compile_batch_path n = Some content →
  Controller.dict_get (batch_name n) (stems (data_dir s)) = Some content.
Proof.
  intros Hfile. apply dict_get_elem; [apply NoDup_stems|].
  apply elem_of_stems.
  assert (batch_name n +:+ ".json" = Controller._compile_batch_path n) as ->.
  { unfold batch_name, Controller._compile_batch_path. apply string_app_assoc. }
  split; [done|apply json_stem_batch].
Qed.

End Load.

Section RoundTrip.
Context {W : Type}.
Implicit Types (s : State W).

Lemma update_all nth country cocd memos0 memos s :
  data_dir s !! Controller._compile_batch_path nth
  = Some (batch_doc country cocd memos0) →
  ∃ us s2,
    map_each (Controller._update_batch_data nth) memos s = (Ok us, s2)
    ∧ data_dir s2 !! Controller._compile_batch_path nth
      = Some (batch_doc country cocd (memos0 ++ memos)%list).
Proof.
  revert memos0 s. induction memos as [|memo memos IH]; intros memos0 s Hfile.
  - exists [], s. by rewrite app_nil_r.
  - pose proof (update_batch_data_spec nth memo _ _ _ s Hfile) as Hupd.
    destruct (IH (memos0 ++ [memo])%list
                 (with_data_dir (<[Controller._compile_batch_path nth :=
                    batch_doc country cocd (memos0 ++ [memo])%list]>
                    (data_dir s)) s)) as (us & s2 & Hrest & Hdoc).
    { simpl. apply lookup_insert_eq. }
    exists (tt :: us), s2. split.
    + simpl. rewrite (bind_run _ _ _ _ _ Hupd).
      by rewrite (bind_run _ _ _ _ _ Hrest).
    + by rewrite <- app_assoc in Hdoc.
Qed.

End RoundTrip.

(** C5. A batch record that is created and then appended to, number by
    number, is found again by [load_data_batches] under its name, with
    the same numbers in the same order and with its country and company
    code. *)
Theorem batch_round_trip {W} country cocd (memos : list Z) (s : State W) :
  ∃ nth s1 us s2 batches,
    Controller._create_batch_file country cocd s = (Ok nth, s1)
    ∧ map_each (Controller._update_batch_data nth) memos s1 = (Ok us, s2)
    ∧ Controller.load_data_batches s2 = (Ok batches, s2)
    ∧ Controller.dict_get (batch_name nth) batches
      = Some (JDict [("country", JStr country);
                     ("company_code", JStr cocd);
                     ("credit_memos", JList (JInt <$> memos))]).
Proof.
  destruct (create_batch_file_spec country cocd s) as (nth & Hcreate & _).
  destruct (update_all nth country cocd [] memos
              (with_data_dir (<[Controller._compile_batch_path nth :=
                 batch_doc country cocd []]> (data_dir s)) s))
    as (us & s2 & Hupd & Hdoc).
  { simpl. apply lookup_insert_eq. }
  eexists nth, _, us, s2, _.
  split; [exact Hcreate|]. split; [exact Hupd|].
  split; [apply load_data_batches_spec|].
  by apply load_data_batches_lookup.
Qed.

(** The numbers 100 and 200 come back as the list [100, 200]. *)
Example batch_100_200 :
  fst_ok ((nth ← Controller._create_batch_file "Norway" "1234";
           _ ← Controller._update_batch_data nth 100;
           _ ← Controller._update_batch_data nth 200;
           batches ← Controller.load_data_batches;
           mret (Controller.dict_get (batch_name nth) batches))
            (Scripted.boot [] ∅))
  = Some (Some (JDict [("country", JStr "Norway");
                       ("company_code", JStr "1234");
                       ("credit_memos", JList [JInt 100; JInt 200])])).
Proof. vm_compute. reflexivity. Qed.

(** C6, as stated, fails: once the finalization run has removed batch
    1, the next batch gets the id 1 again, below the id 2 given out
    before. *)
Lemma batch_id_reused :
  fst_ok ((a ← Controller._create_batch_file "Norway" "1234";
           b ← Controller._create_batch_file "Norway" "1234";
           _ ← Controller.remove_data_batch (batch_name a);
           c ← Controller._create_batch_file "Norway" "1234";
           mret [a; b; c])
            (Scripted.boot [] ∅))
  = Some [1; 2; 1].
Proof. vm_compute. reflexivity. Qed.

(** C6, amended. [_create_batch_file] returns the smallest positive
    integer for which the directory has no batch file, and creates that
    file.  The id is above every [m] such that the files 1 to [m] are
    all there, so ids grow as long as no record has been removed; the
    id of a removed record is given out again. *)
Theorem create_batch_file_first_unused {W}
    country cocd (s : State W) :
  ∃ nth s',
    Controller._create_batch_file country cocd s = (Ok nth, s')
    ∧ 1 ≤ nth
    ∧ data_dir s !! Controller._compile_batch_path nth = None
    ∧ (∀ k, 1 ≤ k < nth →
            is_Some (data_dir s !! Controller._compile_batch_path k))
    ∧ is_Some (data_dir s' !! Controller._compile_batch_path nth)
    ∧ (∀ m, (∀ k, 1 ≤ k ≤ m →
                  is_Some (data_dir s !! Controller._compile_batch_path k)) →
            m < nth).
Proof.
  destruct (create_batch_file_spec country cocd s)
    as (nth & Hcreate & Hpos & Hfree & Hused).
  eexists nth, _. split; [exact Hcreate|].
  split; [done|]. split; [done|]. split; [done|]. split.
  - simpl. rewrite lookup_insert_eq. by eexists.
  - intros m Hall. destruct (decide (m < nth)) as [|Hge]; [done|].
    destruct (Hall nth) as [x Hx]; [lia|]. congruence.
Qed.

(** ** What the sessions leave alone

    The session modules talk to the GUI, rebind their globals and, in
    the case of vbo2, write log records.  A relation between the state
    before and after that tolerates these three is kept by every
    session procedure, however it ends. *)

Section Frames.
Context {W : Type} `{Gui W} `{Python}.

Global Instance keeps_frame : Frame (W:=W) keeps.
Proof.
  split; unfold keeps; simpl; try done.
  intros s1 s2 s3 (-> & -> & -> & -> & ->) (-> & -> & -> & -> & ->). done.
Qed.

Global Instance journal_grows_frame : Frame (W:=W) journal_grows.
Proof.
  split; unfold journal_grows; simpl; try done.
  - intros s1 s2 s3 ??. by etrans.
  - intros l s. by apply prefix_app_r.
Qed.

Context (R : State W → State W → Prop) `{!Frame R}.

Lemma respects_ret {A} (a : A) : respects R (mret a).
Proof. intros s. apply frame_refl. Qed.

Lemma respects_raise {A} c msg : respects R (raise (A:=A) c msg).
Proof. intros s. apply frame_refl. Qed.

Lemma respects_reraise {A} e : respects R (reraise (A:=A) e).
Proof. intros s. apply frame_refl. Qed.

Lemma respects_hang {A} : respects R (hang (A:=A)).
Proof. intros s. apply frame_refl. Qed.

Lemma respects_gets {A} (f : State W → A) : respects R (gets f).
Proof. intros s. apply frame_refl. Qed.

Lemma respects_assert b msg : respects R (assert b msg).
Proof. intros s. destruct b; apply frame_refl. Qed.

Lemma respects_bind {A B} (m : M (State W) A) (f : A → M (State W) B) :
  respects R m → (∀ a, respects R (f a)) → respects R (m ≫= f).
Proof.
  intros Hm Hf s. unfold mbind, M_bind.
  pose proof (Hm s) as Hs. destruct (m s) as [[a|e|] s1]; simpl in *;
    [|done..].
  eapply frame_trans; [exact Hs|apply Hf].
Qed.

Lemma respects_try_except {A} (m : M (State W) A) h :
  respects R m → (∀ e, respects R (h e)) → respects R (try_except m h).
Proof.
  intros Hm Hh s. unfold try_except.
  pose proof (Hm s) as Hs. destruct (m s) as [[a|e|] s1]; simpl in *;
    [done| |done].
  eapply frame_trans; [exact Hs|apply Hh].
Qed.

Lemma respects_try_finally {A} (m : M (State W) A) fin :
  respects R m → respects R fin → respects R (try_finally m fin).
Proof.
  intros Hm Hfin s. unfold try_finally.
  pose proof (Hm s) as Hs. destruct (m s) as [[a|e|] s1]; simpl in *;
    [| |done].
  - eapply frame_trans; [exact Hs|].
    apply respects_bind; [done|]. intros _. apply respects_ret.
  - eapply frame_trans; [exact Hs|].
    apply respects_bind; [done|]. intros _. apply respects_reraise.
Qed.

Lemma respects_member o a : respects R (member o a).
Proof.
  intros s. destruct o; simpl; try apply frame_refl.
  destruct (dispatch h a (gui s)) as [[e|v] w]; simpl; apply frame_gui.
Qed.

Lemma respects_log lvl msg : respects R (log lvl msg).
Proof. intros s. apply frame_journal. Qed.

Lemma respects_for_each {A B} (body : A → M (State W) (option B)) xs :
  (∀ x, respects R (body x)) → respects R (for_each body xs).
Proof.
  intros Hbody. induction xs as [|x xs IH]; simpl; [apply respects_ret|].
  apply respects_bind; [done|]. intros [b|]; [apply respects_ret|done].
Qed.

Lemma respects_map_each {A B} (f : A → M (State W) B) xs :
  (∀ x, respects R (f x)) → respects R (map_each f xs).
Proof.
  intros Hf. induction xs as [|x xs IH]; simpl; [apply respects_ret|].
  apply respects_bind; [done|]. intros y.
  apply respects_bind; [done|]. intros ys. apply respects_ret.
Qed.

Lemma respects_while fuel (cond : M (State W) bool) body :
  respects R cond → respects R body → respects R (while fuel cond body).
Proof.
  intros Hc Hb. induction fuel as [|fuel IH]; simpl; [apply respects_hang|].
  apply respects_bind; [done|]. intros [|]; [|apply respects_ret].
  apply respects_bind; [done|]. by intros _.
Qed.

End Frames.

Ltac head_of t :=
  lazymatch t with
  | ?f _ => head_of f
  | _ => t
  end.

Create HintDb frames discriminated.

(** Decomposes a procedure into its calls; known procedures are taken
    from the hint base, the others are unfolded. *)
Ltac frame_apply lem := apply lem; try exact _.

Ltac frames_step :=
  lazymatch goal with
  | |- respects _ (@mbind _ _ _ _ _ _) =>
      frame_apply respects_bind; [|intros ?]
  | |- respects _ (@mret _ _ _ _) => frame_apply respects_ret
  | |- respects _ (raise _ _) => frame_apply respects_raise
  | |- respects _ hang => frame_apply respects_hang
  | |- respects _ (gets _) => frame_apply respects_gets
  | |- respects _ (assert _ _) => frame_apply respects_assert
  | |- respects _ (member _ _) => frame_apply respects_member
  | |- respects _ (log _ _) => frame_apply respects_log
  | |- respects _ (try_except _ _) =>
      frame_apply respects_try_except; [|intros ?]
  | |- respects _ (try_finally _ _) => frame_apply respects_try_finally
  | |- respects _ (for_each _ _) => frame_apply respects_for_each; intros ?
  | |- respects _ (map_each _ _) => frame_apply respects_map_each; intros ?
  | |- respects _ (while _ _ _) => frame_apply respects_while
  | |- respects _ (if ?b then _ else _) => destruct b
  | |- respects _ (let '(_, _) := ?p in _) => destruct p
  | |- respects _ (match ?x with _ => _ end) => destruct x
  | |- respects _ ?m =>
      first [ solve [auto with frames]
            | let h := head_of m in unfold h ]
  end.

Ltac frames := repeat frames_step.

Section SessionFrames.
Context {W : Type} `{Gui W} `{Python}.
Context (R : State W → State W → Prop) `{!Frame R}.

Lemma respects_vbo2_set_globals f : respects R (Vbo2.set_globals f).
Proof. intros s. apply frame_vbo2. Qed.

Lemma respects_va02_set_globals f : respects R (Va02.set_globals f).
Proof. intros s. apply frame_va02. Qed.

Lemma respects_so01_set_globals f : respects R (So01.set_globals f).
Proof. intros s. apply frame_so01. Qed.
Local Hint Resolve respects_vbo2_set_globals respects_va02_set_globals
  respects_so01_set_globals : frames.

Lemma respects_get_accounting_document fuel root node keyword :
  respects R (Vbo2._get_accounting_document fuel root node keyword).
Proof.
  revert node. induction fuel as [|fuel IH]; intros node; simpl; frames.
Qed.
Local Hint Resolve respects_get_accounting_document : frames.

Lemma respects_collect_labels lbls vals :
  respects R (Vbo2.collect_labels lbls vals).
Proof.
  revert vals. induction lbls as [|lbl lbls IH]; intros vals; simpl; frames.
Qed.
Local Hint Resolve respects_collect_labels : frames.

Lemma respects_find_condition fuel conditions key row_idx :
  respects R (Vbo2.find_condition fuel conditions key row_idx).
Proof.
  revert row_idx. induction fuel as [|fuel IH]; intros row_idx; simpl; frames.
Qed.
Local Hint Resolve respects_find_condition : frames.




Lemma respects_free_row rows row_idx : respects R (Va02.free_row rows row_idx).
Proof.
  revert row_idx. induction rows as [|[idx row] rows IH]; intros row_idx;
    simpl; frames.
Qed.
Local Hint Resolve respects_free_row : frames.

Lemma respects_dismiss_blocks fuel : respects R (Va02.dismiss_blocks fuel).
Proof. induction fuel as [|fuel IH]; simpl; frames. Qed.
Local Hint Resolve respects_dismiss_blocks : frames.




Lemma respects_scan_items fuel items kwd row_idx :
  respects R (So01.scan_items fuel items kwd row_idx).
Proof.
  revert row_idx. induction fuel as [|fuel IH]; intros row_idx; simpl; frames.
Qed.
Local Hint Resolve respects_scan_items : frames.

Lemma respects_so01_start sess : respects R (So01.start sess).
Proof. frames. Qed.

Lemma respects_so01_close : respects R So01.close.
Proof. frames. Qed.

Lemma respects_get_item_table : respects R So01.get_item_table.
Proof. frames. Qed.

Lemma respects_process_workflow fuel items kwd :
  respects R (So01.process_workflow fuel items kwd).
Proof. frames. Qed.

Lemma respects_logout sess : respects R (Sap.logout sess).
Proof. frames. Qed.

End SessionFrames.

(** ** The orchestrator and a failing amendment *)

Section Orchestrator.
Context {W : Type} `{Gui W} `{Python}.
Implicit Types (s : State W).

Lemma log_run lvl msg s : log lvl msg s = (Ok tt, after (log lvl msg) s).
Proof. reflexivity. Qed.

Lemma try_except_Ok {A} (m : M (State W) A) h s a s' :
  m s = (Ok a, s') → try_except m h s = (Ok a, s').
Proof. unfold try_except. by intros ->. Qed.

Lemma try_except_Raise {A} (m : M (State W) A) h s e s' :
  m s = (Raise e, s') → try_except m h s = h e s'.
Proof. unfold try_except. by intros ->. Qed.

Lemma try_finally_Ok {A} (m : M (State W) A) fin s a s1 s2 :
  m s = (Ok a, s1) → fin s1 = (Ok tt, s2) →
  try_finally m fin s = (Ok a, s2).
Proof.
  unfold try_finally. intros -> Hfin. by rewrite (bind_run _ _ _ _ _ Hfin).
Qed.

Lemma after_keeps {A} (m : M (State W) A) s :
  respects keeps m → keeps s (after m s).
Proof. intros Hm. apply Hm. Qed.


End Orchestrator.

Section AmendmentFails.
Context {W : Type} `{Gui W} `{Python}.
Variables (fuel : nat) (sess : value) (thresh : Qc) (approvers : list value).
Variables (att_path : string) (batch_idx : Z) (n_items idx : nat).
Variables (agt_num : Z) (s sA sB sC sD sE sF : State W).
Variables (result : SettlementResult) (doc : Z) (exc : exn).
Variables (row : Row) (country cocd : string) (memos : list Z).

(** The settlement of the item gives a memo request with a number. *)
Hypothesis Hstart :
  Vbo2.start sess (after (log INFO (banner agt_num idx n_items)) s)
  = (Ok tt, sA).
Hypothesis Hsettle :
  Vbo2.settle_agreement fuel agt_num thresh true false sA = (Ok result, sB).
Hypothesis Hdoc : document_number result = Some doc.
Hypothesis Hrequest : document_type result = Some "memo_request".

(** VBO2 closes and VA02 starts. *)
Hypothesis Hclose :
  Vbo2.close (after (Controller.set_row idx (record result))
                (after (log INFO "Agreement successfully settled.") sB))
  = (Ok tt, sC).
Hypothesis Hva02 :
  Va02.start sess (after (log INFO "Starting VA02 ...") sC) = (Ok tt, sD).

(** The amendment raises [exc]. *)
Hypothesis Hamend :
  Va02.change_sales_order fuel doc (Some false) (Some approvers)
    (Some att_path)
    (after (log INFO "Updating order parameters ...")
       (after (log INFO "VA02 running.") sD))
  = (Raise exc, sE).

(** VA02 closes. *)
Hypothesis Hva02_close :
  Va02.close
    (after (log INFO "Closing VA02 ...")
       (after (Controller.append_message idx
                 ("Error changing the sales order! " +:+ exn_str exc))
          (after (log ERROR (exn_str exc)) sE)))
  = (Ok tt, sF).

(** The item has its row, and the batch of the run its file. *)
Hypothesis Hrow : output s !! idx = Some row.
Hypothesis Hbatch :
  data_dir s !! Controller._compile_batch_path batch_idx
  = Some (batch_doc country cocd memos).












End AmendmentFails.


(** The whole run on two agreements: the first settles and its order
    cannot be amended, the second is unknown to SAP.  The run ends
    normally with both rows filled and the memo request in the batch. *)
Example run_goes_on_after_failed_amendment :
  let run := Controller.process_agreements 5 Scripted.ses
               (mkRules (Q2Qc 60) (approvers Scenario.norway) "Norway")
               [5001; 5002] "doc.pdf" "1234"
               (Scripted.boot Scenario.two_agreements ∅) in
  (λ rows : list Row, (Credit_Memo <$> rows, Message <$> rows))
    <$> fst_ok run
  = Some ([Some 123456789; None],
          [Some ("Agreement successfully settled."
                 +:+ "Error changing the sales order! "
                 +:+ "No authorization for maintaining order");
           Some "Agreement 5002 does not exist"])
  ∧ data_dir (snd run) !! Controller._compile_batch_path 1
    = Some (batch_doc "Norway" "1234" [123456789]).
Proof. split; vm_compute; reflexivity. Qed.

(** ** The finalization service *)

Section Finalization.
Context {W : Type} `{Gui W} `{Python}.
Implicit Types (s : State W).

Lemma for_each_one {A B} (body : A → M (State W) (option B)) x s s' :
  body x s = (Ok None, s') → for_each body [x] s = (Ok None, s').
Proof. intros Hbody. simpl. by rewrite (bind_run _ _ _ _ _ Hbody). Qed.

Lemma remove_data_batch_run name s :
  Controller.remove_data_batch name s
  = (Ok tt, after (Controller.remove_data_batch name) s).
Proof.
  unfold after, Controller.remove_data_batch, mbind, M_bind, log, gets, modify.
  simpl. by destruct (data_dir s !! (name +:+ ".json")).
Qed.

Lemma remove_data_batch_gone name s :
  data_dir (after (Controller.remove_data_batch name) s)
    !! (name +:+ ".json") = None.
Proof.
  unfold after, Controller.remove_data_batch, mbind, M_bind, log, gets, modify.
  simpl. destruct (data_dir s !! (name +:+ ".json")) eqn:E; simpl; [|done].
  apply lookup_delete_eq.
Qed.

Lemma remove_data_batch_journal name s :
  journal_grows s (after (Controller.remove_data_batch name) s).
Proof.
  unfold journal_grows, after, Controller.remove_data_batch, mbind, M_bind,
    log, gets, modify.
  simpl. destruct (data_dir s !! (name +:+ ".json")); simpl.
  - rewrite <- app_assoc. by apply prefix_app_r.
  - rewrite <- app_assoc. by apply prefix_app_r.
Qed.

End Finalization.

(** ** A table without the item *)

Section Scan.
Context {W : Type} `{Gui W}.
Variables (h : handle) (n : Z) (kwd : string).
Implicit Types (s : State W).

(** The table has [n] rows, every title it shows is a text without
    the keyword, and a row can be selected. *)
Hypothesis Hcount :
  ∀ w, ∃ w', dispatch h (Get "RowCount") w = (inr (VInt n), w').
Hypothesis Htitle :
  ∀ w r, 0 ≤ r < n → ∃ t w',
    dispatch h (Call "GetCellValue" [VInt r; VStr "OBJDES"]) w
    = (inr (VStr t), w')
    ∧ PyStr.contains kwd t = false.
Hypothesis Hselect :
  ∀ w r, 0 ≤ r < n → ∃ x w',
    dispatch h (Put "SelectedRows" (VStr (PyStr.str_int r))) w = (inr x, w').
Hypothesis Hcell :
  ∀ w r, 0 ≤ r < n → ∃ x w',
    dispatch h (Call "SetCurrentCell" [VInt r; VStr "OBJDES"]) w
    = (inr x, w').

Lemma member_Ok a s v w :
  dispatch h a (gui s) = (inr v, w) → member (VObj h) a s = (Ok v, with_gui w s).
Proof. intros E. simpl. by rewrite E. Qed.

Local Arguments member : simpl never.
Local Arguments get_attr : simpl never.
Local Arguments set_attr : simpl never.
Local Arguments call : simpl never.
Local Arguments call_ : simpl never.
Local Arguments as_str : simpl never.
Local Arguments as_int : simpl never.

Lemma read_title row s :
  0 ≤ row < n →
  ∃ t s', call (VObj h) "GetCellValue" [VInt row; VStr "OBJDES"] s
          = (Ok (VStr t), s')
          ∧ PyStr.contains kwd t = false.
Proof.
  intros Hrow. destruct (Htitle (gui s) row Hrow) as (t & w & E & Hno).
  exists t, (with_gui w s). split; [by apply member_Ok|done].
Qed.

(** The scan passes over every row and ends with false. *)
Lemma scan_items_missing fuel row s :
  0 ≤ row →
  (Z.to_nat (n - row) < fuel)%nat →
  ∃ s', So01.scan_items fuel (VObj h) kwd row s = (Ok false, s').
Proof.
  revert row s. induction fuel as [|fuel IH]; intros row s Hpos Hfuel; [lia|].
  simpl.
  destruct (Hcount (gui s)) as [w1 E1].
  rewrite (bind_run _ _ s n (with_gui w1 s)); cycle 1.
  { unfold get_attr. by rewrite (bind_run _ _ _ _ _ (member_Ok _ _ _ _ E1)). }
  destruct (row <? n) eqn:Hrow; [|by eexists].
  apply Z.ltb_lt in Hrow.
  destruct (read_title row (with_gui w1 s)) as (t & s2 & E2 & Hno); [lia|].
  rewrite (bind_run _ _ _ _ _ E2).
  destruct (is_str (VStr t) EmptyString) eqn:Hempty.
  - destruct (Hselect (gui s2) row) as (x & w3 & E3); [lia|].
    destruct (Hcell w3 row) as (y & w4 & E4); [lia|].
    destruct (read_title row (with_gui w4 (with_gui w3 s2)))
      as (t' & s5 & E5 & Hno'); [lia|].
    rewrite (bind_run _ _ s2 (VStr t') s5); cycle 1.
    { rewrite (bind_run _ _ s2 tt (with_gui w3 s2)); cycle 1.
      { unfold set_attr. by rewrite (bind_run _ _ _ _ _ (member_Ok _ _ _ _ E3)). }
      rewrite (bind_run _ _ _ tt (with_gui w4 (with_gui w3 s2))); cycle 1.
      { unfold call_.
        by rewrite (bind_run _ _ _ _ _ (member_Ok _ (with_gui w3 s2) _ _ E4)). }
      exact E5. }
    rewrite (bind_run _ _ s5 t' s5) by reflexivity.
    rewrite Hno'. simpl. apply IH; lia.
  - rewrite (bind_run _ _ s2 (VStr t) s2) by reflexivity.
    rewrite (bind_run _ _ s2 t s2) by reflexivity.
    rewrite Hno. simpl. apply IH; lia.
Qed.

(** [process_workflow] on such a table returns false. *)
Lemma process_workflow_missing fuel s :
  (Z.to_nat n < fuel)%nat →
  ∃ s', So01.process_workflow fuel (VObj h) kwd s = (Ok false, s').
Proof.
  intros Hfuel. unfold So01.process_workflow.
  apply scan_items_missing; [done|]. by rewrite Z.sub_0_r.
Qed.

End Scan.

(** ** The loop over the numbers of a batch *)

Section Loop.
Context {W : Type} `{Gui W}.
Variables (fuel : nat) (items : value) (total : nat).
Implicit Types (s : State W) (nums : list json).

Lemma finalize_items_nil first s :
  Controller.finalize_items fuel items total first [] s = (Ok None, s).
Proof. reflexivity. Qed.

Lemma finalize_items_cons first num nums s :
  Controller.finalize_items fuel items total first (num :: nums) s
  = (_ ← Controller.finalize_item fuel items total first num;
     Controller.finalize_items fuel items total (first + 1) nums) s.
Proof.
  unfold Controller.finalize_items.
  rewrite length_cons, Nat2Z.inj_succ, seqZ_cons by lia.
  rewrite Z.pred_succ. simpl. unfold mbind, M_bind.
  by destruct (Controller.finalize_item _ _ _ _ _ s) as [[[]|e|] s1].
Qed.

(** The loop over a list that falls into two parts. *)
Lemma finalize_items_app first pre nums s sP :
  Controller.finalize_items fuel items total first pre s = (Ok None, sP) →
  Controller.finalize_items fuel items total first (pre ++ nums) s
  = Controller.finalize_items fuel items total
      (first + Z.of_nat (length pre)) nums sP.
Proof.
  revert first s. induction pre as [|num pre IH]; intros first s.
  - rewrite finalize_items_nil. intros [= ->]. simpl. by rewrite Z.add_0_r.
  - rewrite <- app_comm_cons, !finalize_items_cons. intros Hrun.
    apply bind_Ok in Hrun as ([] & s1 & Hitem & Hrest).
    rewrite (bind_run _ _ _ _ _ Hitem), (IH _ _ Hrest).
    f_equal. rewrite length_cons. lia.
Qed.

End Loop.

Section LoopLog.
Context {W : Type} `{Gui W} `{Python}.
Variables (fuel : nat) (items : value) (total : nat).
Implicit Types (s : State W) (nums : list json).

Lemma respects_finalize_item (R : State W → State W → Prop) `{!Frame R}
    nth num :
  respects R (Controller.finalize_item fuel items total nth num).
Proof.
  unfold Controller.finalize_item.
  apply respects_bind; [done|apply respects_log; done|intros _].
  cbv zeta.
  apply respects_bind; [done|by apply respects_process_workflow|].
  intros [|]; by apply respects_log.
Qed.

Lemma respects_finalize_items (R : State W → State W → Prop) `{!Frame R}
    first nums :
  respects R (Controller.finalize_items fuel items total first nums).
Proof.
  unfold Controller.finalize_items. apply respects_for_each; [done|].
  intros [nth num].
  apply respects_bind; [done|by apply respects_finalize_item|].
  intros _. by apply respects_ret.
Qed.

(** The line that announces a number is in the log once its turn is
    over. *)
Lemma finalize_item_banner nth num s s' :
  Controller.finalize_item fuel items total nth num s = (Ok tt, s') →
  (INFO, item_banner nth total (str_json num)) ∈ journal s'.
Proof.
  unfold Controller.finalize_item. intros Hrun.
  apply bind_Ok in Hrun as ([] & s1 & Hlog & Hrest).
  assert (Hgrows : journal_grows s1 s').
  { assert (K : respects journal_grows
                  (found ← So01.process_workflow fuel items (str_json num);
                   if found : bool
                   then log INFO "Workflow item processed."
                   else log ERROR (not_found (str_json num)))).
    { apply respects_bind; [apply _|apply respects_process_workflow, _|].
      intros [|]; apply respects_log, _. }
    specialize (K s1). by rewrite Hrest in K. }
  eapply elem_of_prefix; [|exact Hgrows].
  unfold log, modify in Hlog. injection Hlog as <-.
  change (journal (with_journal ?l s)) with l.
  apply elem_of_app. right. apply list_elem_of_singleton. reflexivity.
Qed.

Lemma finalize_items_banners first nums s r s' :
  Controller.finalize_items fuel items total first nums s = (Ok r, s') →
  ∀ i num, nums !! i = Some num →
    (INFO, item_banner (first + Z.of_nat i) total (str_json num)) ∈ journal s'.
Proof.
  revert first s. induction nums as [|a nums IH]; intros first s Hrun i num Hi.
  - by rewrite lookup_nil in Hi.
  - rewrite finalize_items_cons in Hrun.
    apply bind_Ok in Hrun as ([] & s1 & Hitem & Hrest).
    destruct i as [|i]; simpl in Hi.
    + injection Hi as ->. rewrite Z.add_0_r.
      apply finalize_item_banner in Hitem.
      eapply elem_of_prefix; [exact Hitem|].
      pose proof (respects_finalize_items journal_grows (first + 1) nums s1)
        as K.
      by rewrite Hrest in K.
    + replace (first + Z.of_nat (S i)) with (first + 1 + Z.of_nat i) by lia.
      by eapply IH.
Qed.

End LoopLog.

(** ** A batch with a number that is not in the table *)

Section MissingItem.
Context {W : Type} `{Gui W} `{Python}.
Variables (fuel : nat) (sess : value) (s sA sB sP sQ sD sE : State W).
Variables (h : handle) (n : Z) (stem country cocd : string).
Variables (pre post : list Z) (num : Z).

(** The numbers of the batch, [num] among them, and how many they
    are. *)
Local Abbreviation nums := (pre ++ num :: post)%list.
Local Abbreviation total := (length (pre ++ num :: post)%list).
Local Abbreviation nth := (Z.of_nat (length pre) + 1).

(** The directory holds one batch, with these numbers. *)
Hypothesis Hdir : stems (data_dir s) = [(stem, batch_doc country cocd nums)].

(** SO01 starts and hands out its item table. *)
Hypothesis Hstart :
  So01.start sess (finalization_entry stem s) = (Ok tt, sA).
Hypothesis Htable :
  So01.get_item_table (after (log INFO "SO01 running.") sA) = (Ok (VObj h), sB).

(** The table has [n] rows, none of its titles contains [num], and a
    row can be selected; the scan has fuel for all rows. *)
Hypothesis Hcount :
  ∀ w, ∃ w', dispatch h (Get "RowCount") w = (inr (VInt n), w').
Hypothesis Htitle :
  ∀ w r, 0 ≤ r < n → ∃ t w',
    dispatch h (Call "GetCellValue" [VInt r; VStr "OBJDES"]) w
    = (inr (VStr t), w')
    ∧ PyStr.contains (PyStr.str_int num) t = false.
Hypothesis Hselect :
  ∀ w r, 0 ≤ r < n → ∃ x w',
    dispatch h (Put "SelectedRows" (VStr (PyStr.str_int r))) w = (inr x, w').
Hypothesis Hcell :
  ∀ w r, 0 ≤ r < n → ∃ x w',
    dispatch h (Call "SetCurrentCell" [VInt r; VStr "OBJDES"]) w
    = (inr x, w').
Hypothesis Hfuel : (Z.to_nat n < fuel)%nat.

(** The turns of the numbers before [num] end normally, and so do
    the turns of the numbers after it, taken in the state in which the
    loop goes on. *)
Hypothesis Hpre :
  Controller.finalize_items fuel (VObj h) total 1 (JInt <$> pre) sB
  = (Ok None, sP).
Hypothesis Hpost :
  Controller.finalize_items fuel (VObj h) total (nth + 1) (JInt <$> post)
    (missed fuel h total nth num sP)
  = (Ok None, sQ).

(** SO01 closes and the service logs out. *)
Hypothesis Hclose :
  So01.close (after (log INFO "Closing SO01 ...") sQ) = (Ok tt, sD).
Hypothesis Hlogout :
  Sap.logout sess (finalization_exit stem sD) = (Ok tt, sE).

Lemma missing_turn :
  Controller.finalize_item fuel (VObj h) total nth (JInt num) sP
  = (Ok tt, missed fuel h total nth num sP)
  ∧ fst (So01.process_workflow fuel (VObj h) (PyStr.str_int num)
           (after (log INFO (item_banner nth total (PyStr.str_int num))) sP))
    = Ok false.
Proof.
  destruct (process_workflow_missing h n (PyStr.str_int num)
              Hcount Htitle Hselect Hcell fuel
              (after (log INFO (item_banner nth total (PyStr.str_int num))) sP)
              Hfuel) as [sM HsM].
  split; [|by rewrite HsM].
  unfold Controller.finalize_item, missed.
  rewrite (bind_run _ _ _ _ _ (log_run _ _ _)). cbv zeta.
  change (str_json (JInt num)) with (PyStr.str_int num).
  rewrite (bind_run _ _ _ _ _ HsM). cbv iota.
  unfold after at 2. rewrite HsM. apply log_run.
Qed.

Lemma loop_run :
  Controller.finalize_items fuel (VObj h) total 1 (JInt <$> nums) sB
  = (Ok None, sQ).
Proof.
  rewrite fmap_app, fmap_cons.
  rewrite (finalize_items_app _ _ _ _ _ _ _ _ Hpre).
  rewrite length_fmap. rewrite finalize_items_cons.
  replace (1 + Z.of_nat (length pre)) with nth by lia.
  destruct missing_turn as [Hturn _].
  rewrite (bind_run _ _ _ _ _ Hturn). exact Hpost.
Qed.

Lemma finalize_workflow_run :
  Controller.finalize_workflow fuel sess (JList (JInt <$> nums))
    (after (log INFO ("=== Processing data batch '" +:+ stem +:+ "' ==="))
       (after (log INFO "=== Processing ===")
          (after (log INFO ("=== Initialization OK ===" +:+ PyStr.nl)) s)))
  = (Ok tt, after (log INFO "SO01 closed.") sD).
Proof.
  unfold Controller.finalize_workflow.
  rewrite (bind_run _ _ _ _ _ (log_run _ _ _)).
  rewrite (bind_run _ _ _ _ _ Hstart).
  rewrite (bind_run _ _ _ _ _ (log_run _ _ _)).
  rewrite (bind_run _ _ _ _ _ Htable).
  rewrite (bind_run _ _ _ (JInt <$> nums) sB) by reflexivity.
  rewrite length_fmap.
  rewrite (bind_run _ _ _ _ _ loop_run).
  rewrite (bind_run _ _ _ _ _ (log_run _ _ _)).
  rewrite (bind_run _ _ _ _ _ Hclose).
  apply log_run.
Qed.

Lemma main_run :
  Svc.main fuel sess s
  = (Ok 0, after (log INFO ("=== Cleanup OK ===" +:+ PyStr.nl))
             (after (log INFO "Connection to SAP closed.") sE)).
Proof.
  unfold Svc.main.
  rewrite (bind_run _ _ _ _ _ (log_run _ _ _)).
  erewrite bind_run; cycle 1.
  { eapply try_finally_Ok.
    - apply try_except_Ok.
      rewrite (bind_run _ _ _ _ _ (log_run _ _ _)).
      rewrite (bind_run _ _ _ _ _ (load_data_batches_spec _)).
      change (data_dir (after _ (after _ s))) with (data_dir s).
      rewrite Hdir. rewrite bool_decide_eq_false_2 by done.
      erewrite bind_run; cycle 1.
      { apply for_each_one. unfold Svc.process_batch.
        rewrite (bind_run _ _ _ _ _ (log_run _ _ _)).
        rewrite (bind_run _ _ _ (JList (JInt <$> nums)) _) by reflexivity.
        rewrite (bind_run _ _ _ _ _ finalize_workflow_run).
        rewrite (bind_run _ _ _ _ _ (remove_data_batch_run _ _)).
        rewrite (bind_run _ _ _ _ _ (log_run _ _ _)).
        reflexivity. }
      rewrite (bind_run _ _ _ _ _ (log_run _ _ _)).
      rewrite (bind_run _ _ _ _ _ (log_run _ _ _)).
      reflexivity.
    - rewrite (bind_run _ _ _ _ _ (log_run _ _ _)).
      erewrite bind_run; cycle 1.
      { unfold Svc.disconnect_from_sap.
        rewrite (bind_run _ _ _ _ _ (log_run _ _ _)).
        rewrite (bind_run _ _ _ _ _ Hlogout).
        apply log_run. }
      apply log_run. }
  reflexivity.
Qed.

(** What the log holds when the loop is over is there at the end. *)
Lemma log_kept :
  journal_grows sQ
    (after (log INFO ("=== Cleanup OK ===" +:+ PyStr.nl))
       (after (log INFO "Connection to SAP closed.") sE)).
Proof.
  pose proof (respects_so01_close journal_grows
                (after (log INFO "Closing SO01 ...") sQ)) as Kclose.
  rewrite Hclose in Kclose.
  pose proof (respects_logout journal_grows sess
                (finalization_exit stem sD)) as Klogout.
  rewrite Hlogout in Klogout. simpl in Kclose, Klogout.
  repeat (eapply frame_trans; [|apply (respects_log journal_grows)]).
  eapply frame_trans; [|exact Klogout].
  unfold finalization_exit.
  repeat (eapply frame_trans; [|apply (respects_log journal_grows)]).
  eapply frame_trans; [|apply remove_data_batch_journal].
  eapply frame_trans; [|apply (respects_log journal_grows)].
  eapply frame_trans; [|exact Kclose].
  apply (respects_log journal_grows).
Qed.

Lemma log_kept_from_miss :
  journal_grows (missed fuel h total nth num sP) sQ.
Proof.
  pose proof (respects_finalize_items fuel (VObj h) total journal_grows
                (nth + 1) (JInt <$> post) (missed fuel h total nth num sP))
    as K.
  by rewrite Hpost in K.
Qed.

Lemma log_kept_to_miss :
  journal_grows sP (missed fuel h total nth num sP).
Proof.
  destruct missing_turn as [Hturn _].
  pose proof (respects_finalize_item fuel (VObj h) total journal_grows
                nth (JInt num) sP) as K.
  by rewrite Hturn in K.
Qed.

(** C9, amended. The finalization of a batch record one of whose
    numbers, [num], is in no title of the workflow table, wherever it
    stands among the numbers of the record: for [num],
    [process_workflow] returns false, and the service writes the log
    record "Workflow item not found using key: ..." at level ERROR (not
    a warning); it goes on with the numbers after [num], so that every
    number of the record has had its turn and its line "Processing
    workflow item (i of n) ..." in the log; then it closes the session,
    deletes the batch file and ends with exit code 0.  (The turns of the
    other numbers and the session calls are those of a run in which
    they end normally.) *)
Theorem missing_item_is_logged_and_batch_removed :
  fst (So01.process_workflow fuel (VObj h) (PyStr.str_int num)
         (after (log INFO (item_banner nth total (PyStr.str_int num))) sP))
  = Ok false
  ∧ ∃ s',
      Svc.main fuel sess s = (Ok 0, s')
      ∧ data_dir s' !! (stem +:+ ".json") = None
      ∧ (ERROR, not_found (PyStr.str_int num)) ∈ journal s'
      ∧ (∀ i k, nums !! i = Some k →
           (INFO, item_banner (Z.of_nat i + 1) total (PyStr.str_int k))
           ∈ journal s').
Proof.
  destruct missing_turn as [Hturn Hfalse].
  split; [exact Hfalse|].
  eexists. split; [exact main_run|]. split; [|split].
  - change (data_dir (after _ (after _ sE))) with (data_dir sE).
    pose proof (respects_logout keeps sess (finalization_exit stem sD)) as K.
    rewrite Hlogout in K. destruct K as (Hd & _).
    change (data_dir sE
            = data_dir (after (Controller.remove_data_batch stem)
                          (after (log INFO "SO01 closed.") sD))) in Hd.
    rewrite Hd. apply remove_data_batch_gone.
  - eapply elem_of_prefix; [|exact log_kept].
    eapply elem_of_prefix; [|exact log_kept_from_miss].
    unfold missed. change (journal (after (log ?l ?m) ?x))
      with (journal x ++ [(l, m)])%list.
    apply elem_of_app. right. apply list_elem_of_singleton. reflexivity.
  - intros i k Hi.
    eapply elem_of_prefix; [|exact log_kept].
    apply lookup_app_Some in Hi as [Hi|[Hge Hi]].
    + eapply elem_of_prefix; [|exact log_kept_from_miss].
      eapply elem_of_prefix; [|exact log_kept_to_miss].
      replace (Z.of_nat i + 1) with (1 + Z.of_nat i) by lia.
      apply (finalize_items_banners fuel (VObj h) total 1 (JInt <$> pre)
               sB None sP Hpre i (JInt k)).
      by rewrite list_lookup_fmap, Hi.
    + destruct (i - length pre)%nat as [|j] eqn:Hj; simpl in Hi.
      * injection Hi as <-.
        eapply elem_of_prefix; [|exact log_kept_from_miss].
        replace (Z.of_nat i + 1) with nth by lia.
        exact (finalize_item_banner fuel (VObj h) total nth (JInt num)
                 sP _ Hturn).
      * replace (Z.of_nat i + 1) with (nth + 1 + Z.of_nat j) by lia.
        apply (finalize_items_banners fuel (VObj h) total (nth + 1)
                 (JInt <$> post) _ None sQ Hpost j (JInt k)).
        by rewrite list_lookup_fmap, Hi.
Qed.

End MissingItem.

Lemma missing_item_is_logged_and_batch_removed_witness :
  ∃ s',
    Svc.main (H:=Still.gui Case.inbox_123_456) 9 Scripted.ses Case.fin_boot
    = (Ok 0, s')
    ∧ data_dir s' !! (batch_name 1 +:+ ".json") = None
    ∧ (ERROR, not_found (PyStr.str_int 777)) ∈ journal s'
    ∧ (INFO, item_banner 1 3 (PyStr.str_int 123)) ∈ journal s'
    ∧ (INFO, item_banner 2 3 (PyStr.str_int 777)) ∈ journal s'
    ∧ (INFO, item_banner 3 3 (PyStr.str_int 456)) ∈ journal s'.
Proof.
  assert (Hdir : stems (data_dir Case.fin_boot)
                 = [(batch_name 1,
                     batch_doc "Norway" "1234" ([123] ++ 777 :: [456]))])
    by (vm_compute; reflexivity).
  assert (Hstart : So01.start (H:=Still.gui Case.inbox_123_456) Scripted.ses
                     (finalization_entry (batch_name 1) Case.fin_boot)
                   = (Ok tt, Case.fin_started))
    by (vm_compute; reflexivity).
  assert (Htable : So01.get_item_table (H:=Still.gui Case.inbox_123_456)
                     (after (log INFO "SO01 running.") Case.fin_started)
                   = (Ok (VObj Case.item_table), Case.fin_tabled))
    by (vm_compute; reflexivity).
  assert (Hcount : ∀ w, ∃ w',
            dispatch (Gui:=Still.gui Case.inbox_123_456) Case.item_table
              (Get "RowCount") w = (inr (VInt 2), w'))
    by (intros w; exists w; reflexivity).
  assert (Htitle : ∀ w r, 0 ≤ r < 2 → ∃ t w',
            dispatch (Gui:=Still.gui Case.inbox_123_456) Case.item_table
              (Call "GetCellValue" [VInt r; VStr "OBJDES"]) w
            = (inr (VStr t), w')
            ∧ PyStr.contains (PyStr.str_int 777) t = false).
  { intros w r Hr. assert (r = 0 ∨ r = 1) as [-> | ->] by lia.
    - exists "Credit memo request 123 awaits approval", w.
      split; vm_compute; reflexivity.
    - exists "Credit memo request 456 awaits approval", w.
      split; vm_compute; reflexivity. }
  assert (Hselect : ∀ w r, 0 ≤ r < 2 → ∃ x w',
            dispatch (Gui:=Still.gui Case.inbox_123_456) Case.item_table
              (Put "SelectedRows" (VStr (PyStr.str_int r))) w = (inr x, w'))
    by (intros w r _; exists VNone, w; reflexivity).
  assert (Hcell : ∀ w r, 0 ≤ r < 2 → ∃ x w',
            dispatch (Gui:=Still.gui Case.inbox_123_456) Case.item_table
              (Call "SetCurrentCell" [VInt r; VStr "OBJDES"]) w
            = (inr x, w'))
    by (intros w r _; exists VNone, w; reflexivity).
  assert (Hfuel : (Z.to_nat 2 < 9)%nat) by (vm_compute; lia).
  assert (Hpre : Controller.finalize_items (H:=Still.gui Case.inbox_123_456)
                   9 (VObj Case.item_table)
                   (length ([123] ++ 777 :: [456])) 1 (JInt <$> [123])
                   Case.fin_tabled
                 = (Ok None, Case.fin_before))
    by (vm_compute; reflexivity).
  assert (Hpost : Controller.finalize_items (H:=Still.gui Case.inbox_123_456)
                    9 (VObj Case.item_table)
                    (length ([123] ++ 777 :: [456]))
                    (Z.of_nat (length [123]) + 1 + 1) (JInt <$> [456])
                    (missed (H:=Still.gui Case.inbox_123_456) 9
                       Case.item_table (length ([123] ++ 777 :: [456]))
                       (Z.of_nat (length [123]) + 1) 777 Case.fin_before)
                  = (Ok None, Case.fin_behind))
    by (vm_compute; reflexivity).
  assert (Hclose : So01.close (H:=Still.gui Case.inbox_123_456)
                     (after (log INFO "Closing SO01 ...") Case.fin_behind)
                   = (Ok tt, Case.fin_closed))
    by (vm_compute; reflexivity).
  assert (Hlogout : Sap.logout (H:=Still.gui Case.inbox_123_456) Scripted.ses
                      (finalization_exit (batch_name 1) Case.fin_closed)
                    = (Ok tt, Case.fin_out))
    by (vm_compute; reflexivity).
  destruct (missing_item_is_logged_and_batch_removed
              (H:=Still.gui Case.inbox_123_456)
              9 Scripted.ses Case.fin_boot Case.fin_started Case.fin_tabled
              Case.fin_before Case.fin_behind Case.fin_closed Case.fin_out
              Case.item_table 2 (batch_name 1) "Norway" "1234"
              [123] [456] 777
              Hdir Hstart Htable Hcount Htitle Hselect Hcell Hfuel Hpre Hpost
              Hclose Hlogout)
    as (_ & s' & Hmain & Hgone & Herr & Hall).
  exists s'. split; [exact Hmain|]. split; [exact Hgone|].
  split; [exact Herr|].
  split; [exact (Hall 0%nat 123 eq_refl)|].
  split; [exact (Hall 1%nat 777 eq_refl)|exact (Hall 2%nat 456 eq_refl)].
Defined.

(** C9, as stated, fails in one point: for the number that is not found
    the service logs no warning.  The run below ends with exit code 0
    and an empty data directory; its log holds nothing at level WARNING,
    and at level ERROR the "not found" record (and the record that the
    file was removed, which the code also writes at that level). *)
Lemma missing_item_logs_no_warning :
  fst (Svc.main 5 Scripted.ses Scenario.fin_start) = Ok 0
  ∧ data_dir (snd (Svc.main 5 Scripted.ses Scenario.fin_start)) = ∅
  ∧ logged_at WARNING
      (journal (snd (Svc.main 5 Scripted.ses Scenario.fin_start))) = []
  ∧ logged_at ERROR
      (journal (snd (Svc.main 5 Scripted.ses Scenario.fin_start)))
    = ["Workflow item not found using key: '777'!";
       "Data batch file removed."].
Proof. repeat split; vm_compute; reflexivity. Qed.

(** * Further properties *)

(** ** Batch files and dumps *)

Section BatchUpdates.
Context {W : Type}.
Implicit Types (s : State W).

Lemma batch_name_json n :
  batch_name n +:+ ".json" = Controller._compile_batch_path n.
Proof. unfold batch_name, Controller._compile_batch_path. apply string_app_assoc. Qed.

Lemma field_dict_store_eq key v kv :
  is_Some (field (JDict kv) key) →
  field (JDict (Controller.dict_store key v kv)) key = Some v.
Proof.
  simpl. induction kv as [|[k old] kv IH]; simpl; [by intros [? [=]]|].
  destruct (String.eqb k key) eqn:E; simpl; rewrite ?E; [done|].
  apply IH.
Qed.

Lemma field_dict_store_ne key v kv k :
  k ≠ key →
  field (JDict (Controller.dict_store key v kv)) k = field (JDict kv) k.
Proof.
  intros Hne. simpl. induction kv as [|[k' old] kv IH]; simpl; [done|].
  destruct (String.eqb_spec k' key) as [->|Hk']; simpl.
  - destruct (String.eqb_spec key k) as [->|_]; [done|]. done.
  - destruct (String.eqb k' k); [done|]. apply IH.
Qed.

(** X1. [_update_batch_data] on a batch file that holds a dict with a list
    under "credit_memos": the number goes to the end of that list, the
    other keys of the dict keep their values, and no other file of the
    directory changes; in particular no other batch. *)
Theorem update_batch_data_changes_one_list n memo kv l s :
  data_dir s !! Controller._compile_batch_path n = Some (JDict kv) →
  field (JDict kv) "credit_memos" = Some (JList l) →
  ∃ s' content,
    Controller._update_batch_data n memo s = (Ok tt, s')
    ∧ data_dir s' !! Controller._compile_batch_path n = Some content
    ∧ field content "credit_memos" = Some (JList (l ++ [JInt memo]))
    ∧ (∀ k, k ≠ "credit_memos" → field content k = field (JDict kv) k)
    ∧ (∀ f, f ≠ Controller._compile_batch_path n →
            data_dir s' !! f = data_dir s !! f)
    ∧ (∀ m, 0 < n → 0 < m → m ≠ n →
            data_dir s' !! Controller._compile_batch_path m
            = data_dir s !! Controller._compile_batch_path m).
Proof.
  intros Hfile Hmemos.
  assert (Hrun : Controller._update_batch_data n memo s
                 = (Ok tt, with_data_dir
                      (<[Controller._compile_batch_path n :=
                           JDict (Controller.dict_store "credit_memos"
                                    (JList (l ++ [JInt memo])) kv)]>
                         (data_dir s)) s)).
  { unfold Controller._update_batch_data, mbind, M_bind, gets, modify.
    rewrite Hfile. unfold Controller.subscript. simpl in Hmemos.
    destruct (List.find _ kv) as [[k v]|]; simplify_eq/=. done. }
  eexists _, _. split; [exact Hrun|]. simpl.
  split; [apply lookup_insert_eq|].
  split; [apply field_dict_store_eq; by rewrite Hmemos|].
  split; [intros k Hk; by apply field_dict_store_ne|].
  split.
  - intros f Hf. by rewrite lookup_insert_ne.
  - intros m Hn Hm Hne. rewrite lookup_insert_ne; [done|].
    intros E. apply compile_batch_path_inj in E; [congruence|done..].
Qed.

End BatchUpdates.

Section BatchLifecycle.
Context {W : Type}.
Implicit Types (s : State W).

(** X2. [_update_batch_data] on a batch whose file is missing raises
    [FileNotFoundError]; on a file whose dict has no "credit_memos" it
    raises [KeyError].  In both cases nothing is written. *)
Theorem update_batch_data_needs_its_file n memo s :
  (data_dir s !! Controller._compile_batch_path n = None →
   ∃ e, Controller._update_batch_data n memo s = (Raise e, s)
        ∧ exn_class_of e = FileNotFoundError)
  ∧ (∀ kv, data_dir s !! Controller._compile_batch_path n = Some (JDict kv) →
           field (JDict kv) "credit_memos" = None →
           Controller._update_batch_data n memo s
           = (Raise (Exn KeyError "'credit_memos'"), s)).
Proof.
  split.
  - intros Hfile. eexists. split.
    + unfold Controller._update_batch_data, mbind, M_bind, gets.
      rewrite Hfile. reflexivity.
    + reflexivity.
  - intros kv Hfile Hkey.
    unfold Controller._update_batch_data, mbind, M_bind, gets.
    rewrite Hfile. unfold Controller.subscript. simpl in Hkey.
    destruct (List.find _ kv) as [[k v]|]; simplify_eq/=. done.
Qed.

(** X3. [remove_data_batch] never raises.  It deletes the file of the named
    batch if it is there and touches no other file; it writes two log
    records, the second one at level ERROR also when the file was
    removed. *)
Theorem remove_data_batch_never_raises name s :
  ∃ s' msg,
    Controller.remove_data_batch name s = (Ok tt, s')
    ∧ data_dir s' = delete (name +:+ ".json") (data_dir s)
    ∧ journal s' = (journal s ++ [(INFO, "Removing data batch file ...");
                                   (ERROR, msg)])%list
    ∧ (is_Some (data_dir s !! (name +:+ ".json")) →
       msg = "Data batch file removed.")
    ∧ dump_dir s' = dump_dir s ∧ output s' = output s ∧ gui s' = gui s.
Proof.
  unfold Controller.remove_data_batch, mbind, M_bind, log, gets, modify.
  simpl. destruct (data_dir s !! (name +:+ ".json")) as [c|] eqn:E; simpl.
  - eexists _, "Data batch file removed.". split; [reflexivity|]. simpl.
    rewrite <- app_assoc. repeat split; try done.
  - eexists _, "No such file or directory". split; [reflexivity|]. simpl.
    rewrite <- app_assoc. rewrite delete_id by done.
    repeat split; try done.
Qed.

(** X4. [load_data_batches] reads and changes nothing.  Its result has one
    entry for every file [<stem>.json] of the directory whose name does
    not start with a dot, under the key [<stem>] and with the document of
    the file, and no other entry; no key comes twice. *)
Theorem load_data_batches_lists_json_files s :
  ∃ batches,
    Controller.load_data_batches s = (Ok batches, s)
    ∧ NoDup batches.*1
    ∧ (∀ stem content,
         (stem, content) ∈ batches
         ↔ data_dir s !! (stem +:+ ".json") = Some content
           ∧ String.prefix "." (stem +:+ ".json") = false)
    ∧ (data_dir s = ∅ → batches = []).
Proof.
  exists (stems (data_dir s)). split; [apply load_data_batches_spec|].
  split; [apply NoDup_stems|]. split.
  - intros stem content. rewrite elem_of_stems.
    unfold Controller.json_stem. rewrite strip_json_app.
    destruct (String.prefix "." (stem +:+ ".json")).
    + split; [by intros [_ [=]]|by intros [_ [=]]].
    + split; intros [Hfile _]; by split.
  - intros ->. unfold stems. by rewrite map_to_list_empty.
Qed.

Lemma remove_data_batch_dir name s :
  data_dir (after (Controller.remove_data_batch name) s)
  = delete (name +:+ ".json") (data_dir s).
Proof.
  unfold after, Controller.remove_data_batch, mbind, M_bind, log, gets, modify.
  simpl. destruct (data_dir s !! (name +:+ ".json")) eqn:E; simpl; [done|].
  by rewrite delete_id.
Qed.

(** X5. A batch file that is created and then removed under its name leaves
    the directory as it was. *)
Theorem create_then_remove_restores country cocd s :
  ∃ nth s1 s2,
    Controller._create_batch_file country cocd s = (Ok nth, s1)
    ∧ Controller.remove_data_batch (batch_name nth) s1 = (Ok tt, s2)
    ∧ data_dir s2 = data_dir s.
Proof.
  destruct (create_batch_file_spec country cocd s)
    as (nth & Hcreate & _ & Hfree & _).
  exists nth. eexists _, _. split; [exact Hcreate|].
  split; [apply remove_data_batch_run|].
  rewrite remove_data_batch_dir. simpl. rewrite batch_name_json.
  by apply delete_insert_id.
Qed.

(** X6. Two batch files created one after the other, with nothing removed in
    between, get different ids, the second one larger; after the second
    creation both files are there, each with its own country and company
    code and an empty list of numbers. *)
Theorem create_twice_gives_increasing_ids country cocd country' cocd' s :
  ∃ a b s1 s2,
    Controller._create_batch_file country cocd s = (Ok a, s1)
    ∧ Controller._create_batch_file country' cocd' s1 = (Ok b, s2)
    ∧ a < b
    ∧ data_dir s2 !! Controller._compile_batch_path a
      = Some (batch_doc country cocd [])
    ∧ data_dir s2 !! Controller._compile_batch_path b
      = Some (batch_doc country' cocd' []).
Proof.
  destruct (create_batch_file_spec country cocd s)
    as (a & Ha & Hposa & Hfreea & Huseda).
  destruct (create_batch_file_spec country' cocd'
              (with_data_dir (<[Controller._compile_batch_path a :=
                 batch_doc country cocd []]> (data_dir s)) s))
    as (b & Hb & Hposb & Hfreeb & Husedb).
  simpl in Hfreeb, Husedb.
  assert (Hne : a ≠ b).
  { intros ->. by rewrite lookup_insert_eq in Hfreeb. }
  assert (Hlt : a < b).
  { destruct (decide (a < b)) as [|Hge]; [done|]. exfalso.
    destruct (Huseda b) as [x Hx]; [lia|].
    rewrite lookup_insert_ne in Hfreeb; [congruence|].
    intros E. apply compile_batch_path_inj in E; [done|lia..]. }
  eexists a, b, _, _. split; [exact Ha|]. split; [exact Hb|].
  split; [done|]. simpl. split.
  - rewrite lookup_insert_ne; [apply lookup_insert_eq|].
    intros E. apply compile_batch_path_inj in E; [congruence|lia..].
  - apply lookup_insert_eq.
Qed.




End BatchLifecycle.

Lemma update_batch_data_changes_one_list_witness :
  ∃ s' content,
    Controller._update_batch_data 1 999 (Still.boot Case.batch_123_777_456)
    = (Ok tt, s')
    ∧ data_dir s' !! Controller._compile_batch_path 1 = Some content
    ∧ field content "credit_memos"
      = Some (JList ((JInt <$> [123; 777; 456]) ++ [JInt 999])).
Proof.
  assert (Hfile : data_dir (Still.boot Case.batch_123_777_456)
                    !! Controller._compile_batch_path 1
                  = Some (JDict [("country", JStr "Norway");
                                 ("company_code", JStr "1234");
                                 ("credit_memos",
                                  JList (JInt <$> [123; 777; 456]))]))
    by (vm_compute; reflexivity).
  destruct (update_batch_data_changes_one_list 1 999
              [("country", JStr "Norway"); ("company_code", JStr "1234");
               ("credit_memos", JList (JInt <$> [123; 777; 456]))]
              (JInt <$> [123; 777; 456])
              (Still.boot Case.batch_123_777_456) Hfile eq_refl)
    as (s' & content & Hrun & Hthere & Hmemos & _).
  exists s', content. split; [exact Hrun|]. split; [exact Hthere|exact Hmemos].
Defined.

(** ** The life of a session *)

Section Runs2.
Context {S : Type}.

Lemma bind_Raise {A B} (m : M S A) (f : A → M S B) s e s' :
  (m ≫= f) s = (Raise e, s') →
  m s = (Raise e, s') ∨ ∃ a s1, m s = (Ok a, s1) ∧ f a s1 = (Raise e, s').
Proof.
  unfold mbind, M_bind.
  destruct (m s) as [[a|e'|] s1]; intros E.
  - right. eauto.
  - injection E as -> ->. by left.
  - discriminate E.
Qed.

End Runs2.

Section Members.
Context {W : Type} `{Gui W}.
Implicit Types (s : State W).

(** A member access changes the GUI and nothing else. *)
Lemma member_run o a s (r : outcome value) s' :
  member o a s = (r, s') → ∃ w, s' = with_gui w s.
Proof.
  destruct o; simpl; try (intros [= <- <-]; exists (gui s); by destruct s).
  destruct (dispatch h a (gui s)) as [[e|v] w]; intros [= <- <-]; by exists w.
Qed.

End Members.

(** Makes the states of a straight-line run explicit. *)
Ltac run_step :=
  match goal with
  | E : member _ _ ?s = (_, ?s') |- _ =>
      let w := fresh "w" in apply member_run in E as [w ->]
  | E : get_attr _ _ _ = _ |- _ => unfold get_attr in E
  | E : call _ _ _ _ = _ |- _ => unfold call in E
  | E : call_ _ _ _ _ = _ |- _ => unfold call_ in E
  | E : set_attr _ _ _ _ = _ |- _ => unfold set_attr in E
  | E : log _ _ _ = _ |- _ =>
      unfold log, modify in E; apply pair_equal_spec in E as [? ?]; simplify_eq
  | E : gets _ _ = _ |- _ =>
      unfold gets in E; apply pair_equal_spec in E as [? ?]; simplify_eq
  | E : modify _ _ = _ |- _ =>
      unfold modify in E; apply pair_equal_spec in E as [? ?]; simplify_eq
  | _ => ok_step
  end.

Section Lifecycle.
Context {W : Type} `{Gui W} `{Python}.
Implicit Types (s : State W).

Lemma vbo2_close_closed s s' :
  Vbo2.close s = (Ok tt, s') → vbo2_sess (vbo2 s') = VNone.
Proof.
  unfold Vbo2.close, Vbo2._sess, Vbo2.set_globals. intros Hrun.
  repeat run_step; simpl in *; [by destruct (vbo2_sess _)|done..].
Qed.

Lemma va02_close_closed s s' :
  Va02.close s = (Ok tt, s') → va02_sess (va02 s') = VNone.
Proof.
  unfold Va02.close, Va02._sess, Va02.set_globals. intros Hrun.
  repeat run_step; simpl in *; [by destruct (va02_sess _)|done..].
Qed.

Lemma so01_close_closed s s' :
  So01.close s = (Ok tt, s') → so01_sess (so01 s') = VNone.
Proof.
  unfold So01.close, So01._sess, So01.set_globals. intros Hrun.
  repeat run_step; simpl in *; [by destruct (so01_sess _)|done..].
Qed.

Lemma get_printing_status_closed fuel num s :
  va02_sess (va02 s) = VNone →
  Va02.get_printing_status fuel num s = (Raise (closed "va02"), s).
Proof.
  intros E. unfold Va02.get_printing_status, Va02._sess, mbind, M_bind, gets.
  by rewrite E.
Qed.

End Lifecycle.

(** Walks back through a run, whatever it ended with. *)
Ltac inv_step :=
  match goal with
  | E : member _ _ ?s = (_, ?s') |- _ =>
      let w := fresh "w" in apply member_run in E as [w ->]
  | E : get_attr _ _ _ = _ |- _ => unfold get_attr in E
  | E : call _ _ _ _ = _ |- _ => unfold call in E
  | E : call_ _ _ _ _ = _ |- _ => unfold call_ in E
  | E : set_attr _ _ _ _ = _ |- _ => unfold set_attr in E
  | E : log _ _ _ = _ |- _ =>
      unfold log, modify in E; apply pair_equal_spec in E as [? ?]; simplify_eq
  | E : gets _ _ = _ |- _ =>
      unfold gets in E; apply pair_equal_spec in E as [? ?]; simplify_eq
  | E : modify _ _ = _ |- _ =>
      unfold modify in E; apply pair_equal_spec in E as [? ?]; simplify_eq
  | E : raise _ _ _ = _ |- _ =>
      unfold raise in E; apply pair_equal_spec in E as [? ?]; simplify_eq
  | E : @mret _ _ _ _ _ = (Raise _, _) |- _ => discriminate E
  | H : @mbind _ _ _ _ _ _ _ = (Raise _, _) |- _ =>
      let a := fresh "a" in let s := fresh "s" in let E := fresh "E" in
      apply bind_Raise in H as [H|(a & s & E & H)]
  | H : (if ?b then _ else _) _ = (Raise _, _) |- _ =>
      let E := fresh "E" in destruct b eqn:E
  | _ => ok_step
  end.

(** Settles the tests [v is None] of a run. *)
Ltac none_cases :=
  repeat match goal with
         | E : negb (is_none ?v) = _ |- _ =>
             destruct v eqn:?; simpl in E; try discriminate E; clear E
         | E : is_none ?v = _ |- _ =>
             destruct v eqn:?; simpl in E; try discriminate E; clear E
         end.

Section Lifecycle2.
Context {W : Type} `{Gui W} `{Python}.
Implicit Types (s : State W).

Lemma vbo2_start_bound sess s s' :
  Vbo2.start sess s = (Ok tt, s') →
  vbo2_sess (vbo2 s') ≠ VNone
  ∧ (vbo2_sess (vbo2 s) = VNone → vbo2_sess (vbo2 s') = sess).
Proof.
  unfold Vbo2.start, Vbo2._sess, Vbo2.set_globals. intros Hrun.
  repeat inv_step; simpl in *; none_cases; split; congruence.
Qed.

Lemma va02_start_bound sess s s' :
  Va02.start sess s = (Ok tt, s') →
  va02_sess (va02 s') ≠ VNone
  ∧ (va02_sess (va02 s) = VNone → va02_sess (va02 s') = sess).
Proof.
  unfold Va02.start, Va02._sess, Va02.set_globals, Va02._clear_input_field,
    Va02._set_order_number, Va02._main_wnd.
  intros Hrun. repeat inv_step; simpl in *; none_cases; split; congruence.
Qed.

Lemma so01_start_bound sess s s' :
  So01.start sess s = (Ok tt, s') →
  so01_sess (so01 s') ≠ VNone
  ∧ (so01_sess (so01 s) = VNone → so01_sess (so01 s') = sess).
Proof.
  unfold So01.start, So01._sess, So01.set_globals. intros Hrun.
  repeat inv_step; simpl in *; none_cases; split; congruence.
Qed.




End Lifecycle2.

Section Lifecycle3.
Context {W : Type} `{Gui W} `{Python}.
Implicit Types (s : State W).

(** X8. After [close] has returned the session is closed: the operations
    that have the guard raise [TransactionClosedError] and change nothing,
    and a second [close] does nothing (the one of vbo2 writes its log
    line). *)
Theorem session_is_closed_after_close fuel num thresh ai ao pi ap att s s' :
  (Vbo2.close s = (Ok tt, s') →
   Vbo2.settle_agreement fuel num thresh ai ao s' = (Raise (closed "vbo2"), s')
   ∧ Vbo2.close s' = (Ok tt, after (log INFO "Closing VBO2 ...") s'))
  ∧ (Va02.close s = (Ok tt, s') →
     Va02.change_sales_order fuel num pi ap att s'
     = (Raise (closed "va02"), s')
     ∧ Va02.get_printing_status fuel num s' = (Raise (closed "va02"), s')
     ∧ Va02.close s' = (Ok tt, s'))
  ∧ (So01.close s = (Ok tt, s') →
     So01.get_item_table s' = (Raise (closed "so01"), s')
     ∧ So01.close s' = (Ok tt, s')).
Proof.
  split; [|split].
  - intros Hclosed%vbo2_close_closed.
    split; [by apply settle_agreement_closed|].
    unfold Vbo2.close, Vbo2._sess, mbind, M_bind, log, modify, gets, after.
    simpl. by rewrite Hclosed.
  - intros Hclosed%va02_close_closed.
    split; [by apply change_sales_order_closed|].
    split; [by apply get_printing_status_closed|].
    unfold Va02.close, Va02._sess, mbind, M_bind, gets. by rewrite Hclosed.
  - intros Hclosed%so01_close_closed.
    split; [by apply get_item_table_closed|].
    unfold So01.close, So01._sess, mbind, M_bind, gets. by rewrite Hclosed.
Qed.

(** X9. After [start] has returned the session is open, and bound to the
    handle given if it was closed before. *)
Theorem session_is_open_after_start sess s s' :
  (Vbo2.start sess s = (Ok tt, s') →
   vbo2_sess (vbo2 s') ≠ VNone
   ∧ (vbo2_sess (vbo2 s) = VNone → vbo2_sess (vbo2 s') = sess))
  ∧ (Va02.start sess s = (Ok tt, s') →
     va02_sess (va02 s') ≠ VNone
     ∧ (va02_sess (va02 s) = VNone → va02_sess (va02 s') = sess))
  ∧ (So01.start sess s = (Ok tt, s') →
     so01_sess (so01 s') ≠ VNone
     ∧ (so01_sess (so01 s) = VNone → so01_sess (so01 s') = sess)).
Proof.
  split; [|split].
  - apply vbo2_start_bound.
  - apply va02_start_bound.
  - apply so01_start_bound.
Qed.


End Lifecycle3.

Lemma session_is_closed_after_close_witness :
  Vbo2.settle_agreement (H:=Still.gui Case.quiet) 5 5001 (Q2Qc 40) true false
    Case.vbo2_closed
  = (Raise (closed "vbo2"), Case.vbo2_closed)
  ∧ Va02.change_sales_order (H:=Still.gui Case.quiet) 5 123456789
      (Some false) None None Case.va02_closed
    = (Raise (closed "va02"), Case.va02_closed)
  ∧ So01.get_item_table (H:=Still.gui Case.quiet) Case.so01_closed
    = (Raise (closed "so01"), Case.so01_closed).
Proof.
  assert (Hvbo2 : Vbo2.close (H:=Still.gui Case.quiet) Case.vbo2_started
                  = (Ok tt, Case.vbo2_closed)) by (vm_compute; reflexivity).
  assert (Hva02 : Va02.close (H:=Still.gui Case.quiet) Case.va02_started
                  = (Ok tt, Case.va02_closed)) by (vm_compute; reflexivity).
  assert (Hso01 : So01.close (H:=Still.gui Case.quiet) Case.so01_started
                  = (Ok tt, Case.so01_closed)) by (vm_compute; reflexivity).
  split; [|split].
  - destruct (session_is_closed_after_close (H:=Still.gui Case.quiet)
                5 5001 (Q2Qc 40) true false None None None
                Case.vbo2_started Case.vbo2_closed) as (K & _).
    destruct (K Hvbo2) as [Ka _]. exact Ka.
  - destruct (session_is_closed_after_close (H:=Still.gui Case.quiet)
                5 123456789 (Q2Qc 40) true false (Some false) None None
                Case.va02_started Case.va02_closed) as (_ & K & _).
    destruct (K Hva02) as [Ka _]. exact Ka.
  - destruct (session_is_closed_after_close (H:=Still.gui Case.quiet)
                5 5001 (Q2Qc 40) true false None None None
                Case.so01_started Case.so01_closed) as (_ & _ & K).
    destruct (K Hso01) as [Ka _]. exact Ka.
Defined.

Lemma session_is_open_after_start_witness :
  vbo2_sess (vbo2 Case.vbo2_started) = Scripted.ses
  ∧ va02_sess (va02 Case.va02_started) = Scripted.ses
  ∧ so01_sess (so01 Case.so01_started) = Scripted.ses.
Proof.
  assert (Hvbo2 : Vbo2.start (H:=Still.gui Case.quiet) Scripted.ses
                    (Still.boot ∅) = (Ok tt, Case.vbo2_started))
    by (vm_compute; reflexivity).
  assert (Hva02 : Va02.start (H:=Still.gui Case.quiet) Scripted.ses
                    (Still.boot ∅) = (Ok tt, Case.va02_started))
    by (vm_compute; reflexivity).
  assert (Hso01 : So01.start (H:=Still.gui Case.quiet) Scripted.ses
                    (Still.boot ∅) = (Ok tt, Case.so01_started))
    by (vm_compute; reflexivity).
  split; [|split].
  - destruct (session_is_open_after_start (H:=Still.gui Case.quiet)
                Scripted.ses (Still.boot ∅) Case.vbo2_started) as (K & _).
    destruct (K Hvbo2) as [_ Kb]. exact (Kb eq_refl).
  - destruct (session_is_open_after_start (H:=Still.gui Case.quiet)
                Scripted.ses (Still.boot ∅) Case.va02_started)
      as (_ & K & _).
    destruct (K Hva02) as [_ Kb]. exact (Kb eq_refl).
  - destruct (session_is_open_after_start (H:=Still.gui Case.quiet)
                Scripted.ses (Still.boot ∅) Case.so01_started)
      as (_ & _ & K).
    destruct (K Hso01) as [_ Kb]. exact (Kb eq_refl).
Defined.


(** ** The finalization service *)

Section Service.
Context {W : Type} `{Gui W} `{Python}.
Implicit Types (s : State W).

Global Instance only_removes_frame : Frame (W:=W) only_removes.
Proof.
  split; unfold only_removes; simpl; try (intros; split; [by left|done]).
  intros s1 s2 s3 (H12 & -> & -> & ->) (H23 & -> & -> & ->).
  split; [|done]. intros f.
  destruct (H23 f) as [E23|[E23 Hjson]]; [|by right].
  destruct (H12 f) as [E12|[E12 Hjson]].
  - left. congruence.
  - right. split; [congruence|done].
Qed.

Lemma respects_iterate (R : State W → State W → Prop) `{!Frame R} nums :
  respects R (Controller.iterate (W:=W) nums).
Proof.
  destruct nums; simpl; (by apply respects_ret) || (by apply respects_raise).
Qed.

Lemma respects_subscript (R : State W → State W → Prop) `{!Frame R}
    content key :
  respects R (Controller.subscript (W:=W) content key).
Proof.
  unfold Controller.subscript. destruct content; try (by apply respects_raise).
  destruct (List.find _ kv) as [[k v]|];
    (by apply respects_ret) || (by apply respects_raise).
Qed.

Lemma respects_finalize_workflow (R : State W → State W → Prop) `{!Frame R}
    fuel sess nums :
  respects R (Controller.finalize_workflow fuel sess nums).
Proof.
  unfold Controller.finalize_workflow.
  apply respects_bind; [done|by apply respects_log|intros _].
  apply respects_bind; [done|by apply respects_so01_start|intros _].
  apply respects_bind; [done|by apply respects_log|intros _].
  apply respects_bind; [done|by apply respects_get_item_table|intros items].
  apply respects_bind; [done|by apply respects_iterate|intros l].
  apply respects_bind; [done|by apply respects_finalize_items|intros _].
  apply respects_bind; [done|by apply respects_log|intros _].
  apply respects_bind; [done|by apply respects_so01_close|intros _].
  by apply respects_log.
Qed.

Lemma respects_remove_data_batch name :
  respects only_removes (Controller.remove_data_batch (W:=W) name).
Proof.
  intros s.
  unfold Controller.remove_data_batch, mbind, M_bind, log, gets, modify.
  simpl. destruct (data_dir s !! (name +:+ ".json")) eqn:E; simpl.
  - split; [|done]. intros f.
    destruct (decide (f = name +:+ ".json")) as [->|Hne].
    + right. split; [apply lookup_delete_eq|by exists name].
    + left. by apply lookup_delete_ne.
  - split; [|done]. intros f. by left.
Qed.

Lemma respects_load_data_batches (R : State W → State W → Prop) `{!Frame R} :
  respects R (Controller.load_data_batches (W:=W)).
Proof.
  unfold Controller.load_data_batches.
  apply respects_bind; [done|by apply respects_gets|intros dir].
  by apply respects_ret.
Qed.

Lemma respects_disconnect (R : State W → State W → Prop) `{!Frame R} sess :
  respects R (Svc.disconnect_from_sap sess).
Proof.
  unfold Svc.disconnect_from_sap.
  apply respects_bind; [done|by apply respects_log|intros _].
  apply respects_bind; [done|by apply respects_logout|intros _].
  by apply respects_log.
Qed.

Lemma respects_process_batch fuel sess batch :
  respects only_removes (Svc.process_batch fuel sess batch).
Proof.
  destruct batch as [name data]. unfold Svc.process_batch.
  apply respects_bind; [apply _|apply respects_log, _|intros _].
  apply respects_bind; [apply _|apply respects_subscript, _|intros nums].
  apply respects_bind; [apply _|apply respects_finalize_workflow, _|intros _].
  apply respects_bind; [apply _|apply respects_remove_data_batch|intros _].
  apply respects_bind; [apply _|apply respects_log, _|intros _].
  apply respects_ret, _.
Qed.

Lemma respects_main fuel sess :
  respects only_removes (Svc.main fuel sess).
Proof.
  unfold Svc.main.
  apply respects_bind; [apply _|apply respects_log, _|intros _].
  apply respects_bind; [apply _| |intros code; apply respects_ret, _].
  apply respects_try_finally; [apply _| |].
  - apply respects_try_except; [apply _| |intros exc].
    + apply respects_bind; [apply _|apply respects_log, _|intros _].
      apply respects_bind;
        [apply _|apply respects_load_data_batches, _|intros batches].
      destruct (bool_decide (batches = [])); [apply respects_ret, _|].
      apply respects_bind; [apply _| |intros _].
      { apply respects_for_each; [apply _|].
        intros batch. apply respects_process_batch. }
      apply respects_bind; [apply _|apply respects_log, _|intros _].
      apply respects_bind; [apply _|apply respects_log, _|intros _].
      apply respects_ret, _.
    + apply respects_bind; [apply _|apply respects_log, _|intros _].
      apply respects_bind; [apply _|apply respects_log, _|intros _].
      apply respects_ret, _.
  - apply respects_bind; [apply _|apply respects_log, _|intros _].
    apply respects_bind; [apply _|apply respects_disconnect, _|intros _].
    apply respects_log, _.
Qed.

(** X13. However a run of the finalization service ends, it has
    written no file: every file of the data directory is as it was
    before the run or is a [.json] file that the run deleted, and the
    dumps, the attachments and the output frame are untouched. *)
Theorem main_only_removes_files fuel sess s :
  (∀ f, data_dir (after (Svc.main fuel sess) s) !! f = data_dir s !! f
        ∨ (data_dir (after (Svc.main fuel sess) s) !! f = None
           ∧ ∃ stem, f = stem +:+ ".json"))
  ∧ dump_dir (after (Svc.main fuel sess) s) = dump_dir s
  ∧ files (after (Svc.main fuel sess) s) = files s
  ∧ output (after (Svc.main fuel sess) s) = output s.
Proof. exact (respects_main fuel sess s). Qed.

Lemma only_gui_bind {A B} (m : M (State W) A) (f : A → M (State W) B) :
  only_gui m → (∀ a, only_gui (f a)) → only_gui (m ≫= f).
Proof.
  intros Hm Hf s r s'. unfold mbind, M_bind.
  destruct (m s) as [[a|e|] s1] eqn:E; apply Hm in E as [w ->].
  - intros Hrun. apply Hf in Hrun as [w' ->]. exists w'. by destruct s.
  - intros Hrun. apply pair_equal_spec in Hrun as [_ <-]. by exists w.
  - intros Hrun. apply pair_equal_spec in Hrun as [_ <-]. by exists w.
Qed.

Lemma only_gui_member o a : only_gui (member (W:=W) o a).
Proof. intros s r s'. apply member_run. Qed.

Lemma only_gui_ret {A} (a : A) : only_gui (W:=W) (mret a).
Proof.
  intros s r s' Hrun. apply pair_equal_spec in Hrun as [_ <-].
  exists (gui s). by destruct s.
Qed.

(** [logout] changes the GUI and nothing else. *)
Lemma logout_run sess s (r : outcome unit) s' :
  Sap.logout sess s = (r, s') → ∃ w, s' = with_gui w s.
Proof.
  revert s r s'. change (only_gui (Sap.logout (W:=W) sess)).
  unfold Sap.logout. destruct (is_none sess).
  { intros s r s' Hrun. apply pair_equal_spec in Hrun as [_ <-].
    exists (gui s). by destruct s. }
  unfold get_attr, call_.
  repeat (apply only_gui_bind; [|intros ?]);
    (apply only_gui_member || apply only_gui_ret).
Qed.

(** X11. With no batch file in the data directory the service ends
    with exit code 0 after the cleanup alone: SO01 is not started, no
    file changes, and the log gets the lines of the three phases, the
    line "=== Processing OK ===" not among them. *)
Theorem main_without_batches fuel sess s sE :
  stems (data_dir s) = [] →
  Sap.logout sess (idle_exit s) = (Ok tt, sE) →
  Svc.main fuel sess s
  = (Ok 0, after (log INFO ("=== Cleanup OK ===" +:+ PyStr.nl))
             (after (log INFO "Connection to SAP closed.") sE))
  ∧ so01 sE = so01 s
  ∧ data_dir sE = data_dir s
  ∧ journal sE
    = (journal s ++ [(INFO, "=== Initialization OK ===" +:+ PyStr.nl);
                     (INFO, "=== Processing ===");
                     (INFO, "=== Cleanup ===");
                     (INFO, "Disconnecting from SAP ...")])%list.
Proof.
  intros Hdir Hlogout. split.
  - unfold Svc.main.
    rewrite (bind_run _ _ _ _ _ (log_run _ _ _)).
    erewrite bind_run; cycle 1.
    { eapply try_finally_Ok.
      - apply try_except_Ok.
        rewrite (bind_run _ _ _ _ _ (log_run _ _ _)).
        rewrite (bind_run _ _ _ _ _ (load_data_batches_spec _)).
        change (data_dir (after _ (after _ s))) with (data_dir s).
        rewrite Hdir. rewrite bool_decide_eq_true_2 by done.
        reflexivity.
      - rewrite (bind_run _ _ _ _ _ (log_run _ _ _)).
        erewrite bind_run; cycle 1.
        { unfold Svc.disconnect_from_sap.
          rewrite (bind_run _ _ _ _ _ (log_run _ _ _)).
          rewrite (bind_run _ _ _ _ _ Hlogout).
          apply log_run. }
        apply log_run. }
    reflexivity.
  - apply logout_run in Hlogout as [w ->]. simpl.
    repeat split; try done. by rewrite <- !app_assoc.
Qed.

(** X12. When the finalization of the first batch raises, the service
    goes from there to the cleanup and ends with exit code 3: the
    exception is in the log at level ERROR, no later batch is tried, and
    no batch file is deleted, the one of the failed batch included. *)
Theorem failed_batch_is_kept fuel sess s stem country cocd nums rest e sF sE :
  stems (data_dir s) = (stem, batch_doc country cocd nums) :: rest →
  Controller.finalize_workflow fuel sess (JList (JInt <$> nums))
    (after (log INFO ("=== Processing data batch '" +:+ stem +:+ "' ==="))
       (after (log INFO "=== Processing ===")
          (after (log INFO ("=== Initialization OK ===" +:+ PyStr.nl)) s)))
  = (Raise e, sF) →
  Sap.logout sess (failure_exit e sF) = (Ok tt, sE) →
  Svc.main fuel sess s
  = (Ok 3, after (log INFO ("=== Cleanup OK ===" +:+ PyStr.nl))
             (after (log INFO "Connection to SAP closed.") sE))
  ∧ data_dir sE = data_dir s
  ∧ (ERROR, exn_str e) ∈ journal sE.
Proof.
  intros Hdir Hfail Hlogout. split.
  - unfold Svc.main.
    rewrite (bind_run _ _ _ _ _ (log_run _ _ _)).
    erewrite bind_run; cycle 1.
    { eapply try_finally_Ok.
      - erewrite try_except_Raise; cycle 1.
        { rewrite (bind_run _ _ _ _ _ (log_run _ _ _)).
          rewrite (bind_run _ _ _ _ _ (load_data_batches_spec _)).
          change (data_dir (after _ (after _ s))) with (data_dir s).
          rewrite Hdir. rewrite bool_decide_eq_false_2 by done.
          erewrite bind_raise; [reflexivity|].
          cbn [for_each]. erewrite bind_raise; [reflexivity|].
          unfold Svc.process_batch.
          rewrite (bind_run _ _ _ _ _ (log_run _ _ _)).
          rewrite (bind_run _ _ _ (JList (JInt <$> nums)) _) by reflexivity.
          erewrite bind_raise; [reflexivity|exact Hfail]. }
        rewrite (bind_run _ _ _ _ _ (log_run _ _ _)).
        rewrite (bind_run _ _ _ _ _ (log_run _ _ _)).
        reflexivity.
      - rewrite (bind_run _ _ _ _ _ (log_run _ _ _)).
        erewrite bind_run; cycle 1.
        { unfold Svc.disconnect_from_sap.
          rewrite (bind_run _ _ _ _ _ (log_run _ _ _)).
          rewrite (bind_run _ _ _ _ _ Hlogout).
          apply log_run. }
        apply log_run. }
    reflexivity.
  - pose proof (respects_finalize_workflow keeps fuel sess
                  (JList (JInt <$> nums))
                  (after (log INFO ("=== Processing data batch '" +:+ stem
                                    +:+ "' ==="))
                     (after (log INFO "=== Processing ===")
                        (after (log INFO ("=== Initialization OK ==="
                                          +:+ PyStr.nl)) s)))) as K.
    rewrite Hfail in K. destruct K as (Hd & _). simpl in Hd.
    apply logout_run in Hlogout as [w ->]. simpl.
    split; [done|].
    rewrite !elem_of_app, !list_elem_of_singleton. tauto.
Qed.

End Service.

Lemma main_without_batches_witness :
  Svc.main (H:=Still.gui Case.quiet) 5 Scripted.ses (Still.boot ∅)
  = (Ok 0, after (log INFO ("=== Cleanup OK ===" +:+ PyStr.nl))
             (after (log INFO "Connection to SAP closed.") Case.idle_out)).
Proof.
  assert (Hdir : stems (data_dir (Still.boot ∅)) = [])
    by (vm_compute; reflexivity).
  assert (Hlogout : Sap.logout (H:=Still.gui Case.quiet) Scripted.ses
                      (idle_exit (Still.boot ∅)) = (Ok tt, Case.idle_out))
    by (vm_compute; reflexivity).
  destruct (main_without_batches (H:=Still.gui Case.quiet) 5 Scripted.ses
              (Still.boot ∅) Case.idle_out Hdir Hlogout) as [Hrun _].
  exact Hrun.
Defined.

Lemma failed_batch_is_kept_witness :
  Svc.main (H:=fixed (refusing "StartTransaction")) 5 Scripted.ses
    (Still.boot Case.two_batches)
  = (Ok 3, after (log INFO ("=== Cleanup OK ===" +:+ PyStr.nl))
             (after (log INFO "Connection to SAP closed.") Case.refused_out))
  ∧ data_dir Case.refused_out = Case.two_batches.
Proof.
  assert (Hdir : stems (data_dir (Still.boot Case.two_batches))
                 = [(batch_name 1, batch_doc "Norway" "1234" [123]);
                    (batch_name 2, batch_doc "Norway" "1234" [456])])
    by (vm_compute; reflexivity).
  assert (Hfail : Controller.finalize_workflow
                    (H:=fixed (refusing "StartTransaction")) 5 Scripted.ses
                    (JList (JInt <$> [123]))
                    (after (log INFO ("=== Processing data batch '"
                                      +:+ batch_name 1 +:+ "' ==="))
                       (after (log INFO "=== Processing ===")
                          (after (log INFO ("=== Initialization OK ==="
                                            +:+ PyStr.nl))
                             (Still.boot Case.two_batches))))
                  = (Raise (Exn ComError
                              "The control could not be found by id."),
                     Case.refused_start))
    by (vm_compute; reflexivity).
  assert (Hlogout : Sap.logout (H:=fixed (refusing "StartTransaction"))
                      Scripted.ses
                      (failure_exit
                         (Exn ComError "The control could not be found by id.")
                         Case.refused_start)
                    = (Ok tt, Case.refused_out))
    by (vm_compute; reflexivity).
  destruct (failed_batch_is_kept (H:=fixed (refusing "StartTransaction"))
              5 Scripted.ses (Still.boot Case.two_batches)
              (batch_name 1) "Norway" "1234" [123]
              [(batch_name 2, batch_doc "Norway" "1234" [456])]
              (Exn ComError "The control could not be found by id.")
              Case.refused_start Case.refused_out Hdir Hfail Hlogout)
    as (Hrun & Hkept & _).
  split; [exact Hrun|exact Hkept].
Defined.

(** ** Runs of the orchestrator that fail *)

Section Failures.
Context {W : Type} `{Gui W} `{Python}.
Implicit Types (s : State W).






End Failures.


(** ** Order numbers and approvers *)

(** ** The decimal digits of [str(n)] *)

Section Digits.

Lemma pretty_N_char_digit x : PyStr.is_digit (pretty_N_char x) = true.
Proof. unfold pretty_N_char. by repeat case_match. Qed.

Lemma pretty_N_go_digits x s :
  PyStr.all_chars PyStr.is_digit (pretty_N_go x s)
  = PyStr.all_chars PyStr.is_digit s.
Proof.
  revert s. induction (N.lt_wf_0 x) as [x _ IH]; intros s.
  assert (x = 0 ∨ 0 < x)%N as [->|Hpos] by lia; [done|].
  rewrite pretty_N_go_step by done.
  rewrite IH by (by apply N.div_lt). simpl.
  by rewrite pretty_N_char_digit.
Qed.

Lemma pretty_N_go_grows x s :
  (String.length s ≤ String.length (pretty_N_go x s))%nat.
Proof.
  revert s. induction (N.lt_wf_0 x) as [x _ IH]; intros s.
  assert (x = 0 ∨ 0 < x)%N as [->|Hpos] by lia; [done|].
  rewrite pretty_N_go_step by done.
  etrans; [|apply IH; by apply N.div_lt]. simpl. lia.
Qed.

Lemma pretty_N_go_short (k : nat) x s :
  (x < 10 ^ N.of_nat k)%N →
  (String.length (pretty_N_go x s) ≤ String.length s + k)%nat.
Proof.
  revert x s. induction k as [|k IH]; intros x s Hx.
  - change (10 ^ N.of_nat 0)%N with 1%N in Hx.
    assert (x = 0%N) as -> by lia. rewrite pretty_N_go_0. lia.
  - assert (x = 0 ∨ 0 < x)%N as [->|Hpos] by lia;
      [rewrite pretty_N_go_0; lia|].
    rewrite pretty_N_go_step by done.
    etrans; [apply IH|simpl; lia].
    rewrite Nat2N.inj_succ, N.pow_succ_r' in Hx.
    apply N.Div0.div_lt_upper_bound. lia.
Qed.

Lemma pretty_N_go_long (k : nat) x s :
  (10 ^ N.of_nat k ≤ x)%N →
  (String.length s + k + 1 ≤ String.length (pretty_N_go x s))%nat.
Proof.
  revert x s. induction k as [|k IH]; intros x s Hx.
  - change (10 ^ N.of_nat 0)%N with 1%N in Hx.
    rewrite pretty_N_go_step by lia.
    etrans; [|apply pretty_N_go_grows]. simpl. lia.
  - assert (0 < 10 ^ N.of_nat (S k))%N by (apply N.neq_0_lt_0, N.pow_nonzero; lia).
    rewrite pretty_N_go_step by lia.
    etrans; [|apply IH]; [simpl; lia|].
    rewrite Nat2N.inj_succ, N.pow_succ_r' in Hx.
    apply N.div_le_lower_bound; lia.
Qed.

(** [str(n)] is numeric with nine characters exactly for the numbers
    with nine digits. *)
Lemma nine_digits (n : Z) :
  PyStr.isnumeric (PyStr.str_int n)
  && (String.length (PyStr.str_int n) =? 9)%nat
  = bool_decide (100000000 ≤ n ≤ 999999999).
Proof.
  unfold PyStr.str_int, pretty, pretty_Z. destruct n as [|p|p].
  - by rewrite bool_decide_eq_false_2 by lia.
  - unfold pretty, pretty_positive, pretty, pretty_N.
    rewrite decide_False by done.
    pose proof (pretty_N_go_long 0 (N.pos p) EmptyString) as Hone.
    assert (PyStr.isnumeric (pretty_N_go (N.pos p) EmptyString) = true)
      as ->.
    { unfold PyStr.isnumeric. rewrite pretty_N_go_digits. simpl.
      destruct (pretty_N_go (N.pos p) EmptyString); [|done].
      simpl in Hone. lia. }
    simpl.
    assert (E8 : (10 ^ N.of_nat 8 = 100000000)%N) by (vm_compute; reflexivity).
    assert (E9 : (10 ^ N.of_nat 9 = 1000000000)%N) by (vm_compute; reflexivity).
    pose proof (pretty_N_go_short 8 (N.pos p) EmptyString) as Hle8.
    pose proof (pretty_N_go_short 9 (N.pos p) EmptyString) as Hle9.
    pose proof (pretty_N_go_long 8 (N.pos p) EmptyString) as Hge8.
    pose proof (pretty_N_go_long 9 (N.pos p) EmptyString) as Hge9.
    rewrite E8 in Hle8, Hge8. rewrite E9 in Hle9, Hge9.
    change (String.length EmptyString) with 0%nat in *.
    case_bool_decide as Hrange.
    + apply Nat.eqb_eq. lia.
    + apply Nat.eqb_neq. lia.
  - by rewrite bool_decide_eq_false_2 by lia.
Qed.

End Digits.

Section Orders.
Context {W : Type} `{Gui W} `{Python}.
Implicit Types (s : State W).

(** X15. On an open session [change_sales_order] accepts the order
    numbers from 100000000 to 999999999 and no other: for any other
    number it raises [ValueError] before the GUI is touched.  With an
    accepted number and nothing to change it returns at once. *)
Theorem order_number_has_nine_digits fuel num pi ap att s :
  va02_sess (va02 s) ≠ VNone →
  (¬ (100000000 ≤ num ≤ 999999999) →
   Va02.change_sales_order fuel num pi ap att s
   = (Raise (Exn ValueError
               ("Invalid order number used: " +:+ PyStr.str_int num +:+ "!")),
      s))
  ∧ (100000000 ≤ num ≤ 999999999 →
     Va02.change_sales_order fuel num None None None s = (Ok tt, s)).
Proof.
  intros Hopen.
  assert (Hguard : is_none (va02_sess (va02 s)) = false)
    by by destruct (va02_sess (va02 s)).
  split; intros Hnum.
  - unfold Va02.change_sales_order, Va02._sess, mbind, M_bind, gets.
    rewrite Hguard. cbv zeta. rewrite nine_digits.
    by rewrite bool_decide_eq_false_2.
  - unfold Va02.change_sales_order, Va02._sess, mbind, M_bind, gets.
    rewrite Hguard. cbv zeta. rewrite nine_digits.
    by rewrite bool_decide_eq_true_2.
Qed.

(** X16. A list with one approver is treated as no list: when the
    printing flag is given, the call with [[a]] runs as the call without
    approvers, so that [a] is neither checked nor added.  The same holds
    for the empty list. *)
Theorem single_approver_is_ignored fuel num toggled a att s :
  Va02.change_sales_order fuel num (Some toggled) (Some [a]) att s
  = Va02.change_sales_order fuel num (Some toggled) None att s
  ∧ Va02.change_sales_order fuel num (Some toggled) (Some []) att s
    = Va02.change_sales_order fuel num (Some toggled) None att s.
Proof. split; reflexivity. Qed.

End Orders.

Lemma order_number_has_nine_digits_witness :
  Va02.change_sales_order (H:=Still.gui Case.quiet) 5 12345678
    (Some false) None None Case.va02_started
  = (Raise (Exn ValueError
              ("Invalid order number used: " +:+ PyStr.str_int 12345678
               +:+ "!")),
     Case.va02_started)
  ∧ Va02.change_sales_order (H:=Still.gui Case.quiet) 5 123456789
      None None None Case.va02_started
    = (Ok tt, Case.va02_started).
Proof.
  assert (Hopen : va02_sess (va02 Case.va02_started) ≠ VNone)
    by (vm_compute; discriminate).
  split.
  - destruct (order_number_has_nine_digits (H:=Still.gui Case.quiet)
                5 12345678 (Some false) None None Case.va02_started Hopen)
      as [Hbad _].
    apply Hbad. lia.
  - destruct (order_number_has_nine_digits (H:=Still.gui Case.quiet)
                5 123456789 None None None Case.va02_started Hopen)
      as [_ Hgood].
    apply Hgood. lia.
Defined.
